(** * gl2_xsync: extended frame synchronisation and frame pacing

    A shallow embedding of [src/gl2_xsync.c]: the running-average ring
    buffer, the sync-serial state machine ([begin_frame], [end_frame]),
    frame submission ([submit_frame]) and the X11 event dispatcher
    ([process_event]), together with the properties of these functions.

    The program keeps its state in file-level statics; here they are the
    fields of the record [state].  Calls into Xlib, XSync and OpenGL are
    recorded, in program order, in the field [calls].  Readings of the
    monotonic clock come from the oracle [clock], one reading per call of
    [get_time_microseconds].  The [Debug]/[Trace] output is not modelled.

    Further on come the wait for the next frame or event
    ([poll_event_queue], [wait_frame_or_event], answered by an oracle for
    [ppoll]), the containers of [src/gl2_util.h] (attribute lists, array
    and index buffers, with accesses outside a block made explicit), the
    cube mesh of [model_object_cube] and the option loop of [main]. *)

From Stdlib Require Import ZArith Lia Bool.
From Stdlib Require Import Floats.SpecFloat.
From Stdlib Require String.
From stdpp Require Import base list strings.

Local Open Scope Z_scope.

(** ** C integer types (LP64: [long] and [unsigned long] are 64 bits wide) *)

Module CInt.

Definition LONG_MAX : Z := 2 ^ 63 - 1.
Definition LONG_MIN : Z := - 2 ^ 63.

(** Conversion to [unsigned long]: reduction modulo 2^64. *)
Definition to_ulong (z : Z) : Z := z mod 2 ^ 64.

(** Conversion to [long].  Signed overflow is undefined in C; the model
    takes the two's-complement result, as the x86-64 build computes it. *)
Definition to_long (z : Z) : Z := (z + 2 ^ 63) mod 2 ^ 64 - 2 ^ 63.

(** Conversion to [unsigned int] and to [int]. *)
Definition to_uint (z : Z) : Z := z mod 2 ^ 32.
Definition to_int (z : Z) : Z := (z + 2 ^ 31) mod 2 ^ 32 - 2 ^ 31.

Definition is_ulong (z : Z) : Prop := 0 <= z < 2 ^ 64.
Definition is_long (z : Z) : Prop := - 2 ^ 63 <= z <= 2 ^ 63 - 1.

Definition ulong_add (a b : Z) : Z := to_ulong (a + b).
Definition long_add (a b : Z) : Z := to_long (a + b).
Definition long_sub (a b : Z) : Z := to_long (a - b).

(** [long / long]: quotient truncated towards zero. *)
Definition long_div (a b : Z) : Z := to_long (Z.quot a b).

(** [long / size_t]: the usual arithmetic conversions turn the [long]
    operand into [unsigned long] before dividing. *)
Definition long_div_size_t (a b : Z) : Z := to_ulong a / b.

End CInt.
Import CInt.

#[global] Arguments to_ulong : simpl never.
#[global] Arguments to_long : simpl never.
#[global] Arguments to_uint : simpl never.
#[global] Arguments to_int : simpl never.
#[global] Arguments ulong_add : simpl never.
#[global] Arguments long_add : simpl never.
#[global] Arguments long_sub : simpl never.
#[global] Arguments long_div : simpl never.
#[global] Arguments long_div_size_t : simpl never.

(** ** C [float] (IEEE 754 binary32, round to nearest even) *)

Module F32.

Definition float : Type := spec_float.

Definition prec : Z := 24.
Definition emax : Z := 128.

Definition of_Z (z : Z) : float := binary_normalize prec emax z 0 false.
Definition add : float -> float -> float := SFadd prec emax.
Definition mul : float -> float -> float := SFmul prec emax.
Definition div : float -> float -> float := SFdiv prec emax.

(** [a > b] and [a <= b] on floats; both are false when an operand is NaN. *)
Definition gtb (a b : float) : bool := SFltb b a.
Definition leb (a b : float) : bool := SFleb a b.

Definition is_nan (x : float) : bool :=
  match x with S754_nan => true | _ => false end.

(** The literals of the source. *)
Definition f_1e6 : float := Eval vm_compute in of_Z 1000000.
Definition f_60 : float := Eval vm_compute in of_Z 60.
Definition f_0 : float := S754_zero false.
(** [29.97] rounded to binary32: 15712911 * 2^-19. *)
Definition f_29_97 : float := S754_finite false 15712911 (-19).

(** Conversion [(long) x]: the value truncated towards zero.  C leaves the
    conversion undefined for NaN, infinities and values outside [long];
    the model returns what the x86-64 instruction [cvttss2si] leaves in
    the register then, [LONG_MIN]. *)
Definition to_long_trunc (x : float) : Z :=
  match x with
  | S754_zero _ => 0
  | S754_finite s m e =>
      let mag := if 0 <=? e then Z.pos m * 2 ^ e else Z.pos m / 2 ^ (- e) in
      let v := if s then - mag else mag in
      if (LONG_MIN <=? v) && (v <=? LONG_MAX) then v else LONG_MIN
  | _ => LONG_MIN
  end.

End F32.

#[global] Arguments F32.of_Z : simpl never.
#[global] Arguments F32.add : simpl never.
#[global] Arguments F32.mul : simpl never.
#[global] Arguments F32.div : simpl never.
#[global] Arguments F32.gtb : simpl never.
#[global] Arguments F32.leb : simpl never.
#[global] Arguments F32.to_long_trunc : simpl never.

(** ** Running-average buffer *)

(** [array_size(buffer->samples)] *)
Definition samples_size : Z := 31.

Record circular_buffer : Type := mk_circular_buffer {
  sum : Z;            (* long *)
  count : Z;          (* long *)
  offset : Z;         (* long *)
  samples : list Z    (* long samples[31] *)
}.

(** A static [circular_buffer] is zero-initialised. *)
Definition circular_buffer_init : circular_buffer :=
  mk_circular_buffer 0 0 0 (replicate 31 0).

(** Read of [samples[i]]; [i] stays inside the array (see
    [cb_wf_add]), an index outside it has no defined value in C and reads
    as 0 here. *)
Definition sample_at (b : circular_buffer) (i : Z) : Z :=
  default 0 (samples b !! Z.to_nat i).

Definition circular_buffer_add (buffer : circular_buffer) (new_value : Z)
  : circular_buffer :=
  let old_value := sample_at buffer (offset buffer) in
  let samples' := <[Z.to_nat (offset buffer) := new_value]> (samples buffer) in
  let sum' := long_add (sum buffer) (long_sub new_value old_value) in
  let count' := long_add (count buffer) 1 in
  let offset' := long_add (offset buffer) 1 in
  let offset'' := if samples_size <=? to_ulong offset' then 0 else offset' in
  mk_circular_buffer sum' count' offset'' samples'.

Definition circular_buffer_average (buffer : circular_buffer) : Z :=
  if count buffer =? 0 then -1
  else if to_ulong (count buffer) <? samples_size
       then long_div (sum buffer) (count buffer)
       else to_long (long_div_size_t (sum buffer) samples_size).

(** ** Program state *)

Definition Atom : Type := Z.          (* unsigned long *)
Definition XID : Type := Z.
Definition XSyncCounter : Type := XID.

(** [XSyncValue]: a signed 64-bit counter value kept as two halves. *)
Record XSyncValue : Type := mk_XSyncValue {
  hi : Z;   (* int *)
  lo : Z    (* unsigned int *)
}.

(** [XSyncIntsToValue(pv, l, h)]: parameters [unsigned int l], [int h]. *)
Definition XSyncIntsToValue (l h : Z) : XSyncValue :=
  mk_XSyncValue (to_int h) (to_uint l).

(** The unsigned 64-bit number a counter value stands for. *)
Definition XSyncValue_to_ulong (v : XSyncValue) : Z :=
  to_ulong (hi v * 2 ^ 32 + lo v).

Inductive frame_disposition : Type := frame_normal | frame_urgent.

(** The five [long]s of [XClientMessageEvent.data.l]. *)
Record client_data : Type := mk_client_data {
  l0 : Z; l1 : Z; l2 : Z; l3 : Z; l4 : Z
}.

(** [XEvent], by the value of [e.type], with the members the program
    reads. *)
Inductive XEvent : Type :=
| Expose (serial : Z) (count : Z)
| ConfigureNotify (serial : Z) (width height : Z)
| ClientMessage (serial : Z) (window : XID) (message_type : Atom)
    (l : client_data)
| PropertyNotify (atom : Atom)
| OtherEvent (type : Z).

(** Calls into the window system and the renderer, as recorded in
    [calls]. *)
Inductive call : Type :=
| XSync (discard : bool)
| XFlush
| XSyncSetCounter (counter : XSyncCounter) (value : XSyncValue)
| XSendEvent (w : XID) (e : XEvent)
| glXSwapBuffers
| call_reshape (width height : Z)
| call_draw (t : F32.float).

Record timespec : Type := mk_timespec { tv_sec : Z; tv_nsec : Z }.

(** The serials and flags of the extended synchronisation protocol. *)
Record sync_state : Type := mk_sync_state {
  request_extended_sync : Z;      (* int *)
  configure_extended_sync : Z;    (* int *)
  current_sync_serial : Z;        (* ulong *)
  request_sync_serial : Z;
  configure_sync_serial : Z;
  inflight_sync_serial : Z;
  drawn_sync_serial : Z;
  timing_sync_serial : Z
}.

(** What the program learnt from the X server at start-up. *)
Record xserver_state : Type := mk_xserver_state {
  WM_PROTOCOLS : Atom;
  _NET_SUPPORTED : Atom;
  _NET_WM_MOVERESIZE : Atom;
  _NET_WM_SYNC_REQUEST : Atom;
  _NET_WM_SYNC_REQUEST_COUNTER : Atom;
  _NET_WM_FRAME_DRAWN : Atom;
  _NET_WM_FRAME_TIMINGS : Atom;
  _NET_WM_PING : Atom;
  update_counter : XSyncCounter;
  extended_counter : XSyncCounter;
  supported_atoms : list Atom;
  num_supported_atoms : Z;        (* long *)
  have_xsync_extension : Z;       (* int *)
  have_net_supported : Z;
  have_wm_moveresize : Z;
  DefaultRootWindow : XID
}.

(** The statics of the demo's frame loop. *)
Record frame_state : Type := mk_frame_state {
  t : F32.float;
  animation : bool;
  frame_rate : F32.float;
  frame_number : Z;               (* ulong *)
  last_draw_time : Z;             (* long *)
  next_draw_time : Z;
  current_time : Z;
  delta_time : Z;
  render_time : Z;
  width : Z;                      (* int *)
  height : Z;
  current_width : Z;
  current_height : Z
}.

Record state : Type := mk_state {
  sync : sync_state;
  xserver : xserver_state;
  frame : frame_state;
  frame_time_buffer : circular_buffer;
  render_time_buffer : circular_buffer;
  clock : nat -> timespec;        (* successive CLOCK_MONOTONIC readings *)
  ticks : nat;                    (* readings taken so far *)
  calls : list call               (* oldest first *)
}.

(** *** Field updates *)

Definition with_sync (f : sync_state -> sync_state) (st : state) : state :=
  mk_state (f (sync st)) (xserver st) (frame st) (frame_time_buffer st)
    (render_time_buffer st) (clock st) (ticks st) (calls st).

Definition with_frame (f : frame_state -> frame_state) (st : state) : state :=
  mk_state (sync st) (xserver st) (f (frame st)) (frame_time_buffer st)
    (render_time_buffer st) (clock st) (ticks st) (calls st).

Definition set_frame_time_buffer (b : circular_buffer) (st : state) : state :=
  mk_state (sync st) (xserver st) (frame st) b
    (render_time_buffer st) (clock st) (ticks st) (calls st).

Definition set_render_time_buffer (b : circular_buffer) (st : state) : state :=
  mk_state (sync st) (xserver st) (frame st) (frame_time_buffer st)
    b (clock st) (ticks st) (calls st).

Definition set_ticks (n : nat) (st : state) : state :=
  mk_state (sync st) (xserver st) (frame st) (frame_time_buffer st)
    (render_time_buffer st) (clock st) n (calls st).

(** Record one call. *)
Definition emit (c : call) (st : state) : state :=
  mk_state (sync st) (xserver st) (frame st) (frame_time_buffer st)
    (render_time_buffer st) (clock st) (ticks st) (calls st ++ [c]).

Definition set_request_extended_sync (v : Z) (s : sync_state) : sync_state :=
  mk_sync_state v (configure_extended_sync s) (current_sync_serial s)
    (request_sync_serial s) (configure_sync_serial s)
    (inflight_sync_serial s) (drawn_sync_serial s) (timing_sync_serial s).

Definition set_configure_extended_sync (v : Z) (s : sync_state) : sync_state :=
  mk_sync_state (request_extended_sync s) v (current_sync_serial s)
    (request_sync_serial s) (configure_sync_serial s)
    (inflight_sync_serial s) (drawn_sync_serial s) (timing_sync_serial s).

Definition set_current_sync_serial (v : Z) (s : sync_state) : sync_state :=
  mk_sync_state (request_extended_sync s) (configure_extended_sync s) v
    (request_sync_serial s) (configure_sync_serial s)
    (inflight_sync_serial s) (drawn_sync_serial s) (timing_sync_serial s).

Definition set_request_sync_serial (v : Z) (s : sync_state) : sync_state :=
  mk_sync_state (request_extended_sync s) (configure_extended_sync s)
    (current_sync_serial s) v (configure_sync_serial s)
    (inflight_sync_serial s) (drawn_sync_serial s) (timing_sync_serial s).

Definition set_configure_sync_serial (v : Z) (s : sync_state) : sync_state :=
  mk_sync_state (request_extended_sync s) (configure_extended_sync s)
    (current_sync_serial s) (request_sync_serial s) v
    (inflight_sync_serial s) (drawn_sync_serial s) (timing_sync_serial s).

Definition set_inflight_sync_serial (v : Z) (s : sync_state) : sync_state :=
  mk_sync_state (request_extended_sync s) (configure_extended_sync s)
    (current_sync_serial s) (request_sync_serial s) (configure_sync_serial s)
    v (drawn_sync_serial s) (timing_sync_serial s).

Definition set_drawn_sync_serial (v : Z) (s : sync_state) : sync_state :=
  mk_sync_state (request_extended_sync s) (configure_extended_sync s)
    (current_sync_serial s) (request_sync_serial s) (configure_sync_serial s)
    (inflight_sync_serial s) v (timing_sync_serial s).

Definition set_timing_sync_serial (v : Z) (s : sync_state) : sync_state :=
  mk_sync_state (request_extended_sync s) (configure_extended_sync s)
    (current_sync_serial s) (request_sync_serial s) (configure_sync_serial s)
    (inflight_sync_serial s) (drawn_sync_serial s) v.

Definition set_t (v : F32.float) (f : frame_state) : frame_state :=
  mk_frame_state v (animation f) (frame_rate f) (frame_number f)
    (last_draw_time f) (next_draw_time f) (current_time f) (delta_time f)
    (render_time f) (width f) (height f) (current_width f) (current_height f).

Definition set_frame_number (v : Z) (f : frame_state) : frame_state :=
  mk_frame_state (t f) (animation f) (frame_rate f) v
    (last_draw_time f) (next_draw_time f) (current_time f) (delta_time f)
    (render_time f) (width f) (height f) (current_width f) (current_height f).

Definition set_last_draw_time (v : Z) (f : frame_state) : frame_state :=
  mk_frame_state (t f) (animation f) (frame_rate f) (frame_number f)
    v (next_draw_time f) (current_time f) (delta_time f)
    (render_time f) (width f) (height f) (current_width f) (current_height f).

Definition set_next_draw_time (v : Z) (f : frame_state) : frame_state :=
  mk_frame_state (t f) (animation f) (frame_rate f) (frame_number f)
    (last_draw_time f) v (current_time f) (delta_time f)
    (render_time f) (width f) (height f) (current_width f) (current_height f).

Definition set_current_time (v : Z) (f : frame_state) : frame_state :=
  mk_frame_state (t f) (animation f) (frame_rate f) (frame_number f)
    (last_draw_time f) (next_draw_time f) v (delta_time f)
    (render_time f) (width f) (height f) (current_width f) (current_height f).

Definition set_delta_time (v : Z) (f : frame_state) : frame_state :=
  mk_frame_state (t f) (animation f) (frame_rate f) (frame_number f)
    (last_draw_time f) (next_draw_time f) (current_time f) v
    (render_time f) (width f) (height f) (current_width f) (current_height f).

Definition set_render_time (v : Z) (f : frame_state) : frame_state :=
  mk_frame_state (t f) (animation f) (frame_rate f) (frame_number f)
    (last_draw_time f) (next_draw_time f) (current_time f) (delta_time f)
    v (width f) (height f) (current_width f) (current_height f).

Definition set_size (w h : Z) (f : frame_state) : frame_state :=
  mk_frame_state (t f) (animation f) (frame_rate f) (frame_number f)
    (last_draw_time f) (next_draw_time f) (current_time f) (delta_time f)
    (render_time f) w h (current_width f) (current_height f).

Definition set_current_size (w h : Z) (f : frame_state) : frame_state :=
  mk_frame_state (t f) (animation f) (frame_rate f) (frame_number f)
    (last_draw_time f) (next_draw_time f) (current_time f) (delta_time f)
    (render_time f) (width f) (height f) w h.

(** ** The functions of [gl2_xsync.c] *)

(** [ts.tv_sec * 1000000l + ts.tv_nsec/1000l], returned as [ulong]. *)
Definition timespec_microseconds (ts : timespec) : Z :=
  to_ulong (long_add (to_long (tv_sec ts * 1000000))
                     (to_long (Z.quot (tv_nsec ts) 1000))).

Definition get_time_microseconds (st : state) : Z * state :=
  (timespec_microseconds (clock st (ticks st)), set_ticks (S (ticks st)) st).

Definition sync_counter (counter : XSyncCounter) (value : Z) (st : state)
  : state :=
  if have_xsync_extension (xserver st) =? 0 then st
  else
    let sync_value :=
      XSyncIntsToValue (Z.land value 0xFFFFFFFF) (Z.shiftr value 32) in
    emit (XSyncSetCounter counter sync_value) st.

(** inform the compositor that we are starting to draw a frame *)
Definition begin_frame (disposition : frame_disposition) (st : state) : state :=
  (* extended synchronization in response to _NET_WM_SYNC_REQUEST *)
  let st :=
    if negb (configure_sync_serial (sync st) =? 0)
       && negb (configure_extended_sync (sync st) =? 0)
    then with_sync (fun s => set_configure_sync_serial 0
                     (set_current_sync_serial (configure_sync_serial s) s)) st
    else st in
  (* advance frame to next multiple of 4 *)
  let st :=
    if negb (Z.land (current_sync_serial (sync st)) 3 =? 0)
    then with_sync (fun s => set_current_sync_serial
                     (Z.land (ulong_add (current_sync_serial s) 3)
                             (to_ulong (Z.lnot 3))) s) st
    else st in
  (* advance frame to odd value, 1 = normal, 3 = urgent *)
  let st := with_sync (fun s => set_inflight_sync_serial
                         (ulong_add (current_sync_serial s) 4) s) st in
  let st := with_sync (fun s => set_current_sync_serial
                         (ulong_add (current_sync_serial s)
                            match disposition with
                            | frame_urgent => 3
                            | frame_normal => 1
                            end) s) st in
  sync_counter (extended_counter (xserver st)) (current_sync_serial (sync st)) st.

(** inform the compositor that we have finished drawing a frame *)
Definition end_frame (st : state) : state :=
  (* extended synchronization *)
  let st :=
    if Z.land (current_sync_serial (sync st)) 3 =? 1 then
      let st := with_sync (fun s => set_current_sync_serial
                             (ulong_add (current_sync_serial s) 3) s) st in
      sync_counter (extended_counter (xserver st))
        (current_sync_serial (sync st)) st
    else if Z.land (current_sync_serial (sync st)) 3 =? 3 then
      let st := with_sync (fun s => set_current_sync_serial
                             (ulong_add (current_sync_serial s) 1) s) st in
      sync_counter (extended_counter (xserver st))
        (current_sync_serial (sync st)) st
    else st in
  (* basic synchronization *)
  if negb (configure_sync_serial (sync st) =? 0)
     && negb (configure_extended_sync (sync st) =? 0)
  then
    let st := sync_counter (update_counter (xserver st))
                (configure_sync_serial (sync st)) st in
    with_sync (fun s => set_configure_extended_sync 0
                 (set_configure_sync_serial 0 s)) st
  else st.

Definition draw_frame (st : state) : state :=
  let st :=
    if negb (current_width (frame st) =? width (frame st))
       || negb (current_height (frame st) =? height (frame st))
    then
      let st := emit (call_reshape (width (frame st)) (height (frame st))) st in
      with_frame (fun f => set_current_size (width f) (height f) f) st
    else st in
  let st :=
    if animation (frame st) then
      (* avoid overflow due to deltas > one second *)
      with_frame (fun f => set_t
        (F32.add (t f)
           (F32.div (F32.mul (F32.of_Z (Z.rem (delta_time f) 1000000)) F32.f_60)
                    F32.f_1e6)) f) st
    else st in
  emit (call_draw (t (frame st))) st.

(** submit frame for rendering *)
Definition submit_frame (disposition : frame_disposition)
    (target_frame_rate : F32.float) (st : state) : state :=
  let '(now, st) := get_time_microseconds st in
  let st := with_frame (set_current_time (to_long now)) st in
  (* tearing may result if frames are submitted before receiving timings
     for inflight frames submitted in response to synchronization requests *)
  if (0 <? timing_sync_serial (sync st))
     && (timing_sync_serial (sync st) <? inflight_sync_serial (sync st))
  then
    let st := emit (XSync false) st in
    with_frame (fun f => set_next_draw_time (long_add (current_time f) 2000) f) st
  else
    let st :=
      if negb (last_draw_time (frame st) =? 0) then
        let st := with_frame (fun f => set_delta_time
                     (long_sub (current_time f) (last_draw_time f)) f) st in
        set_frame_time_buffer
          (circular_buffer_add (frame_time_buffer st) (delta_time (frame st))) st
      else st in
    let st := with_frame (fun f => set_last_draw_time (current_time f) f) st in
    let st := with_frame (fun f => set_next_draw_time
                 (long_add (current_time f)
                    (F32.to_long_trunc (F32.div F32.f_1e6 target_frame_rate))) f)
                st in
    let st := with_frame (fun f => set_frame_number
                 (ulong_add (frame_number f) 1) f) st in
    let st := emit XFlush st in
    let st := draw_frame st in
    let st := begin_frame frame_normal st in
    let st := emit glXSwapBuffers st in
    let st := end_frame st in
    let '(now, st) := get_time_microseconds st in
    let st := with_frame (set_current_time (to_long now)) st in
    let st := with_frame (fun f => set_render_time
                 (long_sub (current_time f) (last_draw_time f)) f) st in
    set_render_time_buffer
      (circular_buffer_add (render_time_buffer st) (render_time (frame st))) st.

(** The frame rate an [Expose] event submits its frame with: the locals
    [measured_frame_rate] and [cap_frame_rate] of [process_event]. *)
Definition measured_frame_rate (frame_time_avg : Z) : F32.float :=
  F32.div F32.f_1e6 (F32.of_Z frame_time_avg).

Definition cap_frame_rate (frame_rate : F32.float) (frame_time_avg : Z)
  : F32.float :=
  if (0 <? frame_time_avg)
     && F32.gtb frame_rate (measured_frame_rate frame_time_avg)
  then measured_frame_rate frame_time_avg
  else frame_rate.

(** process X11 event: [e] is the event [XNextEvent] returned *)
Definition process_event (e : XEvent) (st : state) : state :=
  let '(now, st) := get_time_microseconds st in
  let st := with_frame (set_current_time (to_long now)) st in
  match e with
  | Expose _ _ =>
      (* cap frame rate of expose frames to measured frame rate. *)
      let frame_time_avg := circular_buffer_average (frame_time_buffer st) in
      submit_frame frame_urgent
        (cap_frame_rate (frame_rate (frame st)) frame_time_avg) st
  | ConfigureNotify _ w h =>
      let st := with_frame (set_size w h) st in
      let st := with_sync (fun s => set_configure_sync_serial
                             (request_sync_serial s) s) st in
      let st := with_sync (fun s => set_configure_extended_sync
                             (request_extended_sync s) s) st in
      let st := with_sync (set_request_sync_serial 0) st in
      let st := with_sync (set_request_extended_sync 0) st in
      sync_counter (extended_counter (xserver st))
        (current_sync_serial (sync st)) st
  | ClientMessage serial _ message_type l =>
      if (message_type =? WM_PROTOCOLS (xserver st))
         && (to_ulong (l0 l) =? _NET_WM_PING (xserver st))
      then
        let root := DefaultRootWindow (xserver st) in
        emit (XSendEvent root (ClientMessage serial root message_type l)) st
      else if (message_type =? WM_PROTOCOLS (xserver st))
              && (to_ulong (l0 l) =? _NET_WM_SYNC_REQUEST (xserver st))
      then
        let st := with_sync (set_request_sync_serial
                     (to_ulong (long_add (l2 l) (to_long (Z.shiftl (l3 l) 32)))))
                    st in
        with_sync (set_request_extended_sync (if l4 l =? 0 then 0 else 1)) st
      else if message_type =? _NET_WM_FRAME_DRAWN (xserver st) then
        let sync_serial :=
          to_ulong (Z.lor (to_long (Z.shiftl (l1 l) 32)) (l0 l)) in
        if drawn_sync_serial (sync st) <? sync_serial
        then with_sync (set_drawn_sync_serial sync_serial) st
        else st
      else if message_type =? _NET_WM_FRAME_TIMINGS (xserver st) then
        let sync_serial :=
          to_ulong (Z.lor (to_long (Z.shiftl (l1 l) 32)) (l0 l)) in
        if timing_sync_serial (sync st) <? sync_serial
        then with_sync (set_timing_sync_serial sync_serial) st
        else st
      else st
  | PropertyNotify _ => st
  | OtherEvent _ => st
  end.

(** The loop of [check_wm_supported] over [supported_atoms[0..n-1]];
    [None] stands for control reaching the closing brace of the function
    with no [return] executed, which leaves the result undefined. *)
Fixpoint check_wm_supported_loop (atom : Atom) (atoms : list Atom) : option Z :=
  match atoms with
  | [] => None
  | a :: rest => if a =? atom then Some 1 else check_wm_supported_loop atom rest
  end.

Definition check_wm_supported (atom : Atom) (st : state) : option Z :=
  if have_net_supported (xserver st) =? 0 then Some 0
  else check_wm_supported_loop atom
         (take (Z.to_nat (num_supported_atoms (xserver st)))
               (supported_atoms (xserver st))).

#[global] Arguments circular_buffer_add : simpl never.
#[global] Arguments circular_buffer_average : simpl never.
#[global] Arguments sync_counter : simpl never.
#[global] Arguments begin_frame : simpl never.
#[global] Arguments end_frame : simpl never.
#[global] Arguments draw_frame : simpl never.
#[global] Arguments submit_frame : simpl never.
#[global] Arguments process_event : simpl never.
#[global] Arguments cap_frame_rate : simpl never.

(** ** Initial state *)

Definition sync_state_init : sync_state := mk_sync_state 0 0 0 0 0 0 0 0.

(** The statics after their initialisers: [frame_rate = 29.97],
    [width = height = 500], [animation = 1], everything else zero. *)
Definition frame_state_init : frame_state :=
  mk_frame_state F32.f_0 true F32.f_29_97 0 0 0 0 0 0 500 500 0 0.

Definition initial_state (xs : xserver_state) (clk : nat -> timespec) : state :=
  mk_state sync_state_init xs frame_state_init
    circular_buffer_init circular_buffer_init clk O [].

(** A sample server: atoms 300..307, counters 41 and 42, XSync present,
    a window manager advertising three atoms (none of them
    [_NET_WM_MOVERESIZE]), root window 1. *)
Definition sample_xserver : xserver_state :=
  mk_xserver_state 300 301 302 303 304 305 306 307 41 42
    [301; 305; 306] 3 1 1 0 1.

(** A sample clock: one reading every 20 ms, starting at 1 s. *)
Definition sample_clock (n : nat) : timespec :=
  mk_timespec 1 (20000000 * Z.of_nat n).

Definition sample_state : state := initial_state sample_xserver sample_clock.

(** * Vocabulary of the statements *)

(** ** Definitions: Running-average buffer *)

Definition sumZ (l : list Z) : Z := foldr Z.add 0 l.

(** Well-formed buffer: 31 slots, write cursor inside the array. *)
Definition cb_wf (b : circular_buffer) : Prop :=
  length (samples b) = 31%nat /\ 0 <= offset b < 31.

(** The slots in age order, the one to be overwritten next first. *)
Definition ring_view (b : circular_buffer) : list Z :=
  drop (Z.to_nat (offset b)) (samples b)
  ++ take (Z.to_nat (offset b)) (samples b).

(** Inserting a sequence of samples, oldest first. *)
Definition add_all (b : circular_buffer) (xs : list Z) : circular_buffer :=
  fold_left circular_buffer_add xs b.

(** The most recent [min (length xs) 31] samples of [xs]. *)
Definition recent (xs : list Z) : list Z := drop (length xs - 31) xs.

(** The last 31 entries of the history padded with the initial zeros. *)
Definition window (xs : list Z) : list Z :=
  drop (length xs) (replicate 31 0 ++ xs).

(** [sum] is the 64-bit sum of the slots. *)
Definition sum_ok (b : circular_buffer) : Prop :=
  sum b = to_long (sumZ (samples b)).

(** ** Definitions: Sync serial state machine *)

(** The [XSyncValue] that [sync_counter] builds from an [unsigned long]. *)
Definition counter_value (v : Z) : XSyncValue :=
  XSyncIntsToValue (Z.land v 0xFFFFFFFF) (Z.shiftr v 32).

(** A [configure_sync_serial] waiting with the extended flag set: the
    condition that [begin_frame] and [end_frame] both test. *)
Definition configure_pending (s : sync_state) : bool :=
  negb (configure_sync_serial s =? 0) && negb (configure_extended_sync s =? 0).

(** The multiple of 4 a frame starts from. *)
Definition frame_base (s : sync_state) : Z :=
  let c := if configure_pending s then configure_sync_serial s
           else current_sync_serial s in
  if Z.land c 3 =? 0 then c
  else Z.land (ulong_add c 3) (to_ulong (Z.lnot 3)).

Definition disposition_step (d : frame_disposition) : Z :=
  match d with frame_urgent => 3 | frame_normal => 1 end.

(** The serial [end_frame] moves to: the low bits 01 and 11 go to 00. *)
Definition end_serial (c : Z) : Z :=
  if Z.land c 3 =? 1 then ulong_add c 3
  else if Z.land c 3 =? 3 then ulong_add c 1
  else c.

Definition frame_open (c : Z) : bool :=
  (Z.land c 3 =? 1) || (Z.land c 3 =? 3).

(** [begin_frame] and [end_frame] as functions of the serials alone. *)
Definition begin_frame_serials (d : frame_disposition) (s : sync_state)
  : sync_state :=
  mk_sync_state
    (request_extended_sync s)
    (configure_extended_sync s)
    (ulong_add (frame_base s) (disposition_step d))
    (request_sync_serial s)
    (if configure_pending s then 0 else configure_sync_serial s)
    (ulong_add (frame_base s) 4)
    (drawn_sync_serial s)
    (timing_sync_serial s).

Definition end_frame_serials (s : sync_state) : sync_state :=
  let s' := set_current_sync_serial (end_serial (current_sync_serial s)) s in
  if configure_pending s
  then set_configure_extended_sync 0 (set_configure_sync_serial 0 s')
  else s'.

(** The guard of [submit_frame]: timings are owed for a frame in flight. *)
Definition awaiting_timings (s : sync_state) : bool :=
  (0 <? timing_sync_serial s)
  && (timing_sync_serial s <? inflight_sync_serial s).

(** What may happen to the state, one step at a time: the two halves of a
    frame cycle, a whole frame submission, or the dispatch of an event. *)
Inductive action : Type :=
| do_begin_frame (d : frame_disposition)
| do_end_frame
| do_submit_frame (d : frame_disposition) (target_frame_rate : F32.float)
| do_process_event (e : XEvent).

Definition step (a : action) (st : state) : state :=
  match a with
  | do_begin_frame d => begin_frame d st
  | do_end_frame => end_frame st
  | do_submit_frame d rate => submit_frame d rate st
  | do_process_event e => process_event e st
  end.

Definition run (acts : list action) (st : state) : state :=
  fold_left (fun s a => step a s) acts st.

(** Is a frame cycle open after [acts], i.e. was the last of the
    [begin_frame]/[end_frame] calls a [begin_frame]? *)
Definition cycle_open (acts : list action) : bool :=
  fold_left (fun o a => match a with
                        | do_begin_frame _ => true
                        | do_end_frame => false
                        | _ => o
                        end) acts false.

(** The states a run passes through: the initial one, then the state after
    each action. *)
Fixpoint states_of_run (acts : list action) (st : state) : list state :=
  match acts with
  | [] => [st]
  | a :: rest => st :: states_of_run rest (step a st)
  end.

(** A run of two normal frame cycles with a resize in between. *)
Definition sample_run : list action :=
  [do_begin_frame frame_normal; do_end_frame;
   do_process_event (ConfigureNotify 7 640 480);
   do_begin_frame frame_normal; do_end_frame].

(** ** Definitions: Frame submission *)

(** The reading [submit_frame] and [process_event] store in
    [current_time] on entry. *)
Definition time_now (st : state) : Z :=
  to_long (timespec_microseconds (clock st (ticks st))).

(** A call that belongs to the renderer rather than to the X protocol. *)
Definition renderer_call (c : call) : bool :=
  match c with
  | call_reshape _ _ | call_draw _ | glXSwapBuffers => true
  | _ => false
  end.

(** A state in which timings are owed: serial 8 is in flight and the
    compositor has reported timings up to serial 4 only. *)
Definition sample_delayed_state : state :=
  with_sync (fun s => set_timing_sync_serial 4
                        (set_inflight_sync_serial 8
                           (set_current_sync_serial 8 s)))
    sample_state.

(** ** Definitions: Event dispatcher *)

(** The state once [process_event] has taken its clock reading. *)
Definition entered (st : state) : state :=
  with_frame (set_current_time (time_now st)) (set_ticks (S (ticks st)) st).

(** The serial of a [_NET_WM_FRAME_DRAWN] or [_NET_WM_FRAME_TIMINGS]
    message: [((long)l[1] << 32) | l[0]] as [ulong]. *)
Definition message_sync_serial (l : client_data) : Z :=
  to_ulong (Z.lor (to_long (Z.shiftl (l1 l) 32)) (l0 l)).

(** [XInternAtom] gives different names different atoms. *)
Definition atoms_distinct (xs : xserver_state) : Prop :=
  NoDup [WM_PROTOCOLS xs; _NET_SUPPORTED xs; _NET_WM_MOVERESIZE xs;
         _NET_WM_SYNC_REQUEST xs; _NET_WM_SYNC_REQUEST_COUNTER xs;
         _NET_WM_FRAME_DRAWN xs; _NET_WM_FRAME_TIMINGS xs; _NET_WM_PING xs].

(** A message with serial 8 ([l[0] = 8], [l[1] = 0]). *)
Definition sample_serial_8 : client_data := mk_client_data 8 0 0 0 0.

(** A basic sync request for serial 12 ([l[4] = 0]), and an extended one
    for serial 0 ([l[4] = 1]); 300 is [WM_PROTOCOLS] and 303 is
    [_NET_WM_SYNC_REQUEST] on the sample server. *)
Definition sample_basic_request : XEvent :=
  ClientMessage 1 9 300 (mk_client_data 303 0 12 0 0).

Definition sample_extended_request_0 : XEvent :=
  ClientMessage 3 9 300 (mk_client_data 303 0 0 0 1).

(** Serial 12 promoted to the configure slot, then a request with serial
    0 and the extended flag. *)
Definition sample_promoted_state : state :=
  run [do_process_event sample_basic_request;
       do_process_event (ConfigureNotify 2 640 480);
       do_process_event sample_extended_request_0] sample_state.

(** Serial 12 of a basic request promoted to the configure slot; the
    request slot is empty again. *)
Definition sample_configured_state : state :=
  run [do_process_event sample_basic_request;
       do_process_event (ConfigureNotify 2 640 480)] sample_state.

(** ** Definitions: The running average *)

(** Thirty-one samples of -1 microsecond. *)
Definition sample_negative : list Z := replicate 31 (-1).

(** ** Definitions: Capped frame rate *)

(** [r] is the smaller of [a] and [b]. *)
Definition is_min (r a b : F32.float) : Prop :=
  (r = a \/ r = b) /\ F32.leb r a = true /\ F32.leb r b = true.

(** [--frame-rate 60], and three frames 20 ms apart in the frame-time
    buffer. *)
Definition sample_paced_state : state :=
  set_frame_time_buffer
    (add_all circular_buffer_init [20000; 20000; 20000])
    (with_frame (fun f =>
       mk_frame_state (t f) (animation f) (F32.of_Z 60) (frame_number f)
         (last_draw_time f) (next_draw_time f) (current_time f)
         (delta_time f) (render_time f) (width f) (height f)
         (current_width f) (current_height f))
       sample_state).

(** * Further functions and vocabulary *)

(** ** Definitions: sample inputs for the running average *)

(** The samples 1, 2, ..., 32. *)
Definition sample_32 : list Z := map Z.of_nat (seq 1 32).

(** Two negative samples. *)
Definition sample_two_negative : list Z := [-5; -2].

(** ** Definitions: more on the sync serial state machine *)

(** The call [sync_counter] makes, if any. *)
Definition counter_writes (st : state) (c : XSyncCounter) (v : Z) : list call :=
  if have_xsync_extension (xserver st) =? 0 then []
  else [XSyncSetCounter c (counter_value v)].

Definition is_counter_write (c : call) : bool :=
  match c with XSyncSetCounter _ _ => true | _ => false end.

(** The calls [draw_frame] makes. *)
Definition draw_calls (st : state) : list call :=
  (if negb (current_width (frame st) =? width (frame st))
      || negb (current_height (frame st) =? height (frame st))
   then [call_reshape (width (frame st)) (height (frame st))] else [])
  ++ [call_draw (t (frame (draw_frame st)))].

(** A state with a frame left open: current serial 5. *)
Definition sample_open_state : state :=
  with_sync (set_current_sync_serial 5) sample_state.

(** An extended sync request for serial 0x100000002 + 9: [l[2] = 11],
    [l[3] = 1], [l[4] = 1]. *)
Definition sample_extended_request : client_data :=
  mk_client_data 303 0 11 1 1.

(** ** Definitions: the two halves of a frame submission *)

(** [submit_frame] up to its call of [XFlush]: the clock reading is
    stored, the frame interval recorded (from the second frame on), the
    next draw time set and the frame counted. *)
Definition frame_started (target_frame_rate : F32.float) (st : state) : state :=
  let st := entered st in
  let st :=
    if negb (last_draw_time (frame st) =? 0) then
      let st := with_frame (fun f => set_delta_time
                   (long_sub (current_time f) (last_draw_time f)) f) st in
      set_frame_time_buffer
        (circular_buffer_add (frame_time_buffer st) (delta_time (frame st))) st
    else st in
  let st := with_frame (fun f => set_last_draw_time (current_time f) f) st in
  let st := with_frame (fun f => set_next_draw_time
               (long_add (current_time f)
                  (F32.to_long_trunc (F32.div F32.f_1e6 target_frame_rate))) f)
              st in
  with_frame (fun f => set_frame_number (ulong_add (frame_number f) 1) f) st.

(** [submit_frame] after [end_frame]: the second clock reading and the
    render time. *)
Definition frame_finished (st : state) : state :=
  let st := entered st in
  let st := with_frame (fun f => set_render_time
               (long_sub (current_time f) (last_draw_time f)) f) st in
  set_render_time_buffer
    (circular_buffer_add (render_time_buffer st) (render_time (frame st))) st.

(** The clock reading [submit_frame] takes after [end_frame]. *)
Definition time_after (st : state) : Z :=
  to_long (timespec_microseconds (clock st (S (ticks st)))).

(** ** Definitions: what a run adds to the log *)

(** [st'] has the server data of [st] and its log is the log of [st]
    followed by calls that all satisfy [P]. *)
Definition adds_only (P : call -> Prop) (st st' : state) : Prop :=
  xserver st' = xserver st
  /\ exists new, calls st' = calls st ++ new /\ Forall P new.

(** The steps the application itself takes: it submits frames and
    dispatches events; [begin_frame] and [end_frame] are called from
    [submit_frame] only. *)
Definition app_action (a : action) : bool :=
  match a with
  | do_submit_frame _ _ | do_process_event _ => true
  | do_begin_frame _ | do_end_frame => false
  end.

(** A call other than a write to a counter different from [counter]. *)
Definition writes_only (counter : XSyncCounter) (c : call) : Prop :=
  match c with
  | XSyncSetCounter c' _ => c' = counter
  | _ => True
  end.

(** The sample server without the XSync extension. *)
Definition sample_plain_xserver : xserver_state :=
  mk_xserver_state 300 301 302 303 304 305 306 307 0 0
    [301; 305; 306] 3 0 1 0 1.

Definition sample_plain_state : state :=
  initial_state sample_plain_xserver sample_clock.

(** What the application does on a resize: the sync request and the
    [ConfigureNotify] are dispatched, a frame is submitted, and an
    [Expose] submits another. *)
Definition sample_app_run : list action :=
  [do_process_event (ClientMessage 1 9 300 sample_extended_request);
   do_process_event (ConfigureNotify 2 640 480);
   do_submit_frame frame_normal F32.f_29_97;
   do_process_event (Expose 3 0)].

(** ** Definitions: serials carried by client messages *)

(** A frame-drawn message whose low half is the sign-extended 32-bit
    value 0x80000000 and whose high half is 5. *)
Definition sample_negative_low_half : client_data :=
  mk_client_data (- 2 ^ 31) 5 0 0 0.

(** A message with serial 0x300000007 ([l[0] = 7], [l[1] = 3]). *)
Definition sample_two_halves : client_data := mk_client_data 7 3 0 0 0.

(** ** Waiting for the next frame or the next event *)

(** What one call of [ppoll] on the connection gives back: its return
    value, whether [errno] is [EINTR], and what
    [XEventsQueued(d, QueuedAfterReading)] returns if it is called
    afterwards. *)
Record poll_result : Type := mk_poll_result {
  poll_ret : Z;                   (* int *)
  errno_is_EINTR : bool;
  events_queued : Z               (* int *)
}.

(** The [struct timespec] that [poll_event_queue] makes of a timeout in
    microseconds. *)
Definition poll_timespec (timeout : Z) : timespec :=
  mk_timespec (long_div timeout 1000000)
              (to_long (Z.rem timeout 1000000 * 1000)).

(** poll X11 event queue with timeout: the [n]-th call of [ppoll] is
    answered by [polls n]; the timeout handed over is returned too. *)
Definition poll_event_queue (polls : nat -> poll_result) (n : nat)
    (timeout : Z) : poll_result * timespec :=
  (polls n, poll_timespec timeout).

Inductive wait_status : Type := wait_retry | frame_ready | event_ready.

(** How a call of [wait_frame_or_event] ends: it returns a status, it
    leaves the program through [Panic], or (in the model only) the fuel
    for the loop is used up. *)
Inductive wait_outcome : Type :=
| wait_returns (s : wait_status)
| wait_panics
| wait_out_of_fuel.

(** The [while (current_time < next_draw_time)] loop of
    [wait_frame_or_event] and the poll after it.  The result carries the
    timeouts handed to [ppoll], oldest first. *)
Fixpoint wait_loop (fuel : nat) (polls : nat -> poll_result) (n : nat)
    (st : state) : wait_outcome * state * list timespec :=
  if current_time (frame st) <? next_draw_time (frame st) then
    match fuel with
    | O => (wait_out_of_fuel, st, [])
    | S fuel =>
        let timeout :=
          long_sub (next_draw_time (frame st)) (current_time (frame st)) in
        let '(r, pts) := poll_event_queue polls n timeout in
        if (poll_ret r <? 0) && errno_is_EINTR r then
          (wait_returns wait_retry, st, [pts])
        else if poll_ret r <? 0 then
          (wait_panics, st, [pts])
        else if poll_ret r =? 0 then
          (wait_returns frame_ready, st, [pts])
        else if (poll_ret r =? 1) && (0 <? events_queued r) then
          (wait_returns event_ready, st, [pts])
        else
          let '(now, st) := get_time_microseconds st in
          let st := with_frame (set_current_time (to_long now)) st in
          let '(o, st, rest) := wait_loop fuel polls (S n) st in
          (o, st, pts :: rest)
    end
  else
    (* we can't allow XNextEvent to block so we must always check descriptor
       readiness then prime the in-memory queue if returning 'event_ready' *)
    let '(r, pts) := poll_event_queue polls n 0 in
    if (poll_ret r =? 1) && (0 <? events_queued r)
    then (wait_returns event_ready, st, [pts])
    else (wait_returns frame_ready, st, [pts]).

(** wait for next frame *)
Definition wait_frame_or_event (fuel : nat) (polls : nat -> poll_result)
    (n : nat) (st : state) : wait_outcome * state * list timespec :=
  let '(now, st) := get_time_microseconds st in
  let st := with_frame (set_current_time (to_long now)) st in
  wait_loop fuel polls n st.

#[global] Arguments wait_loop : simpl never.
#[global] Arguments wait_frame_or_event : simpl never.

(** ** Definitions: clocks and timeouts *)

(** A [struct timespec] as the kernel hands it out and accepts it:
    seconds not negative, nanoseconds within a second. *)
Definition timespec_valid (ts : timespec) : Prop :=
  0 <= tv_sec ts /\ 0 <= tv_nsec ts < 1000000000.

(** [ts1] is not later than [ts2]. *)
Definition timespec_le (ts1 ts2 : timespec) : Prop :=
  tv_sec ts1 < tv_sec ts2
  \/ (tv_sec ts1 = tv_sec ts2 /\ tv_nsec ts1 <= tv_nsec ts2).

(** The reading of the clock at tick [k], as stored in [current_time]. *)
Definition reading (st : state) (k : nat) : Z :=
  to_long (timespec_microseconds (clock st k)).

(** Polls that report readable data without a complete event: return
    value 1 and an empty queue. *)
Definition sample_polls (n : nat) : poll_result := mk_poll_result 1 false 0.

(** A clock that advances by 20 ms a reading from 1.00 s and stops at
    1.80 s. *)
Definition sample_steady_clock (n : nat) : timespec :=
  mk_timespec 1 (20000000 * Z.of_nat (Nat.min n 40)).

(** A state whose next frame is due at 1.05 s: the fourth reading of
    the clock (1.00 s, 1.02 s, 1.04 s, 1.06 s) is past it. *)
Definition sample_waiting_state : state :=
  with_frame (set_next_draw_time 1050000)
    (initial_state sample_xserver sample_steady_clock).

(** ** Named attribute and uniform locations ([gl2_util.h]) *)

Module AttrList.

Definition ATTR_LIST_INITIAL_SIZE : Z := 16.
Definition ATTR_NOT_FOUND : Z := 0xffffffff.

Record attr_val : Type := mk_attr_val {
  name : String.string;           (* const char * *)
  val : Z                         (* GLuint *)
}.

(** [arr] is the block the pointer refers to, slot by slot; a slot that
    was allocated and not written yet is [None], and [NULL] is the empty
    block. *)
Record attr_list : Type := mk_attr_list {
  arr : list (option attr_val);
  count : Z;                      (* GLuint *)
  size : Z                        (* GLuint *)
}.

(** A static [attr_list] is zero-initialised. *)
Definition attr_list_init : attr_list := mk_attr_list [] 0 0.

(** The loop of [attr_list_index] from index [i] on, [n] iterations
    being left before [i] reaches [list->count].  Reading a slot outside
    the block, or one that was never written, is undefined: [None]. *)
Fixpoint attr_list_index_from (list : attr_list) (name_ : String.string)
    (i : Z) (n : nat) : option Z :=
  match n with
  | O => Some ATTR_NOT_FOUND
  | S n =>
      match arr list !! Z.to_nat i with
      | Some (Some a) =>
          if String.eqb (name a) name_ then Some i
          else attr_list_index_from list name_ (i + 1) n
      | _ => None
      end
  end.

Definition attr_list_index (list : attr_list) (name_ : String.string)
  : option Z :=
  attr_list_index_from list name_ 0 (Z.to_nat (count list)).

Definition attr_list_value (list : attr_list) (name_ : String.string)
  : option Z :=
  match attr_list_index list name_ with
  | None => None
  | Some idx =>
      if idx =? ATTR_NOT_FOUND then Some idx
      else match arr list !! Z.to_nat idx with
           | Some (Some a) => Some (val a)
           | _ => None
           end
  end.

(** [realloc] to [n] slots: the old contents up to [n], new slots
    unwritten. *)
Definition realloc (block : list (option attr_val)) (n : Z)
  : list (option attr_val) :=
  resize (Z.to_nat n) None block.

(** The result is the value returned and the list as it is left;
    [None] stands for a read or write outside the block. *)
Definition attr_list_set (list : attr_list) (name_ : String.string) (val_ : Z)
  : option (Z * attr_list) :=
  match attr_list_index list name_ with
  | None => None
  | Some idx =>
      if negb (idx =? ATTR_NOT_FOUND) then
        (* found: *)
        match arr list !! Z.to_nat idx with
        | Some (Some a) =>
            Some (val_,
                  mk_attr_list
                    (<[Z.to_nat idx := Some (mk_attr_val (name a) val_)]>
                       (arr list))
                    (count list) (size list))
        | _ => None
        end
      else
        let list :=
          if size list =? 0 then
            mk_attr_list
              (replicate (Z.to_nat ATTR_LIST_INITIAL_SIZE) None)
              (count list) ATTR_LIST_INITIAL_SIZE
          else list in
        let list :=
          if count list =? size list then
            mk_attr_list (realloc (arr list) (size list))
              (to_uint (Z.shiftl (count list) 1)) (size list)
          else list in
        let idx := count list in
        let list :=
          mk_attr_list (arr list) (to_uint (count list + 1)) (size list) in
        if idx <? Z.of_nat (length (arr list)) then
          Some (val_,
                mk_attr_list
                  (<[Z.to_nat idx := Some (mk_attr_val name_ val_)]> (arr list))
                  (count list) (size list))
        else None
  end.

End AttrList.

#[global] Arguments AttrList.attr_list_set : simpl never.
#[global] Arguments AttrList.attr_list_value : simpl never.
#[global] Arguments AttrList.attr_list_index : simpl never.

(** ** Definitions: attribute lists *)

(** The list is as [attr_list_set] leaves it: empty and unallocated, or
    a block of 16 slots of which the first [count] are written. *)
Definition attr_list_wf (l : AttrList.attr_list) : Prop :=
  exists vs : list AttrList.attr_val,
    AttrList.count l = Z.of_nat (length vs)
    /\ AttrList.arr l
       = (Some <$> vs)
         ++ replicate (Z.to_nat (AttrList.size l) - length vs) None
    /\ Z.of_nat (length vs) <= AttrList.size l
    /\ (AttrList.size l = 0 \/ AttrList.size l = 16).

(** What the list maps a name to: the value of the first entry of that
    name. *)
Fixpoint lookup_name (vs : list AttrList.attr_val) (nm : String.string)
  : option Z :=
  match vs with
  | [] => None
  | a :: rest =>
      if String.eqb (AttrList.name a) nm then Some (AttrList.val a)
      else lookup_name rest nm
  end.

(** The slot of the first entry of a name. *)
Fixpoint index_of_name (vs : list AttrList.attr_val) (nm : String.string)
  : option nat :=
  match vs with
  | [] => None
  | a :: rest =>
      if String.eqb (AttrList.name a) nm then Some O
      else S <$> index_of_name rest nm
  end.

(** Sixteen names, and the list that holds them with the values 0..15. *)
Definition sample_names : list String.string :=
  ["a"; "b"; "c"; "d"; "e"; "f"; "g"; "h"; "i"; "j"; "k"; "l"; "m";
   "n"; "o"; "p"].

Definition sample_full_list : AttrList.attr_list :=
  AttrList.mk_attr_list
    (imap (fun i nm => Some (AttrList.mk_attr_val nm (Z.of_nat i)))
       sample_names)
    16 16.

(** Two uniforms set on a fresh list. *)
Definition sample_two_names : AttrList.attr_list :=
  AttrList.mk_attr_list
    ([Some (AttrList.mk_attr_val "u_model" 3);
      Some (AttrList.mk_attr_val "u_view" 4)] ++ replicate 14 None)
    2 16.

(** ** Vertex, index and generic array buffers ([gl2_util.h]) *)

(** How a call ends: it returns, it runs into undefined behaviour (an
    access outside a block), it stops the program through [assert], or
    (in the model only) the fuel of a loop is used up. *)
Inductive outcome (A : Type) : Type :=
| Done (a : A)
| Undefined
| Aborted
| OutOfFuel.

#[global] Arguments Done {A} a.
#[global] Arguments Undefined {A}.
#[global] Arguments Aborted {A}.
#[global] Arguments OutOfFuel {A}.

Definition outcome_bind {A B : Type} (m : outcome A) (f : A -> outcome B)
  : outcome B :=
  match m with
  | Done a => f a
  | Undefined => Undefined
  | Aborted => Aborted
  | OutOfFuel => OutOfFuel
  end.

Module ArrayBuffer.

Definition VERTEX_BUFFER_INITIAL_COUNT : Z := 16.
Definition INDEX_BUFFER_INITIAL_COUNT : Z := 64.

(** [data] is the block the pointer refers to, in elements of [stride]
    bytes each; an element that was allocated and not written yet is
    [None].  Sizes in bytes are taken not to exceed [size_t]. *)
Record array_buffer (A : Type) : Type := mk_array_buffer {
  stride : Z;                     (* size_t *)
  capacity : Z;                   (* size_t *)
  count : Z;                      (* size_t *)
  data : list (option A)
}.

#[global] Arguments mk_array_buffer {A} _ _ _ _.
#[global] Arguments stride {A} _.
#[global] Arguments capacity {A} _.
#[global] Arguments count {A} _.
#[global] Arguments data {A} _.

Definition index_buffer : Type := array_buffer Z.   (* elements: uint *)

Inductive primitive_type : Type :=
| primitive_topology_triangles
| primitive_topology_triangle_strip
| primitive_topology_quads
| primitive_topology_quad_strip.

Section Elements.

Context {A : Type}.

(** [realloc] to [n] elements: the old contents up to [n], new elements
    unwritten. *)
Definition realloc (block : list (option A)) (n : Z) : list (option A) :=
  resize (Z.to_nat n) None block.

Definition array_buffer_init (stride_ capacity_ : Z) : array_buffer A :=
  mk_array_buffer stride_ capacity_ 0 (replicate (Z.to_nat capacity_) None).

Definition array_buffer_count (sb : array_buffer A) : Z := to_uint (count sb).

Definition array_buffer_size (sb : array_buffer A) : Z :=
  to_ulong (count sb * stride sb).

(** The result is the index returned and the buffer as it is left. *)
Definition array_buffer_add (sb : array_buffer A) (x : A)
  : outcome (Z * array_buffer A) :=
  let sb :=
    if capacity sb <=? count sb then
      let capacity' := to_ulong (Z.shiftl (capacity sb) 1) in
      mk_array_buffer (stride sb) capacity' (count sb)
        (realloc (data sb) capacity')
    else sb in
  let idx := to_uint (count sb) in
  let sb :=
    mk_array_buffer (stride sb) (capacity sb) (to_ulong (count sb + 1))
      (data sb) in
  if idx <? Z.of_nat (length (data sb)) then
    Done (idx,
          mk_array_buffer (stride sb) (capacity sb) (count sb)
            (<[Z.to_nat idx := Some x]> (data sb)))
  else Undefined.

End Elements.

(** The [do capacity <<= 1; while (count + n > capacity)] loop of
    [index_buffer_add]. *)
Fixpoint grow_capacity (fuel : nat) (capacity_ need : Z) : outcome Z :=
  match fuel with
  | O => OutOfFuel
  | S fuel =>
      let capacity_ := to_ulong (Z.shiftl capacity_ 1) in
      if capacity_ <? need then grow_capacity fuel capacity_ need
      else Done capacity_
  end.

(** The [for] loop of [index_buffer_add] from [i] on, [n] iterations
    being left. *)
Fixpoint index_buffer_store (ib : index_buffer) (data_ : list Z) (i : nat)
    (n : nat) (addend : Z) : outcome index_buffer :=
  match n with
  | O => Done ib
  | S n =>
      match data_ !! i with
      | None => Undefined
      | Some x =>
          let idx := count ib in
          if idx <? Z.of_nat (length (data ib)) then
            index_buffer_store
              (mk_array_buffer (stride ib) (capacity ib) (to_ulong (idx + 1))
                 (<[Z.to_nat idx := Some (to_uint (x + addend))]> (data ib)))
              data_ (S i) n addend
          else Undefined
      end
  end.

Definition index_buffer_add (fuel : nat) (ib : index_buffer)
    (data_ : list Z) (count_ addend : Z) : outcome index_buffer :=
  outcome_bind
    (if capacity ib <=? to_ulong (count ib + count_) then
       outcome_bind
         (grow_capacity fuel (capacity ib) (to_ulong (count ib + count_)))
         (fun capacity' =>
            Done (mk_array_buffer (stride ib) capacity' (count ib)
                    (realloc (data ib) capacity')))
     else Done ib)
    (fun ib => index_buffer_store ib data_ O (Z.to_nat count_) addend).

Definition tri : list Z := [0; 1; 2].
Definition tri_strip : list Z := [0; 1; 2; 2; 1; 3].
Definition quads : list Z := [0; 1; 2; 0; 2; 3].

(** A loop of [index_buffer_add_primitves]: [n] times, the pattern is
    added and [addend] moves on by [step]. *)
Fixpoint add_pattern (fuel : nat) (ib : index_buffer) (pattern : list Z)
    (step : Z) (n : nat) (addend : Z) : outcome index_buffer :=
  match n with
  | O => Done ib
  | S n =>
      outcome_bind
        (index_buffer_add fuel ib pattern (Z.of_nat (length pattern)) addend)
        (fun ib => add_pattern fuel ib pattern step n (to_uint (addend + step)))
  end.

Definition index_buffer_add_primitves (fuel : nat) (ib : index_buffer)
    (type : primitive_type) (count_ addend : Z) : outcome index_buffer :=
  match type with
  | primitive_topology_triangles =>
      add_pattern fuel ib tri 3 (Z.to_nat count_) addend
  | primitive_topology_triangle_strip =>
      if Z.land count_ 1 =? 0
      then add_pattern fuel ib tri_strip 2 (Z.to_nat ((count_ + 1) / 2)) addend
      else Aborted
  | primitive_topology_quads =>
      add_pattern fuel ib quads 4 (Z.to_nat count_) addend
  | primitive_topology_quad_strip =>
      add_pattern fuel ib tri_strip 2 (Z.to_nat count_) addend
  end.

End ArrayBuffer.

#[global] Arguments ArrayBuffer.array_buffer_add : simpl never.
#[global] Arguments ArrayBuffer.index_buffer_add : simpl never.
#[global] Arguments ArrayBuffer.index_buffer_add_primitves : simpl never.

(** ** Definitions: array buffers *)

(** The elements a buffer holds: its first [count] elements. *)
Definition contents {A : Type} (sb : ArrayBuffer.array_buffer A)
  : list (option A) :=
  take (Z.to_nat (ArrayBuffer.count sb)) (ArrayBuffer.data sb).

(** The block has [capacity] elements, of which [count] are in use;
    the bounds keep the doubling of [capacity] and the conversion of
    [count] to [uint] exact. *)
Definition array_buffer_wf {A : Type} (sb : ArrayBuffer.array_buffer A)
  : Prop :=
  0 < ArrayBuffer.capacity sb <= 2 ^ 33
  /\ Z.of_nat (length (ArrayBuffer.data sb)) = ArrayBuffer.capacity sb
  /\ 0 <= ArrayBuffer.count sb <= ArrayBuffer.capacity sb
  /\ ArrayBuffer.count sb <= 2 ^ 32.

(** The indices that [n] repetitions of a pattern stand for: the [k]-th
    repetition is the pattern moved by [addend + step * k]. *)
Definition pattern_indices (pattern : list Z) (step : Z) (n : nat)
    (addend : Z) : list Z :=
  k ← seq 0 n; (fun x => addend + step * Z.of_nat k + x) <$> pattern.

(** An index buffer as [index_buffer_init] leaves it. *)
Definition sample_index_buffer : ArrayBuffer.index_buffer :=
  ArrayBuffer.array_buffer_init 4 ArrayBuffer.INDEX_BUFFER_INITIAL_COUNT.

(** A buffer of two elements that is full. *)
Definition sample_full_buffer : ArrayBuffer.array_buffer Z :=
  ArrayBuffer.mk_array_buffer 4 2 2 [Some 10; Some 11].

(** ** The cube ([model_object_init], [model_object_cube]) *)

Module Model.

Definition vec2f : Type := F32.float * F32.float.
Definition vec3f : Type := F32.float * F32.float * F32.float.
Definition vec4f : Type := F32.float * F32.float * F32.float * F32.float.

Record vertex : Type := mk_vertex {
  pos : vec3f;
  norm : vec3f;
  uv : vec2f;
  col : vec4f
}.

Definition vertex_buffer : Type := ArrayBuffer.array_buffer vertex.

(** [sizeof(vertex)]: twelve floats. *)
Definition sizeof_vertex : Z := 48.
Definition sizeof_uint : Z := 4.

(** The members of [model_object_t] that the construction of the mesh
    touches; the matrices [m] and [v] are left out. *)
Record model_object : Type := mk_model_object {
  vb : vertex_buffer;
  ib : ArrayBuffer.index_buffer
}.

Definition vertex_buffer_init : vertex_buffer :=
  ArrayBuffer.array_buffer_init sizeof_vertex
    ArrayBuffer.VERTEX_BUFFER_INITIAL_COUNT.

Definition index_buffer_init : ArrayBuffer.index_buffer :=
  ArrayBuffer.array_buffer_init sizeof_uint
    ArrayBuffer.INDEX_BUFFER_INITIAL_COUNT.

Definition model_object_init : model_object :=
  mk_model_object vertex_buffer_init index_buffer_init.

(** The literals of [model_object_cube]. *)
Definition f_1 : F32.float := Eval vm_compute in F32.of_Z 1.
Definition f_m1 : F32.float := Eval vm_compute in F32.of_Z (-1).
(** [0.7f]: 11744051 * 2^-24. *)
Definition f_0_7 : F32.float := S754_finite false 11744051 (-24).

(** [f[6][3][3]]: one matrix for each face, row by row. *)
Definition f : list (vec3f * vec3f * vec3f) :=
  let o := F32.f_0 in let i := f_1 in let m := f_m1 in
  [ (* front *)  ((i, o, o), (o, i, o), (o, o, i));
    (* right *)  ((o, o, i), (i, o, o), (o, i, o));
    (* top *)    ((o, i, o), (o, o, i), (i, o, o));
    (* rear *)   ((o, i, o), (i, o, o), (o, o, m));
    (* left *)   ((o, o, m), (o, i, o), (i, o, o));
    (* bottom *) ((i, o, o), (o, o, m), (o, i, o)) ].

(** [t[4]]: the corners of the front face. *)
Definition t (s : F32.float) (col_ : vec4f) : list vertex :=
  let o := F32.f_0 in let i := f_1 in let ms := SFopp s in
  [ mk_vertex (ms, s, s) (o, o, i) (o, i) col_;
    mk_vertex (ms, ms, s) (o, o, i) (o, o) col_;
    mk_vertex (s, ms, s) (o, o, i) (i, o) col_;
    mk_vertex (s, s, s) (o, o, i) (i, i) col_ ].

Definition colors : list vec4f :=
  let o := F32.f_0 in let i := f_1 in let c := f_0_7 in
  [ (i, o, o, i);  (* red *)
    (o, i, o, i);  (* green *)
    (o, o, i, i);  (* blue *)
    (o, c, c, i);  (* cyan *)
    (c, o, c, i);  (* magenta *)
    (c, c, o, i)   (* yellow *) ].

(** [r[0]*v.x + r[1]*v.y + r[2]*v.z], each operation rounded to
    [float]. *)
Definition dot (r v : vec3f) : F32.float :=
  let '(r0, r1, r2) := r in
  let '(x, y, z) := v in
  F32.add (F32.add (F32.mul r0 x) (F32.mul r1 y)) (F32.mul r2 z).

(** The body of the inner loop: the vertex for a face matrix, a face
    colour and a corner. *)
Definition cube_vertex (fi : vec3f * vec3f * vec3f) (color : vec4f)
    (tj : vertex) : vertex :=
  let '(f0, f1, f2) := fi in
  mk_vertex (dot f0 (pos tj), dot f1 (pos tj), dot f2 (pos tj))
            (dot f0 (norm tj), dot f1 (norm tj), dot f2 (norm tj))
            (uv tj)
            color.

(** The vertices in the order the two loops make them: faces [i = 0..5],
    corners [j = 0..3]. *)
Definition cube_vertices (s : F32.float) (col_ : vec4f) : list vertex :=
  '(fi, color) ← zip f colors; cube_vertex fi color <$> t s col_.

(** [vertex_buffer_add] for each vertex in turn. *)
Fixpoint vertex_buffer_add_all (vb_ : vertex_buffer) (vs : list vertex)
  : outcome vertex_buffer :=
  match vs with
  | [] => Done vb_
  | v :: rest =>
      outcome_bind (ArrayBuffer.array_buffer_add vb_ v)
        (fun r => vertex_buffer_add_all r.2 rest)
  end.

Definition model_object_cube (fuel : nat) (mo : model_object)
    (s : F32.float) (col_ : vec4f) : outcome model_object :=
  let idx := ArrayBuffer.array_buffer_count (vb mo) in
  outcome_bind (vertex_buffer_add_all (vb mo) (cube_vertices s col_))
    (fun vb_ =>
       outcome_bind
         (ArrayBuffer.index_buffer_add_primitves fuel (ib mo)
            ArrayBuffer.primitive_topology_quads 6 idx)
         (fun ib_ => Done (mk_model_object vb_ ib_))).

End Model.

#[global] Arguments Model.model_object_cube : simpl never.
#[global] Arguments Model.cube_vertices : simpl never.

(** ** The command line ([main]) *)

Module CommandLine.

(** The statics that [main] sets, and what it prints to [stderr] about
    options it does not know. *)
Record options : Type := mk_options {
  help : Z;                       (* int *)
  debug : Z;
  trace : Z;
  use_frame_sync : Z;
  frame_rate : F32.float;
  unknown : list string
}.

Definition options_init : options :=
  mk_options 0 0 0 1 F32.f_29_97 [].

Definition match_option (arg opt longopt : string) : bool :=
  String.eqb arg opt || String.eqb arg longopt.

Section Parse.

(** [atoi] of the C library. *)
Variable atoi : string -> Z.

(** The loop of [main] over [argv[i..argc-1]]. *)
Fixpoint parse_options (args : list string) (o : options) : options :=
  match args with
  | [] => o
  | arg :: rest =>
      if match_option arg "-h" "--help" then
        parse_options rest
          (mk_options 1 (debug o) (trace o) (use_frame_sync o) (frame_rate o)
             (unknown o))
      else if match_option arg "-t" "--trace" then
        parse_options rest
          (mk_options (help o) 1 1 (use_frame_sync o) (frame_rate o)
             (unknown o))
      else if match_option arg "-d" "--debug" then
        parse_options rest
          (mk_options (help o) 1 (trace o) (use_frame_sync o) (frame_rate o)
             (unknown o))
      else if match_option arg "-n" "--no-sync" then
        parse_options rest
          (mk_options (help o) (debug o) (trace o) 0 (frame_rate o)
             (unknown o))
      else
        match match_option arg "-f" "--frame-rate", rest with
        | true, value :: rest =>
            parse_options rest
              (mk_options (help o) (debug o) (trace o) (use_frame_sync o)
                 (F32.of_Z (atoi value)) (unknown o))
        | _, _ =>
            parse_options rest
              (mk_options 1 (debug o) (trace o) (use_frame_sync o)
                 (frame_rate o) (unknown o ++ [arg]))
        end
  end.

End Parse.

End CommandLine.

(** ** Definitions: the cube and the command line *)

(** The capacity of an array buffer of capacity [cap] holding [cnt]
    elements after [n] more are added. *)
Fixpoint capacity_after (cap cnt : Z) (n : nat) : Z :=
  match n with
  | O => cap
  | S n => capacity_after (if cnt =? cap then 2 * cap else cap) (cnt + 1) n
  end.

(** The command lines the usage text describes, [-h] apart: any number
    of flags and of frame-rate options with their value. *)
Inductive command_line : list string -> Prop :=
| command_line_nil : command_line []
| command_line_flag (arg : string) (rest : list string) :
    arg ∈ ["-t"; "--trace"; "-d"; "--debug"; "-n"; "--no-sync"] ->
    command_line rest -> command_line (arg :: rest)
| command_line_rate (arg value : string) (rest : list string) :
    arg ∈ ["-f"; "--frame-rate"] ->
    command_line rest -> command_line (arg :: value :: rest).

(** ** Definitions: serials as the messages carry them *)

(** The 64-bit serial a client message carries in [l[0]] and [l[1]], as
    the protocol has it: two 32-bit halves, the low half first.  It is
    what the decoding in [process_event] ([message_sync_serial]) is
    compared with. *)
Definition carried_serial (l : client_data) : Z :=
  to_uint (l1 l) * 2 ^ 32 + to_uint (l0 l).

(** A message that carries the serial 2^32. *)
Definition sample_serial_2_32 : client_data := mk_client_data 0 1 0 0 0.

(** A message that carries the serial 2^31: the low half 0x80000000
    arrives in [l[0]], a [long], sign-extended. *)
Definition sample_serial_2_31 : client_data :=
  mk_client_data (- 2 ^ 31) 0 0 0 0.

(** The compositor has confirmed serial 2^32 as drawn and has reported
    its timings. *)
Definition sample_marked_state : state :=
  run [do_process_event (ClientMessage 1 9 305 sample_serial_2_32);
       do_process_event (ClientMessage 2 9 306 sample_serial_2_32)]
    sample_state.

(** An extended sync request for serial 2^32 + 11 is pending. *)
Definition sample_requested_state : state :=
  process_event (ClientMessage 1 9 300 sample_extended_request) sample_state.

(** * Properties *)

(** ** Reading a field after an update *)

Create Rewrite HintDb state_proj.

Section FieldUpdates.

Implicit Types (st : state).

Lemma sync_with_sync (f : sync_state -> sync_state) st :
  sync (with_sync f st) = f (sync st).
Proof. reflexivity. Qed.
Lemma xserver_with_sync (f : sync_state -> sync_state) st :
  xserver (with_sync f st) = xserver st.
Proof. reflexivity. Qed.
Lemma frame_with_sync (f : sync_state -> sync_state) st :
  frame (with_sync f st) = frame st.
Proof. reflexivity. Qed.
Lemma frame_time_buffer_with_sync (f : sync_state -> sync_state) st :
  frame_time_buffer (with_sync f st) = frame_time_buffer st.
Proof. reflexivity. Qed.
Lemma render_time_buffer_with_sync (f : sync_state -> sync_state) st :
  render_time_buffer (with_sync f st) = render_time_buffer st.
Proof. reflexivity. Qed.
Lemma clock_with_sync (f : sync_state -> sync_state) st :
  clock (with_sync f st) = clock st.
Proof. reflexivity. Qed.
Lemma ticks_with_sync (f : sync_state -> sync_state) st :
  ticks (with_sync f st) = ticks st.
Proof. reflexivity. Qed.
Lemma calls_with_sync (f : sync_state -> sync_state) st :
  calls (with_sync f st) = calls st.
Proof. reflexivity. Qed.

Lemma sync_with_frame (f : frame_state -> frame_state) st :
  sync (with_frame f st) = sync st.
Proof. reflexivity. Qed.
Lemma xserver_with_frame (f : frame_state -> frame_state) st :
  xserver (with_frame f st) = xserver st.
Proof. reflexivity. Qed.
Lemma frame_with_frame (f : frame_state -> frame_state) st :
  frame (with_frame f st) = f (frame st).
Proof. reflexivity. Qed.
Lemma frame_time_buffer_with_frame (f : frame_state -> frame_state) st :
  frame_time_buffer (with_frame f st) = frame_time_buffer st.
Proof. reflexivity. Qed.
Lemma render_time_buffer_with_frame (f : frame_state -> frame_state) st :
  render_time_buffer (with_frame f st) = render_time_buffer st.
Proof. reflexivity. Qed.
Lemma clock_with_frame (f : frame_state -> frame_state) st :
  clock (with_frame f st) = clock st.
Proof. reflexivity. Qed.
Lemma ticks_with_frame (f : frame_state -> frame_state) st :
  ticks (with_frame f st) = ticks st.
Proof. reflexivity. Qed.
Lemma calls_with_frame (f : frame_state -> frame_state) st :
  calls (with_frame f st) = calls st.
Proof. reflexivity. Qed.

Lemma sync_set_frame_time_buffer (b : circular_buffer) st :
  sync (set_frame_time_buffer b st) = sync st.
Proof. reflexivity. Qed.
Lemma xserver_set_frame_time_buffer (b : circular_buffer) st :
  xserver (set_frame_time_buffer b st) = xserver st.
Proof. reflexivity. Qed.
Lemma frame_set_frame_time_buffer (b : circular_buffer) st :
  frame (set_frame_time_buffer b st) = frame st.
Proof. reflexivity. Qed.
Lemma frame_time_buffer_set_frame_time_buffer (b : circular_buffer) st :
  frame_time_buffer (set_frame_time_buffer b st) = b.
Proof. reflexivity. Qed.
Lemma render_time_buffer_set_frame_time_buffer (b : circular_buffer) st :
  render_time_buffer (set_frame_time_buffer b st) = render_time_buffer st.
Proof. reflexivity. Qed.
Lemma clock_set_frame_time_buffer (b : circular_buffer) st :
  clock (set_frame_time_buffer b st) = clock st.
Proof. reflexivity. Qed.
Lemma ticks_set_frame_time_buffer (b : circular_buffer) st :
  ticks (set_frame_time_buffer b st) = ticks st.
Proof. reflexivity. Qed.
Lemma calls_set_frame_time_buffer (b : circular_buffer) st :
  calls (set_frame_time_buffer b st) = calls st.
Proof. reflexivity. Qed.

Lemma sync_set_render_time_buffer (b : circular_buffer) st :
  sync (set_render_time_buffer b st) = sync st.
Proof. reflexivity. Qed.
Lemma xserver_set_render_time_buffer (b : circular_buffer) st :
  xserver (set_render_time_buffer b st) = xserver st.
Proof. reflexivity. Qed.
Lemma frame_set_render_time_buffer (b : circular_buffer) st :
  frame (set_render_time_buffer b st) = frame st.
Proof. reflexivity. Qed.
Lemma frame_time_buffer_set_render_time_buffer (b : circular_buffer) st :
  frame_time_buffer (set_render_time_buffer b st) = frame_time_buffer st.
Proof. reflexivity. Qed.
Lemma render_time_buffer_set_render_time_buffer (b : circular_buffer) st :
  render_time_buffer (set_render_time_buffer b st) = b.
Proof. reflexivity. Qed.
Lemma clock_set_render_time_buffer (b : circular_buffer) st :
  clock (set_render_time_buffer b st) = clock st.
Proof. reflexivity. Qed.
Lemma ticks_set_render_time_buffer (b : circular_buffer) st :
  ticks (set_render_time_buffer b st) = ticks st.
Proof. reflexivity. Qed.
Lemma calls_set_render_time_buffer (b : circular_buffer) st :
  calls (set_render_time_buffer b st) = calls st.
Proof. reflexivity. Qed.

Lemma sync_set_ticks (n : nat) st :
  sync (set_ticks n st) = sync st.
Proof. reflexivity. Qed.
Lemma xserver_set_ticks (n : nat) st :
  xserver (set_ticks n st) = xserver st.
Proof. reflexivity. Qed.
Lemma frame_set_ticks (n : nat) st :
  frame (set_ticks n st) = frame st.
Proof. reflexivity. Qed.
Lemma frame_time_buffer_set_ticks (n : nat) st :
  frame_time_buffer (set_ticks n st) = frame_time_buffer st.
Proof. reflexivity. Qed.
Lemma render_time_buffer_set_ticks (n : nat) st :
  render_time_buffer (set_ticks n st) = render_time_buffer st.
Proof. reflexivity. Qed.
Lemma clock_set_ticks (n : nat) st :
  clock (set_ticks n st) = clock st.
Proof. reflexivity. Qed.
Lemma ticks_set_ticks (n : nat) st :
  ticks (set_ticks n st) = n.
Proof. reflexivity. Qed.
Lemma calls_set_ticks (n : nat) st :
  calls (set_ticks n st) = calls st.
Proof. reflexivity. Qed.

Lemma sync_emit (c : call) st :
  sync (emit c st) = sync st.
Proof. reflexivity. Qed.
Lemma xserver_emit (c : call) st :
  xserver (emit c st) = xserver st.
Proof. reflexivity. Qed.
Lemma frame_emit (c : call) st :
  frame (emit c st) = frame st.
Proof. reflexivity. Qed.
Lemma frame_time_buffer_emit (c : call) st :
  frame_time_buffer (emit c st) = frame_time_buffer st.
Proof. reflexivity. Qed.
Lemma render_time_buffer_emit (c : call) st :
  render_time_buffer (emit c st) = render_time_buffer st.
Proof. reflexivity. Qed.
Lemma clock_emit (c : call) st :
  clock (emit c st) = clock st.
Proof. reflexivity. Qed.
Lemma ticks_emit (c : call) st :
  ticks (emit c st) = ticks st.
Proof. reflexivity. Qed.
Lemma calls_emit (c : call) st :
  calls (emit c st) = calls st ++ [c].
Proof. reflexivity. Qed.

End FieldUpdates.

#[global] Hint Rewrite
  sync_with_sync xserver_with_sync frame_with_sync
  frame_time_buffer_with_sync render_time_buffer_with_sync clock_with_sync
  ticks_with_sync calls_with_sync sync_with_frame
  xserver_with_frame frame_with_frame frame_time_buffer_with_frame
  render_time_buffer_with_frame clock_with_frame ticks_with_frame
  calls_with_frame sync_set_frame_time_buffer xserver_set_frame_time_buffer
  frame_set_frame_time_buffer frame_time_buffer_set_frame_time_buffer render_time_buffer_set_frame_time_buffer
  clock_set_frame_time_buffer ticks_set_frame_time_buffer calls_set_frame_time_buffer
  sync_set_render_time_buffer xserver_set_render_time_buffer frame_set_render_time_buffer
  frame_time_buffer_set_render_time_buffer render_time_buffer_set_render_time_buffer clock_set_render_time_buffer
  ticks_set_render_time_buffer calls_set_render_time_buffer sync_set_ticks
  xserver_set_ticks frame_set_ticks frame_time_buffer_set_ticks
  render_time_buffer_set_ticks clock_set_ticks ticks_set_ticks
  calls_set_ticks sync_emit xserver_emit
  frame_emit frame_time_buffer_emit render_time_buffer_emit
  clock_emit ticks_emit calls_emit
  : state_proj.

(** ** Machine arithmetic *)

Section MachineArithmetic.

Lemma to_ulong_range (z : Z) : is_ulong (to_ulong z).
Proof. unfold is_ulong, to_ulong. apply Z.mod_pos_bound. lia. Qed.

Lemma to_ulong_small (z : Z) : is_ulong z -> to_ulong z = z.
Proof. unfold is_ulong, to_ulong. intros Hz. apply Z.mod_small. exact Hz. Qed.

Lemma to_long_range (z : Z) : is_long (to_long z).
Proof.
  unfold is_long, to_long.
  pose proof (Z.mod_pos_bound (z + 2 ^ 63) (2 ^ 64) ltac:(lia)) as Hb.
  change (2 ^ 64) with (2 * 2 ^ 63) in *. lia.
Qed.

Lemma to_long_small (z : Z) : is_long z -> to_long z = z.
Proof.
  unfold is_long, to_long. intros Hz.
  rewrite Z.mod_small; [lia|].
  change (2 ^ 64) with (2 * 2 ^ 63). lia.
Qed.

(** Two's-complement conversion keeps the residue modulo 2^64. *)
Lemma to_long_mod (z : Z) : to_long z mod 2 ^ 64 = z mod 2 ^ 64.
Proof.
  unfold to_long.
  rewrite Zminus_mod, Z.mod_mod by lia.
  rewrite <- Zminus_mod. f_equal. lia.
Qed.

Lemma to_long_congr (a b : Z) :
  a mod 2 ^ 64 = b mod 2 ^ 64 -> to_long a = to_long b.
Proof.
  intros Hab. unfold to_long.
  rewrite (Zplus_mod a), (Zplus_mod b), Hab. reflexivity.
Qed.

Lemma to_long_add_l (a b : Z) : to_long (to_long a + b) = to_long (a + b).
Proof.
  apply to_long_congr.
  rewrite (Zplus_mod (to_long a)), to_long_mod, <- Zplus_mod. reflexivity.
Qed.

Lemma to_long_add_r (a b : Z) : to_long (a + to_long b) = to_long (a + b).
Proof. rewrite Z.add_comm, to_long_add_l. f_equal. lia. Qed.

Lemma ulong_add_no_wrap (a b : Z) :
  0 <= a -> 0 <= b -> a + b < 2 ^ 64 -> ulong_add a b = a + b.
Proof. intros Ha Hb Hab. apply to_ulong_small. unfold is_ulong. lia. Qed.

Lemma long_add_no_wrap (a b : Z) : is_long (a + b) -> long_add a b = a + b.
Proof. apply to_long_small. Qed.

(** The two low bits. *)
Lemma land_3_mod (x : Z) : Z.land x 3 = x mod 4.
Proof. change 3 with (Z.ones 2). rewrite Z.land_ones by lia. reflexivity. Qed.

Lemma to_ulong_mod_4 (z : Z) : to_ulong z mod 4 = z mod 4.
Proof.
  unfold to_ulong. symmetry.
  change (2 ^ 64) with (4 * 2 ^ 62).
  rewrite Z.rem_mul_r by lia.
  rewrite (Z.mul_comm 4), Z.mod_add by lia.
  rewrite Z.mod_mod by lia. reflexivity.
Qed.

(** [x & ~3], the mask [~3] converted to [unsigned long]. *)
Lemma land_not_3 (x : Z) :
  is_ulong x -> Z.land x (to_ulong (Z.lnot 3)) = 4 * (x / 4).
Proof.
  unfold is_ulong. intros Hx.
  assert (Hmask : to_ulong (Z.lnot 3) = Z.land (Z.lnot 3) (Z.ones 64)).
  { unfold to_ulong. rewrite Z.land_ones by lia. reflexivity. }
  rewrite Hmask, (Z.land_comm (Z.lnot 3)), Z.land_assoc.
  rewrite (Z.land_ones x 64) by lia.
  rewrite (Z.mod_small x) by exact Hx.
  rewrite <- Z.ldiff_land.
  change 3 with (Z.ones 2).
  rewrite Z.ldiff_ones_r by lia.
  rewrite Z.shiftr_div_pow2, Z.shiftl_mul_pow2 by lia.
  change (2 ^ 2) with 4. lia.
Qed.

Lemma land_not_3_mod_4 (x : Z) :
  is_ulong x -> Z.land x (to_ulong (Z.lnot 3)) mod 4 = 0.
Proof.
  intros Hx. rewrite land_not_3 by exact Hx.
  rewrite Z.mul_comm. apply Z.mod_mul. lia.
Qed.

(** Splitting an [unsigned long] into the halves of an [XSyncValue] and
    reading them back gives the number again. *)
Lemma XSyncValue_roundtrip (v : Z) :
  is_ulong v ->
  XSyncValue_to_ulong
    (XSyncIntsToValue (Z.land v 0xFFFFFFFF) (Z.shiftr v 32)) = v.
Proof.
  unfold is_ulong. intros Hv.
  unfold XSyncValue_to_ulong, XSyncIntsToValue, to_int, to_uint; simpl.
  change 0xFFFFFFFF with (Z.ones 32).
  rewrite Z.land_ones, Z.shiftr_div_pow2 by lia.
  rewrite Z.mod_mod by lia.
  pose proof (Z.div_mod v (2 ^ 32) ltac:(lia)) as Hdm.
  pose proof (Z.mod_pos_bound v (2 ^ 32) ltac:(lia)) as Hlo.
  assert (Hhi : 0 <= v / 2 ^ 32 < 2 ^ 32).
  { split; [apply Z.div_pos; lia|].
    apply Z.div_lt_upper_bound; [lia|]. change (2 ^ 32 * 2 ^ 32) with (2 ^ 64). lia. }
  set (h := v / 2 ^ 32) in *. set (l := v mod 2 ^ 32) in *.
  unfold to_ulong.
  destruct (Z_lt_dec h (2 ^ 31)) as [Hlt|Hge].
  - rewrite (Z.mod_small (h + 2 ^ 31)) by (change (2 ^ 32) with (2 * 2 ^ 31); lia).
    replace (h + 2 ^ 31 - 2 ^ 31) with h by lia.
    rewrite Z.mod_small; lia.
  - assert (Hm : (h + 2 ^ 31) mod 2 ^ 32 = h - 2 ^ 31).
    { symmetry. apply (Z.mod_unique_pos _ _ 1); [|lia].
      change (2 ^ 32) with (2 * 2 ^ 31) in *. lia. }
    rewrite Hm.
    symmetry. apply (Z.mod_unique_pos _ _ (-1)); [lia|].
    change (2 ^ 64) with (2 ^ 32 * 2 ^ 32). lia.
Qed.

End MachineArithmetic.

(** ** Running-average buffer *)

Section RunningAverage.

Implicit Types (b : circular_buffer) (x : Z) (xs l : list Z).

Lemma sumZ_app l1 l2 : sumZ (l1 ++ l2) = sumZ l1 + sumZ l2.
Proof. induction l1 as [|a l1 IH]; simpl; [reflexivity|]. rewrite IH. lia. Qed.

Lemma sumZ_replicate_0 (n : nat) : sumZ (replicate n 0) = 0.
Proof. induction n as [|n IH]; simpl; [reflexivity|exact IH]. Qed.

Lemma length_recent xs : length (recent xs) = Nat.min (length xs) 31.
Proof. unfold recent. rewrite length_drop. lia. Qed.

Lemma tail_drop {A} (l : list A) (n : nat) : tail (drop n l) = drop (S n) l.
Proof.
  revert l. induction n as [|n IH]; intros [|a l]; try reflexivity.
  change (tail (drop n l) = drop (S n) l). apply IH.
Qed.

Lemma window_snoc xs x : window (xs ++ [x]) = tail (window xs) ++ [x].
Proof.
  unfold window. rewrite length_app, app_assoc.
  change (length [x]) with 1%nat.
  rewrite Nat.add_1_r, tail_drop.
  apply drop_app_le. rewrite length_app, length_replicate. lia.
Qed.

Lemma sumZ_window xs : sumZ (window xs) = sumZ (recent xs).
Proof.
  unfold window, recent.
  destruct (Nat.le_gt_cases (length xs) 31) as [Hle|Hgt].
  - rewrite drop_app_le by (rewrite length_replicate; exact Hle).
    rewrite drop_replicate, sumZ_app, sumZ_replicate_0.
    replace (length xs - 31)%nat with 0%nat by lia.
    rewrite drop_0. lia.
  - rewrite drop_app_ge by (rewrite length_replicate; lia).
    rewrite length_replicate. reflexivity.
Qed.

Lemma cb_wf_init : cb_wf circular_buffer_init.
Proof. split; [reflexivity|simpl; lia]. Qed.

(** The cursor never leaves the array. *)
Lemma cb_wf_add b x : cb_wf b -> cb_wf (circular_buffer_add b x).
Proof.
  intros [Hlen Hoff]. unfold cb_wf, circular_buffer_add; simpl.
  rewrite length_insert. split; [exact Hlen|].
  unfold long_add, samples_size.
  rewrite (to_long_small (offset b + 1)) by (unfold is_long; lia).
  rewrite to_ulong_small by (unfold is_ulong; lia).
  destruct (31 <=? offset b + 1) eqn:E; lia.
Qed.

Lemma cb_wf_add_all b xs : cb_wf b -> cb_wf (add_all b xs).
Proof.
  revert b. induction xs as [|x xs IH]; intros b Hb; simpl; [exact Hb|].
  apply IH, cb_wf_add, Hb.
Qed.

Lemma add_all_snoc b xs x :
  add_all b (xs ++ [x]) = circular_buffer_add (add_all b xs) x.
Proof. unfold add_all. rewrite fold_left_app. reflexivity. Qed.

(** The slot under the cursor, split out of the array. *)
Lemma cb_wf_split b :
  cb_wf b ->
  exists pre y post,
    samples b = pre ++ y :: post
    /\ length pre = Z.to_nat (offset b)
    /\ (length pre + length post = 30)%nat.
Proof.
  intros [Hlen Hoff].
  destruct (lookup_lt_is_Some_2 (samples b) (Z.to_nat (offset b))) as [y Hy];
    [lia|].
  exists (take (Z.to_nat (offset b)) (samples b)), y,
         (drop (S (Z.to_nat (offset b))) (samples b)).
  split; [symmetry; apply take_drop_middle, Hy|].
  rewrite length_take, length_drop. lia.
Qed.

(** One insertion drops the oldest slot and appends the new sample. *)
Lemma ring_view_add b x :
  cb_wf b -> ring_view (circular_buffer_add b x) = tail (ring_view b) ++ [x].
Proof.
  intros Hwf. destruct (cb_wf_split b Hwf) as (pre & y & post & Hs & Hpre & Htot).
  destruct Hwf as [Hlen Hoff].
  unfold ring_view, circular_buffer_add; simpl.
  unfold long_add, samples_size.
  rewrite (to_long_small (offset b + 1)) by (unfold is_long; lia).
  rewrite to_ulong_small by (unfold is_ulong; lia).
  rewrite Hs, <- Hpre.
  rewrite (insert_app_r_alt pre (y :: post) (length pre) x) by lia.
  rewrite Nat.sub_diag. simpl.
  rewrite drop_app_length, take_app_length. simpl.
  destruct (31 <=? offset b + 1) eqn:E.
  - apply Z.leb_le in E.
    assert (Hpost : post = []) by (apply nil_length_inv; lia).
    subst post. simpl. rewrite app_nil_r. reflexivity.
  - apply Z.leb_gt in E.
    replace (Z.to_nat (offset b + 1)) with (length (pre ++ [x]))
      by (rewrite length_app; simpl; lia).
    rewrite (cons_middle x pre post), app_assoc.
    rewrite drop_app_length, take_app_length.
    rewrite app_assoc. reflexivity.
Qed.

Lemma ring_view_add_all xs :
  ring_view (add_all circular_buffer_init xs) = window xs.
Proof.
  induction xs as [|x xs IH] using rev_ind; [reflexivity|].
  rewrite add_all_snoc, ring_view_add by apply cb_wf_add_all, cb_wf_init.
  rewrite IH, window_snoc. reflexivity.
Qed.

Lemma sumZ_ring_view b : sumZ (ring_view b) = sumZ (samples b).
Proof.
  unfold ring_view. rewrite sumZ_app, Z.add_comm, <- sumZ_app, take_drop.
  reflexivity.
Qed.

Lemma sum_ok_add b x : cb_wf b -> sum_ok b -> sum_ok (circular_buffer_add b x).
Proof.
  intros Hwf Hsum.
  destruct (cb_wf_split b Hwf) as (pre & y & post & Hs & Hpre & Htot).
  unfold sum_ok, circular_buffer_add, sample_at in *; simpl.
  rewrite Hsum, Hs, <- Hpre.
  rewrite (insert_app_r_alt pre (y :: post) (length pre) x) by lia.
  rewrite Nat.sub_diag. simpl.
  rewrite list_lookup_middle by reflexivity. simpl.
  unfold long_add, long_sub.
  rewrite to_long_add_l, to_long_add_r.
  f_equal. rewrite !sumZ_app. simpl. lia.
Qed.

Lemma sum_ok_add_all xs : sum_ok (add_all circular_buffer_init xs).
Proof.
  induction xs as [|x xs IH] using rev_ind; [reflexivity|].
  rewrite add_all_snoc.
  apply sum_ok_add; [apply cb_wf_add_all, cb_wf_init|exact IH].
Qed.

(** After any sequence of insertions into a fresh buffer, [sum] is the
    sum of the most recent [min n 31] samples, as a [long]. *)
Lemma circular_buffer_sum_recent xs :
  sum (add_all circular_buffer_init xs) = to_long (sumZ (recent xs)).
Proof.
  rewrite (sum_ok_add_all xs), <- sumZ_ring_view, ring_view_add_all, sumZ_window.
  reflexivity.
Qed.

(** ... and it is that sum exactly whenever the sum fits in a [long]. *)
Lemma circular_buffer_sum_exact xs :
  is_long (sumZ (recent xs)) ->
  sum (add_all circular_buffer_init xs) = sumZ (recent xs).
Proof. intros Hfit. rewrite circular_buffer_sum_recent. apply to_long_small, Hfit. Qed.

(** Ring overwrite: once 32 samples went in, the first one is gone. *)
Lemma circular_buffer_overwrites_oldest x0 xs :
  length xs = 31%nat ->
  sum (add_all circular_buffer_init (x0 :: xs)) = to_long (sumZ xs).
Proof.
  intros Hlen. rewrite circular_buffer_sum_recent. unfold recent. simpl.
  rewrite Hlen. reflexivity.
Qed.

Lemma count_add_all xs :
  Z.of_nat (length xs) <= LONG_MAX ->
  count (add_all circular_buffer_init xs) = Z.of_nat (length xs).
Proof.
  induction xs as [|x xs IH] using rev_ind; [reflexivity|].
  rewrite length_app, add_all_snoc. simpl. unfold LONG_MAX in *. intros Hn.
  rewrite IH by lia. unfold long_add.
  rewrite to_long_small by (unfold is_long; lia). lia.
Qed.

End RunningAverage.

(** ** Sync serial state machine *)

Section SyncSerial.

Implicit Types (st : state) (d : frame_disposition).

Lemma sync_counter_calls (c : XSyncCounter) (v : Z) st :
  calls (sync_counter c v st) =
  if have_xsync_extension (xserver st) =? 0 then calls st
  else calls st ++ [XSyncSetCounter c (counter_value v)].
Proof. unfold sync_counter. destruct (_ =? 0); reflexivity. Qed.

Lemma sync_counter_calls_ext (c : XSyncCounter) (v : Z) st :
  have_xsync_extension (xserver st) <> 0 ->
  calls (sync_counter c v st) = calls st ++ [XSyncSetCounter c (counter_value v)].
Proof.
  intros H. rewrite sync_counter_calls.
  destruct (Z.eqb_spec (have_xsync_extension (xserver st)) 0); [contradiction|reflexivity].
Qed.

(** [sync_counter] only records a call. *)
Lemma sync_counter_state (c : XSyncCounter) (v : Z) st :
  sync_counter c v st =
  mk_state (sync st) (xserver st) (frame st) (frame_time_buffer st)
    (render_time_buffer st) (clock st) (ticks st)
    (calls (sync_counter c v st)).
Proof. unfold sync_counter. destruct (_ =? 0); destruct st; reflexivity. Qed.

Lemma sync_counter_sync (c : XSyncCounter) (v : Z) st :
  sync (sync_counter c v st) = sync st.
Proof. rewrite sync_counter_state. reflexivity. Qed.

Lemma sync_counter_xserver (c : XSyncCounter) (v : Z) st :
  xserver (sync_counter c v st) = xserver st.
Proof. rewrite sync_counter_state. reflexivity. Qed.

(** The serials [begin_frame] leaves behind. *)
Lemma begin_frame_sync d st :
  sync (begin_frame d st) =
  mk_sync_state
    (request_extended_sync (sync st))
    (configure_extended_sync (sync st))
    (ulong_add (frame_base (sync st)) (disposition_step d))
    (request_sync_serial (sync st))
    (if configure_pending (sync st) then 0 else configure_sync_serial (sync st))
    (ulong_add (frame_base (sync st)) 4)
    (drawn_sync_serial (sync st))
    (timing_sync_serial (sync st)).
Proof.
  unfold begin_frame. rewrite sync_counter_sync.
  unfold frame_base, configure_pending.
  destruct st as [s xs fr fb rb ck tk cs]. destruct s as [re ce cur rq cf inf dr tm].
  simpl.
  destruct (negb (cf =? 0) && negb (ce =? 0)); simpl.
  - destruct (Z.land cf 3 =? 0); reflexivity.
  - destruct (Z.land cur 3 =? 0); reflexivity.
Qed.

Lemma begin_frame_xserver d st : xserver (begin_frame d st) = xserver st.
Proof.
  unfold begin_frame. rewrite sync_counter_xserver.
  destruct st as [s xs fr fb rb ck tk cs]. simpl.
  destruct (negb _ && negb _); simpl; destruct (negb _); reflexivity.
Qed.

(** [begin_frame] makes one counter write: the new current serial, to the
    extended counter. *)
Lemma begin_frame_calls d st :
  have_xsync_extension (xserver st) <> 0 ->
  calls (begin_frame d st) =
  calls st ++ [XSyncSetCounter (extended_counter (xserver st))
                 (counter_value (current_sync_serial (sync (begin_frame d st))))].
Proof.
  intros Hx. rewrite begin_frame_sync. simpl.
  unfold begin_frame. rewrite sync_counter_calls_ext.
  - unfold frame_base, configure_pending.
    destruct st as [s xs fr fb rb ck tk cs]. destruct s as [re ce cur rq cf inf dr tm].
    simpl.
    destruct (negb (cf =? 0) && negb (ce =? 0)); simpl.
    + destruct (Z.land cf 3 =? 0); reflexivity.
    + destruct (Z.land cur 3 =? 0); reflexivity.
  - destruct st as [s xs fr fb rb ck tk cs]. simpl in *.
    destruct (negb _ && negb _); simpl; destruct (negb _); exact Hx.
Qed.

Lemma frame_base_mod_4 (s : sync_state) : frame_base s mod 4 = 0.
Proof.
  unfold frame_base.
  destruct (Z.land _ 3 =? 0) eqn:E.
  - apply Z.eqb_eq in E. rewrite land_3_mod in E. exact E.
  - apply land_not_3_mod_4, to_ulong_range.
Qed.

Lemma frame_base_idle (s : sync_state) :
  configure_pending s = false ->
  current_sync_serial s mod 4 = 0 ->
  frame_base s = current_sync_serial s.
Proof.
  intros Hp Hc. unfold frame_base. rewrite Hp, land_3_mod, Hc. reflexivity.
Qed.

Lemma ulong_add_mod_4 (a b : Z) : ulong_add a b mod 4 = (a mod 4 + b) mod 4.
Proof.
  unfold ulong_add. rewrite to_ulong_mod_4.
  rewrite Zplus_mod_idemp_l. reflexivity.
Qed.

(** After [begin_frame] the two low bits are 01 (normal) or 11 (urgent). *)
Lemma begin_frame_low_bits d st :
  current_sync_serial (sync (begin_frame d st)) mod 4 = disposition_step d.
Proof.
  rewrite begin_frame_sync. simpl.
  rewrite ulong_add_mod_4, frame_base_mod_4. destruct d; reflexivity.
Qed.

Lemma end_frame_sync st :
  sync (end_frame st) =
  let s := set_current_sync_serial (end_serial (current_sync_serial (sync st)))
             (sync st) in
  if configure_pending (sync st)
  then set_configure_extended_sync 0 (set_configure_sync_serial 0 s)
  else s.
Proof.
  unfold end_frame, end_serial, configure_pending.
  destruct st as [s xs fr fb rb ck tk cs]. destruct s as [re ce cur rq cf inf dr tm].
  simpl.
  destruct (Z.land cur 3 =? 1); [|destruct (Z.land cur 3 =? 3)];
    rewrite ?sync_counter_sync; simpl;
    destruct (negb (cf =? 0) && negb (ce =? 0)); simpl;
    rewrite ?sync_counter_sync; reflexivity.
Qed.

Lemma end_frame_xserver st : xserver (end_frame st) = xserver st.
Proof.
  unfold end_frame.
  destruct st as [s xs fr fb rb ck tk cs]. destruct s as [re ce cur rq cf inf dr tm].
  simpl.
  destruct (Z.land cur 3 =? 1); [|destruct (Z.land cur 3 =? 3)];
    rewrite ?sync_counter_sync, ?sync_counter_xserver; simpl;
    destruct (negb (cf =? 0) && negb (ce =? 0)); simpl;
    rewrite ?sync_counter_xserver; reflexivity.
Qed.

(** The counter writes of [end_frame]: the closing serial to the extended
    counter when a frame was open, then the pending configure serial to
    the basic counter. *)
Lemma end_frame_calls st :
  have_xsync_extension (xserver st) <> 0 ->
  calls (end_frame st) =
  calls st
  ++ (if frame_open (current_sync_serial (sync st))
      then [XSyncSetCounter (extended_counter (xserver st))
              (counter_value (end_serial (current_sync_serial (sync st))))]
      else [])
  ++ (if configure_pending (sync st)
      then [XSyncSetCounter (update_counter (xserver st))
              (counter_value (configure_sync_serial (sync st)))]
      else []).
Proof.
  intros Hx.
  unfold end_frame, end_serial, frame_open, configure_pending.
  destruct st as [s xs fr fb rb ck tk cs]. destruct s as [re ce cur rq cf inf dr tm].
  simpl in *.
  destruct (Z.land cur 3 =? 1); [|destruct (Z.land cur 3 =? 3)];
    rewrite ?sync_counter_sync, ?sync_counter_xserver; simpl;
    destruct (negb (cf =? 0) && negb (ce =? 0)); simpl;
    rewrite ?sync_counter_calls_ext; simpl;
    rewrite ?sync_counter_xserver, ?sync_counter_calls_ext; simpl;
    rewrite ?app_nil_r, <- ?app_assoc; try reflexivity; try exact Hx.
Qed.

Lemma end_serial_mod_4 (c : Z) : c mod 4 <> 2 -> end_serial c mod 4 = 0.
Proof.
  intros Hc. unfold end_serial. rewrite !land_3_mod.
  pose proof (Z.mod_pos_bound c 4 ltac:(lia)) as Hb.
  destruct (Z.eqb_spec (c mod 4) 1) as [E1|N1].
  - rewrite ulong_add_mod_4, E1. reflexivity.
  - destruct (Z.eqb_spec (c mod 4) 3) as [E3|N3].
    + rewrite ulong_add_mod_4, E3. reflexivity.
    + lia.
Qed.

Lemma end_frame_low_bits st :
  current_sync_serial (sync st) mod 4 <> 2 ->
  current_sync_serial (sync (end_frame st)) mod 4 = 0.
Proof.
  intros Hc. rewrite end_frame_sync. simpl.
  destruct (configure_pending (sync st)); simpl; apply end_serial_mod_4, Hc.
Qed.

Lemma configure_pending_false (s : sync_state) :
  configure_sync_serial s = 0 \/ configure_extended_sync s = 0 ->
  configure_pending s = false.
Proof.
  unfold configure_pending. intros [H|H]; rewrite H; simpl.
  - reflexivity.
  - apply andb_false_r.
Qed.

(** C1. From an idle state (current a multiple of 4, no extended
    configure serial pending) with the counters negotiated,
    [begin_frame(frame_normal)] writes current + 1 to the extended counter
    and sets inflight to current + 4; the [end_frame] that follows writes
    current + 4 to the extended counter and leaves current idle again.
    Sums are those of [unsigned long]: [ulong_add c 4] is [c + 4] except
    at [c = 2^64 - 4] (see [ulong_add_no_wrap]). *)
Theorem begin_end_frame_normal_publishes (st : state) :
  is_ulong (current_sync_serial (sync st)) ->
  current_sync_serial (sync st) mod 4 = 0 ->
  configure_sync_serial (sync st) = 0
    \/ configure_extended_sync (sync st) = 0 ->
  have_xsync_extension (xserver st) <> 0 ->
  let c := current_sync_serial (sync st) in
  let st1 := begin_frame frame_normal st in
  let st2 := end_frame st1 in
  calls st1 = calls st ++ [XSyncSetCounter (extended_counter (xserver st))
                             (counter_value (c + 1))]
  /\ XSyncValue_to_ulong (counter_value (c + 1)) = c + 1
  /\ current_sync_serial (sync st1) = c + 1
  /\ inflight_sync_serial (sync st1) = ulong_add c 4
  /\ calls st2 = calls st1 ++ [XSyncSetCounter (extended_counter (xserver st))
                                 (counter_value (ulong_add c 4))]
  /\ XSyncValue_to_ulong (counter_value (ulong_add c 4)) = ulong_add c 4
  /\ current_sync_serial (sync st2) = ulong_add c 4
  /\ current_sync_serial (sync st2) mod 4 = 0
  /\ inflight_sync_serial (sync st2) = current_sync_serial (sync st2).
Proof.
  intros Hu Hidle Hconf Hx c st1 st2.
  pose proof (configure_pending_false _ Hconf) as Hp.
  assert (Hc4 : c + 4 <= 2 ^ 64).
  { unfold is_ulong in Hu. fold c in Hu, Hidle.
    change (2 ^ 64) with (4 * 2 ^ 62) in *.
    pose proof (Z.div_mod c 4 ltac:(lia)) as Hdm. lia. }
  assert (Hc1 : ulong_add c 1 = c + 1).
  { unfold is_ulong in Hu. fold c in Hu. apply ulong_add_no_wrap; lia. }
  assert (Hs1 : sync st1 =
                set_inflight_sync_serial (ulong_add c 4)
                  (set_current_sync_serial (c + 1) (sync st))).
  { unfold st1. rewrite begin_frame_sync, Hp, (frame_base_idle _ Hp Hidle).
    fold c. simpl disposition_step. rewrite Hc1.
    destruct (sync st); reflexivity. }
  assert (Hcur1 : current_sync_serial (sync st1) = c + 1)
    by (rewrite Hs1; reflexivity).
  assert (Hx1 : have_xsync_extension (xserver st1) <> 0)
    by (unfold st1; rewrite begin_frame_xserver; exact Hx).
  assert (Hlow : Z.land (c + 1) 3 = 1).
  { rewrite land_3_mod, <- Zplus_mod_idemp_l. fold c in Hidle. rewrite Hidle.
    reflexivity. }
  assert (Hend : end_serial (c + 1) = ulong_add c 4).
  { unfold end_serial. rewrite Hlow. simpl. unfold ulong_add. f_equal. lia. }
  assert (Hp1 : configure_pending (sync st1) = false).
  { rewrite Hs1. unfold configure_pending in *. destruct (sync st); exact Hp. }
  assert (Hs2 : current_sync_serial (sync st2) = ulong_add c 4
                /\ inflight_sync_serial (sync st2) = ulong_add c 4).
  { unfold st2. rewrite end_frame_sync, Hp1, Hcur1, Hend, Hs1.
    destruct (sync st); split; reflexivity. }
  destruct Hs2 as [Hcur2 Hinf2].
  repeat split.
  - unfold st1 at 1. rewrite (begin_frame_calls _ _ Hx). fold st1.
    rewrite Hcur1. reflexivity.
  - apply XSyncValue_roundtrip. unfold is_ulong in *. fold c in Hu. lia.
  - exact Hcur1.
  - rewrite Hs1. destruct (sync st); reflexivity.
  - unfold st2 at 1. rewrite (end_frame_calls _ Hx1), Hp1, Hcur1, Hend.
    unfold frame_open. rewrite Hlow. simpl. rewrite ?app_nil_r.
    unfold st1. rewrite begin_frame_xserver. reflexivity.
  - apply XSyncValue_roundtrip, to_ulong_range.
  - exact Hcur2.
  - rewrite Hcur2, ulong_add_mod_4. fold c in Hidle. rewrite Hidle. reflexivity.
  - rewrite Hinf2, Hcur2. reflexivity.
Qed.

(** *** The serials through a frame submission and through an event *)

Lemma draw_frame_sync st : sync (draw_frame st) = sync st.
Proof.
  unfold draw_frame. destruct st as [s xs fr fb rb ck tk cs]. simpl.
  destruct (negb _ || negb _); simpl; destruct (animation _); reflexivity.
Qed.

Lemma draw_frame_xserver st : xserver (draw_frame st) = xserver st.
Proof.
  unfold draw_frame. destruct st as [s xs fr fb rb ck tk cs]. simpl.
  destruct (negb _ || negb _); simpl; destruct (animation _); reflexivity.
Qed.

Lemma submit_frame_sync d (rate : F32.float) st :
  sync (submit_frame d rate st) =
  if awaiting_timings (sync st) then sync st
  else end_frame_serials (begin_frame_serials frame_normal (sync st)).
Proof.
  unfold submit_frame, awaiting_timings, get_time_microseconds.
  cbv zeta iota beta. autorewrite with state_proj.
  destruct ((0 <? timing_sync_serial (sync st)) && _).
  - autorewrite with state_proj. reflexivity.
  - autorewrite with state_proj.
    rewrite end_frame_sync. autorewrite with state_proj.
    rewrite begin_frame_sync, draw_frame_sync. autorewrite with state_proj.
    destruct (negb _); autorewrite with state_proj; reflexivity.
Qed.

(** The dispatcher never moves the current serial, except that an
    [Expose] may run a whole frame. *)
Lemma process_event_current (e : XEvent) st :
  current_sync_serial (sync (process_event e st))
    = current_sync_serial (sync st)
  \/ current_sync_serial (sync (process_event e st)) mod 4 = 0.
Proof.
  unfold process_event, get_time_microseconds.
  destruct st as [s xs fr fb rb ck tk cs].
  destruct e as [ser cnt|ser w h|ser win mt l|a|ty]; simpl.
  - rewrite submit_frame_sync. simpl.
    destruct (awaiting_timings s); [left; reflexivity|right].
    unfold end_frame_serials.
    assert (Hlow : end_serial (current_sync_serial
                     (begin_frame_serials frame_normal s)) mod 4 = 0).
    { apply end_serial_mod_4. simpl.
      rewrite ulong_add_mod_4, frame_base_mod_4. discriminate. }
    destruct (configure_pending _); simpl; exact Hlow.
  - left. rewrite sync_counter_sync. destruct s; reflexivity.
  - left.
    destruct ((mt =? WM_PROTOCOLS xs) && (to_ulong (l0 l) =? _NET_WM_PING xs));
      [reflexivity|].
    destruct ((mt =? WM_PROTOCOLS xs)
              && (to_ulong (l0 l) =? _NET_WM_SYNC_REQUEST xs));
      [destruct s; reflexivity|].
    destruct (mt =? _NET_WM_FRAME_DRAWN xs).
    { destruct (_ <? _); destruct s; reflexivity. }
    destruct (mt =? _NET_WM_FRAME_TIMINGS xs).
    { destruct (_ <? _); destruct s; reflexivity. }
    reflexivity.
  - left; reflexivity.
  - left; reflexivity.
Qed.

(** *** Runs of the state machine *)

Lemma run_snoc (acts : list action) (a : action) st :
  run (acts ++ [a]) st = step a (run acts st).
Proof. unfold run. rewrite fold_left_app. reflexivity. Qed.

Lemma cycle_open_snoc (acts : list action) (a : action) :
  cycle_open (acts ++ [a]) =
  match a with
  | do_begin_frame _ => true
  | do_end_frame => false
  | _ => cycle_open acts
  end.
Proof. unfold cycle_open. rewrite fold_left_app. reflexivity. Qed.

(** The invariant of every run: the low bits are never 10, and they are
    00 whenever no cycle is open. *)
Lemma run_low_bits (acts : list action) st :
  current_sync_serial (sync st) mod 4 = 0 ->
  current_sync_serial (sync (run acts st)) mod 4 <> 2
  /\ (cycle_open acts = false ->
      current_sync_serial (sync (run acts st)) mod 4 = 0).
Proof.
  intros H0. induction acts as [|a acts IH] using rev_ind.
  - simpl. split; [rewrite H0; discriminate|intros _; exact H0].
  - rewrite run_snoc, cycle_open_snoc. destruct IH as [IH2 IH0].
    destruct a as [d| |d rate|e]; simpl.
    + split; [|discriminate].
      rewrite begin_frame_low_bits. destruct d; discriminate.
    + pose proof (end_frame_low_bits _ IH2) as He.
      split; [rewrite He; discriminate|intros _; exact He].
    + rewrite submit_frame_sync.
      destruct (awaiting_timings _); [split; assumption|].
      assert (Hlow : current_sync_serial
                (end_frame_serials
                   (begin_frame_serials frame_normal (sync (run acts st))))
                mod 4 = 0).
      { unfold end_frame_serials.
        assert (Hlow : end_serial (current_sync_serial
                  (begin_frame_serials frame_normal (sync (run acts st))))
                  mod 4 = 0).
        { apply end_serial_mod_4. simpl.
          rewrite ulong_add_mod_4, frame_base_mod_4. discriminate. }
        destruct (configure_pending _); simpl; exact Hlow. }
      split; [rewrite Hlow; discriminate|intros _; exact Hlow].
    + destruct (process_event_current e (run acts st)) as [Heq|Hz].
      * rewrite Heq. split; assumption.
      * split; [rewrite Hz; discriminate|intros _; exact Hz].
Qed.

Lemma lookup_states_of_run (acts : list action) st (i : nat) (sti : state) :
  states_of_run acts st !! i = Some sti -> sti = run (take i acts) st.
Proof.
  revert st i. induction acts as [|a acts IH]; intros st [|i] H; simpl in H.
  - injection H as <-. reflexivity.
  - discriminate.
  - injection H as <-. reflexivity.
  - apply IH in H. exact H.
Qed.

(** C2. Idle invariant.  Start with the current serial a multiple of 4
    and perform any sequence of [begin_frame]/[end_frame] calls, frame
    submissions and dispatched events.  At every point of the run at
    which no frame cycle is open (after each [end_frame], up to the next
    [begin_frame]) the current serial is a multiple of 4. *)
Theorem idle_between_cycles (st : state) (acts : list action)
    (i : nat) (sti : state) :
  current_sync_serial (sync st) mod 4 = 0 ->
  states_of_run acts st !! i = Some sti ->
  cycle_open (take i acts) = false ->
  current_sync_serial (sync sti) mod 4 = 0.
Proof.
  intros H0 Hi Hidle. apply lookup_states_of_run in Hi. subst sti.
  apply (run_low_bits (take i acts) st H0), Hidle.
Qed.

Lemma begin_end_frame_normal_publishes_witness :
  (is_ulong (current_sync_serial (sync sample_state))
   /\ current_sync_serial (sync sample_state) mod 4 = 0
   /\ (configure_sync_serial (sync sample_state) = 0
       \/ configure_extended_sync (sync sample_state) = 0)
   /\ have_xsync_extension (xserver sample_state) <> 0)
  /\ calls (begin_frame frame_normal sample_state)
     = [XSyncSetCounter 42 (counter_value 1)]
  /\ inflight_sync_serial (sync (begin_frame frame_normal sample_state))
     = ulong_add 0 4
  /\ calls (end_frame (begin_frame frame_normal sample_state))
     = calls (begin_frame frame_normal sample_state)
       ++ [XSyncSetCounter 42 (counter_value (ulong_add 0 4))].
Proof.
  assert (H1 : is_ulong (current_sync_serial (sync sample_state)))
    by (unfold is_ulong; simpl; lia).
  assert (H2 : current_sync_serial (sync sample_state) mod 4 = 0)
    by reflexivity.
  assert (H3 : configure_sync_serial (sync sample_state) = 0
               \/ configure_extended_sync (sync sample_state) = 0)
    by (left; reflexivity).
  assert (H4 : have_xsync_extension (xserver sample_state) <> 0)
    by (simpl; lia).
  split; [exact (conj H1 (conj H2 (conj H3 H4)))|].
  destruct (begin_end_frame_normal_publishes sample_state H1 H2 H3 H4)
    as (Ha & _ & _ & Hb & Hc & _).
  exact (conj Ha (conj Hb Hc)).
Defined.

Lemma idle_between_cycles_witness :
  current_sync_serial (sync sample_state) mod 4 = 0
  /\ states_of_run sample_run sample_state !! 3%nat
     = Some (run (take 3 sample_run) sample_state)
  /\ cycle_open (take 3 sample_run) = false
  /\ current_sync_serial (sync (run (take 3 sample_run) sample_state)) mod 4 = 0.
Proof.
  assert (H1 : current_sync_serial (sync sample_state) mod 4 = 0)
    by reflexivity.
  assert (H2 : states_of_run sample_run sample_state !! 3%nat
               = Some (run (take 3 sample_run) sample_state))
    by (vm_compute; reflexivity).
  assert (H3 : cycle_open (take 3 sample_run) = false)
    by (vm_compute; reflexivity).
  refine (conj H1 (conj H2 (conj H3 _))).
  exact (idle_between_cycles sample_state sample_run 3
           (run (take 3 sample_run) sample_state) H1 H2 H3).
Defined.

End SyncSerial.

(** ** Frame submission *)

Section FrameSubmission.

Implicit Types (st : state) (d : frame_disposition) (rate : F32.float).

(** The delayed branch of [submit_frame], as a whole-state equation. *)
Lemma submit_frame_delayed d rate st :
  awaiting_timings (sync st) = true ->
  submit_frame d rate st =
  with_frame (fun f => set_next_draw_time (long_add (time_now st) 2000)
                         (set_current_time (time_now st) f))
    (emit (XSync false) (set_ticks (S (ticks st)) st)).
Proof.
  intros Hg. unfold submit_frame, get_time_microseconds, awaiting_timings in *.
  cbv zeta iota beta. autorewrite with state_proj. rewrite Hg.
  destruct st as [s xs fr fb rb ck tk cs]. destruct fr. reflexivity.
Qed.

Lemma awaiting_timings_true (s : sync_state) :
  0 < timing_sync_serial s ->
  timing_sync_serial s < inflight_sync_serial s ->
  awaiting_timings s = true.
Proof.
  intros H0 H1. unfold awaiting_timings.
  apply andb_true_intro. split; apply Z.ltb_lt; assumption.
Qed.

(** C3. Backpressure.  When the timing serial is positive and behind the
    in-flight serial, [submit_frame] calls [XSync] and nothing else (so
    the renderer is not invoked), leaves the frame counter, the last draw
    time, both averaging buffers and the serials as they were, and sets
    [next_draw_time] to the clock reading plus 2000 microseconds (a
    [long] sum: exactly [now + 2000] whenever that fits). *)
Theorem submit_frame_backpressure d rate st :
  0 < timing_sync_serial (sync st) ->
  timing_sync_serial (sync st) < inflight_sync_serial (sync st) ->
  let st' := submit_frame d rate st in
  calls st' = calls st ++ [XSync false]
  /\ existsb renderer_call (drop (length (calls st)) (calls st')) = false
  /\ frame_number (frame st') = frame_number (frame st)
  /\ last_draw_time (frame st') = last_draw_time (frame st)
  /\ frame_time_buffer st' = frame_time_buffer st
  /\ render_time_buffer st' = render_time_buffer st
  /\ sync st' = sync st
  /\ current_time (frame st') = time_now st
  /\ next_draw_time (frame st') = long_add (time_now st) 2000
  /\ (time_now st + 2000 <= LONG_MAX ->
      next_draw_time (frame st') = time_now st + 2000).
Proof.
  intros H0 H1 st'.
  pose proof (submit_frame_delayed d rate st (awaiting_timings_true _ H0 H1))
    as Heq.
  fold st' in Heq.
  assert (Hcalls : calls st' = calls st ++ [XSync false])
    by (rewrite Heq; reflexivity).
  assert (Hnext : next_draw_time (frame st') = long_add (time_now st) 2000)
    by (rewrite Heq; reflexivity).
  split; [exact Hcalls|].
  split; [rewrite Hcalls, drop_app_length; reflexivity|].
  do 6 (split; [rewrite Heq; reflexivity|]).
  split; [exact Hnext|].
  intros Hfit. rewrite Hnext. apply long_add_no_wrap.
  pose proof (to_long_range (timespec_microseconds (clock st (ticks st)))) as Hr.
  unfold is_long, LONG_MAX, time_now in *. lia.
Qed.

Lemma submit_frame_backpressure_witness :
  0 < timing_sync_serial (sync sample_delayed_state)
  /\ timing_sync_serial (sync sample_delayed_state)
     < inflight_sync_serial (sync sample_delayed_state)
  /\ calls (submit_frame frame_normal F32.f_29_97 sample_delayed_state)
     = calls sample_delayed_state ++ [XSync false]
  /\ next_draw_time
       (frame (submit_frame frame_normal F32.f_29_97 sample_delayed_state))
     = long_add (time_now sample_delayed_state) 2000.
Proof.
  assert (H0 : 0 < timing_sync_serial (sync sample_delayed_state))
    by (simpl; lia).
  assert (H1 : timing_sync_serial (sync sample_delayed_state)
               < inflight_sync_serial (sync sample_delayed_state))
    by (simpl; lia).
  destruct (submit_frame_backpressure frame_normal F32.f_29_97
              sample_delayed_state H0 H1)
    as (Ha & _ & _ & _ & _ & _ & _ & _ & Hb & _).
  exact (conj H0 (conj H1 (conj Ha Hb))).
Defined.

(** [submit_frame] reads its [disposition] argument for the trace output
    only: the frame it submits is the same for both values. *)
Lemma submit_frame_ignores_disposition d rate st :
  submit_frame d rate st = submit_frame frame_normal rate st.
Proof. reflexivity. Qed.

End FrameSubmission.

(** ** Event dispatcher *)

Section Dispatcher.

Implicit Types (st : state) (l : client_data).

Lemma atoms_distinct_frame_messages (xs : xserver_state) :
  atoms_distinct xs ->
  _NET_WM_FRAME_DRAWN xs <> WM_PROTOCOLS xs
  /\ _NET_WM_FRAME_TIMINGS xs <> WM_PROTOCOLS xs
  /\ _NET_WM_FRAME_TIMINGS xs <> _NET_WM_FRAME_DRAWN xs.
Proof.
  unfold atoms_distinct. rewrite !NoDup_cons, !not_elem_of_cons.
  intros H. repeat split; intros E; rewrite E in *; tauto.
Qed.

Lemma sync_entered st : sync (entered st) = sync st.
Proof. reflexivity. Qed.

(** A [_NET_WM_FRAME_DRAWN] message moves [drawn_sync_serial] up to its
    serial, or changes nothing. *)
Lemma process_frame_drawn st (ser : Z) (win : XID) l :
  _NET_WM_FRAME_DRAWN (xserver st) <> WM_PROTOCOLS (xserver st) ->
  process_event (ClientMessage ser win (_NET_WM_FRAME_DRAWN (xserver st)) l) st
  = if drawn_sync_serial (sync st) <? message_sync_serial l
    then with_sync (set_drawn_sync_serial (message_sync_serial l)) (entered st)
    else entered st.
Proof.
  intros Hne. unfold process_event, get_time_microseconds, entered, time_now.
  cbv zeta iota beta. autorewrite with state_proj.
  apply Z.eqb_neq in Hne. rewrite Hne, Z.eqb_refl. reflexivity.
Qed.

Lemma process_frame_timings st (ser : Z) (win : XID) l :
  _NET_WM_FRAME_TIMINGS (xserver st) <> WM_PROTOCOLS (xserver st) ->
  _NET_WM_FRAME_TIMINGS (xserver st) <> _NET_WM_FRAME_DRAWN (xserver st) ->
  process_event (ClientMessage ser win (_NET_WM_FRAME_TIMINGS (xserver st)) l) st
  = if timing_sync_serial (sync st) <? message_sync_serial l
    then with_sync (set_timing_sync_serial (message_sync_serial l)) (entered st)
    else entered st.
Proof.
  intros Hne1 Hne2.
  unfold process_event, get_time_microseconds, entered, time_now.
  cbv zeta iota beta. autorewrite with state_proj.
  apply Z.eqb_neq in Hne1, Hne2. rewrite Hne1, Hne2, Z.eqb_refl. reflexivity.
Qed.

(** What a [ConfigureNotify] does to the serials: the request slot moves
    into the configure slot, flag included, and is cleared. *)
Lemma process_configure_notify st (ser w h : Z) :
  process_event (ConfigureNotify ser w h) st =
  sync_counter (extended_counter (xserver st)) (current_sync_serial (sync st))
    (with_sync (fun s =>
        mk_sync_state 0 (request_extended_sync s) (current_sync_serial s)
          0 (request_sync_serial s) (inflight_sync_serial s)
          (drawn_sync_serial s) (timing_sync_serial s))
       (with_frame (set_size w h) (entered st))).
Proof.
  unfold process_event, get_time_microseconds, entered, time_now.
  cbv zeta iota beta. autorewrite with state_proj.
  destruct st as [s xs fr fb rb ck tk cs]. destruct s. reflexivity.
Qed.

(** C10, corrected.  Every [ConfigureNotify], whatever the request slot
    holds, overwrites the configure serial and the configure-extended
    flag with the request serial and the request-extended flag, zeroes
    the request serial and flag, leaves the other serials alone, takes
    over the new size and rewrites the current serial to the extended
    counter.  Consequently, when the request serial and the
    request-extended flag are both 0, a configure serial that was
    promoted earlier and not consumed, and its flag, are reset to 0. *)
Theorem configure_notify_overwrites st (ser w h : Z) :
  let st' := process_event (ConfigureNotify ser w h) st in
  configure_sync_serial (sync st') = request_sync_serial (sync st)
  /\ configure_extended_sync (sync st') = request_extended_sync (sync st)
  /\ request_sync_serial (sync st') = 0
  /\ request_extended_sync (sync st') = 0
  /\ current_sync_serial (sync st') = current_sync_serial (sync st)
  /\ inflight_sync_serial (sync st') = inflight_sync_serial (sync st)
  /\ drawn_sync_serial (sync st') = drawn_sync_serial (sync st)
  /\ timing_sync_serial (sync st') = timing_sync_serial (sync st)
  /\ width (frame st') = w /\ height (frame st') = h
  /\ calls st'
     = (if have_xsync_extension (xserver st) =? 0 then calls st
        else calls st
             ++ [XSyncSetCounter (extended_counter (xserver st))
                   (counter_value (current_sync_serial (sync st)))])
  /\ (is_ulong (current_sync_serial (sync st)) ->
      XSyncValue_to_ulong (counter_value (current_sync_serial (sync st)))
      = current_sync_serial (sync st))
  /\ (request_sync_serial (sync st) = 0 ->
      request_extended_sync (sync st) = 0 ->
      configure_sync_serial (sync st') = 0
      /\ configure_extended_sync (sync st') = 0).
Proof.
  intros st'.
  assert (Hs : sync st'
               = mk_sync_state 0 (request_extended_sync (sync st))
                   (current_sync_serial (sync st)) 0
                   (request_sync_serial (sync st))
                   (inflight_sync_serial (sync st))
                   (drawn_sync_serial (sync st))
                   (timing_sync_serial (sync st))).
  { unfold st'. rewrite process_configure_notify, sync_counter_sync.
    reflexivity. }
  assert (Hf : frame st' = set_size w h (frame (entered st))).
  { unfold st'. rewrite process_configure_notify, sync_counter_state.
    reflexivity. }
  rewrite Hs, Hf. simpl.
  split_and!; try reflexivity.
  - unfold st'. rewrite process_configure_notify, sync_counter_calls.
    reflexivity.
  - apply XSyncValue_roundtrip.
  - intros Hreq Hext. split; assumption.
Qed.

(** The serials whatever the request slot holds. *)
Lemma configure_notify_sync st (ser w h : Z) :
  sync (process_event (ConfigureNotify ser w h) st) =
  mk_sync_state 0 (request_extended_sync (sync st))
    (current_sync_serial (sync st)) 0 (request_sync_serial (sync st))
    (inflight_sync_serial (sync st)) (drawn_sync_serial (sync st))
    (timing_sync_serial (sync st)).
Proof.
  rewrite process_configure_notify, sync_counter_sync. reflexivity.
Qed.

(** With [request_sync_serial = 0] alone the flag is not reset: the
    [ConfigureNotify] copies the request-extended flag, here 1. *)
Lemma configure_notify_flag_counterexample :
  request_sync_serial (sync sample_promoted_state) = 0
  /\ configure_sync_serial (sync sample_promoted_state) = 12
  /\ configure_extended_sync
       (sync (process_event (ConfigureNotify 4 640 480) sample_promoted_state))
     = 1.
Proof. vm_compute. split_and!; reflexivity. Qed.

(** A request serial that is pending is promoted; an empty request slot
    resets what was promoted before. *)
Lemma configure_notify_overwrites_witness :
  request_sync_serial (sync sample_requested_state) = 2 ^ 32 + 11
  /\ configure_sync_serial
       (sync (process_event (ConfigureNotify 2 640 480) sample_requested_state))
     = 2 ^ 32 + 11
  /\ configure_extended_sync
       (sync (process_event (ConfigureNotify 2 640 480) sample_requested_state))
     = 1
  /\ configure_sync_serial (sync sample_configured_state) = 12
  /\ configure_sync_serial
       (sync (process_event (ConfigureNotify 4 640 480) sample_configured_state))
     = 0
  /\ configure_extended_sync
       (sync (process_event (ConfigureNotify 4 640 480) sample_configured_state))
     = 0.
Proof.
  assert (H0 : request_sync_serial (sync sample_requested_state) = 2 ^ 32 + 11)
    by (vm_compute; reflexivity).
  assert (Hf : request_extended_sync (sync sample_requested_state) = 1)
    by (vm_compute; reflexivity).
  assert (H1 : request_sync_serial (sync sample_configured_state) = 0)
    by (vm_compute; reflexivity).
  assert (H2 : request_extended_sync (sync sample_configured_state) = 0)
    by (vm_compute; reflexivity).
  assert (H3 : configure_sync_serial (sync sample_configured_state) = 12)
    by (vm_compute; reflexivity).
  destruct (configure_notify_overwrites sample_requested_state 2 640 480)
    as (Ha & Hb & _).
  destruct (configure_notify_overwrites sample_configured_state 4 640 480)
    as (_ & _ & _ & _ & _ & _ & _ & _ & _ & _ & _ & _ & Hz).
  destruct (Hz H1 H2) as [Hc Hd].
  rewrite H0 in Ha. rewrite Hf in Hb.
  exact (conj H0 (conj Ha (conj Hb (conj H3 (conj Hc Hd))))).
Defined.

(** C5.  The frame an [Expose] event submits, on a state in which the
    guard of [submit_frame] does not hold: [process_event] passes
    [frame_urgent], yet the extended counter receives 1 (low bits 01, a
    normal frame) and then 4, where [begin_frame(frame_urgent)] would
    write 3 (low bits 11). *)
Theorem expose_frame_published_as_normal :
  awaiting_timings (sync sample_state) = false
  /\ calls (process_event (Expose 0 0) sample_state)
     = [XFlush; call_reshape 500 500; call_draw F32.f_0;
        XSyncSetCounter 42 (mk_XSyncValue 0 1); glXSwapBuffers;
        XSyncSetCounter 42 (mk_XSyncValue 0 4)]
  /\ calls (begin_frame frame_urgent sample_state)
     = [XSyncSetCounter 42 (mk_XSyncValue 0 3)].
Proof. vm_compute. split_and!; reflexivity. Qed.

(** An [Expose] handled outside the delayed branch runs the frame cycle
    of a normal frame on the serials. *)
Lemma process_expose_sync st (ser cnt : Z) :
  awaiting_timings (sync st) = false ->
  sync (process_event (Expose ser cnt) st)
  = end_frame_serials (begin_frame_serials frame_normal (sync st)).
Proof.
  intros Hg. unfold process_event, get_time_microseconds.
  cbv zeta iota beta. rewrite submit_frame_sync.
  autorewrite with state_proj. rewrite Hg. reflexivity.
Qed.

(** C4.  [end_frame] with a basic (non-extended) configure serial
    pending: serial 12 was requested with [l[4] = 0] and promoted by a
    [ConfigureNotify]; a frame then begins.  [end_frame] writes the
    closing serial to the extended counter (42) only: nothing goes to the
    basic counter (41) and the configure serial is still 12 afterwards.
    The same holds for the whole [submit_frame]. *)
Theorem end_frame_leaves_basic_configure_pending :
  let st := begin_frame frame_normal sample_configured_state in
  have_xsync_extension (xserver st) = 1
  /\ update_counter (xserver st) = 41
  /\ configure_sync_serial (sync st) = 12
  /\ configure_extended_sync (sync st) = 0
  /\ calls (end_frame st) = calls st ++ [XSyncSetCounter 42 (mk_XSyncValue 0 4)]
  /\ configure_sync_serial (sync (end_frame st)) = 12
  /\ calls (submit_frame frame_normal F32.f_29_97 sample_configured_state)
     = calls sample_configured_state
       ++ [XFlush; call_reshape 640 480; call_draw F32.f_0;
           XSyncSetCounter 42 (mk_XSyncValue 0 1); glXSwapBuffers;
           XSyncSetCounter 42 (mk_XSyncValue 0 4)]
  /\ configure_sync_serial
       (sync (submit_frame frame_normal F32.f_29_97 sample_configured_state))
     = 12.
Proof. vm_compute. split_and!; reflexivity. Qed.

(** In general: with the extended flag clear, [end_frame] keeps the
    configure serial and makes no write to the basic counter. *)
Lemma end_frame_basic_configure st :
  have_xsync_extension (xserver st) <> 0 ->
  configure_extended_sync (sync st) = 0 ->
  configure_sync_serial (sync (end_frame st)) = configure_sync_serial (sync st)
  /\ calls (end_frame st) =
     calls st
     ++ (if frame_open (current_sync_serial (sync st))
         then [XSyncSetCounter (extended_counter (xserver st))
                 (counter_value (end_serial (current_sync_serial (sync st))))]
         else []).
Proof.
  intros Hx Hext.
  assert (Hp : configure_pending (sync st) = false)
    by (apply configure_pending_false; right; exact Hext).
  rewrite end_frame_sync, (end_frame_calls _ Hx), Hp, app_nil_r.
  split; reflexivity.
Qed.

(** With the extended flag set, [end_frame] does write the pending
    configure serial to the basic counter and clears serial and flag. *)
Lemma end_frame_extended_configure st :
  have_xsync_extension (xserver st) <> 0 ->
  configure_sync_serial (sync st) <> 0 ->
  configure_extended_sync (sync st) <> 0 ->
  configure_sync_serial (sync (end_frame st)) = 0
  /\ configure_extended_sync (sync (end_frame st)) = 0
  /\ exists earlier,
       calls (end_frame st) =
       earlier ++ [XSyncSetCounter (update_counter (xserver st))
                     (counter_value (configure_sync_serial (sync st)))].
Proof.
  intros Hx Hc He.
  assert (Hp : configure_pending (sync st) = true).
  { unfold configure_pending.
    apply Z.eqb_neq in Hc, He. rewrite Hc, He. reflexivity. }
  rewrite end_frame_sync, (end_frame_calls _ Hx), Hp.
  split_and!; try reflexivity.
  eexists. rewrite app_assoc. reflexivity.
Qed.

End Dispatcher.

(** ** Window-manager capabilities *)

Section Capabilities.

Lemma check_wm_supported_loop_absent (atom : Atom) (atoms : list Atom) :
  atom ∉ atoms -> check_wm_supported_loop atom atoms = None.
Proof.
  induction atoms as [|a rest IH]; intros Hnotin; simpl; [reflexivity|].
  apply not_elem_of_cons in Hnotin as [Hne Hrest].
  destruct (Z.eqb_spec a atom) as [->|_]; [contradiction|].
  apply IH, Hrest.
Qed.

Lemma check_wm_supported_loop_present (atom : Atom) (atoms : list Atom) :
  atom ∈ atoms -> check_wm_supported_loop atom atoms = Some 1.
Proof.
  induction atoms as [|a rest IH]; intros Hin; simpl.
  - apply elem_of_nil in Hin. contradiction.
  - destruct (Z.eqb_spec a atom) as [_|Hne]; [reflexivity|].
    apply elem_of_cons in Hin as [->|Hin]; [contradiction|].
    apply IH, Hin.
Qed.

(** C9.  With [have_net_supported] set and the atom absent from the
    [num_supported_atoms] entries of [supported_atoms],
    [check_wm_supported] runs off the end of its loop and of the
    function: no [return] statement is executed. *)
Theorem check_wm_supported_falls_off_end (atom : Atom) (st : state) :
  have_net_supported (xserver st) <> 0 ->
  atom ∉ take (Z.to_nat (num_supported_atoms (xserver st)))
           (supported_atoms (xserver st)) ->
  check_wm_supported atom st = None.
Proof.
  intros Hhave Habsent. unfold check_wm_supported.
  destruct (Z.eqb_spec (have_net_supported (xserver st)) 0); [contradiction|].
  apply check_wm_supported_loop_absent, Habsent.
Qed.

(** The call [app_run] makes, on the sample server: 302 is
    [_NET_WM_MOVERESIZE], which the window manager does not list. *)
Lemma check_wm_supported_falls_off_end_witness :
  have_net_supported (xserver sample_state) <> 0
  /\ (302 ∉ take (Z.to_nat (num_supported_atoms (xserver sample_state)))
              (supported_atoms (xserver sample_state)))
  /\ check_wm_supported (_NET_WM_MOVERESIZE (xserver sample_state)) sample_state
     = None.
Proof.
  assert (H1 : have_net_supported (xserver sample_state) <> 0)
    by (simpl; lia).
  assert (H2 : 302 ∉ take (Z.to_nat (num_supported_atoms (xserver sample_state)))
                       (supported_atoms (xserver sample_state))).
  { simpl. rewrite !not_elem_of_cons. split_and!; try lia. apply not_elem_of_nil. }
  exact (conj H1 (conj H2 (check_wm_supported_falls_off_end 302 sample_state H1 H2))).
Defined.

(** The two defined results. *)
Lemma check_wm_supported_defined (atom : Atom) (st : state) :
  (have_net_supported (xserver st) = 0 -> check_wm_supported atom st = Some 0)
  /\ (have_net_supported (xserver st) <> 0 ->
      atom ∈ take (Z.to_nat (num_supported_atoms (xserver st)))
               (supported_atoms (xserver st)) ->
      check_wm_supported atom st = Some 1).
Proof.
  unfold check_wm_supported. split.
  - intros ->. reflexivity.
  - intros Hhave Hin.
    destruct (Z.eqb_spec (have_net_supported (xserver st)) 0); [contradiction|].
    apply check_wm_supported_loop_present, Hin.
Qed.

End Capabilities.

(** ** The running average *)

Section Average.

(** C7.  [circular_buffer_average] on a full buffer divides by
    [array_size(buffer->samples)], a [size_t], so the [long] sum is
    converted to [unsigned long] first.  After exactly 31 insertions of -1
    the sum is right, -31, but the average is
    (2^64 - 31) / 31 = 595056260442243599 and not the mean, -1.  With 30
    such insertions the other branch divides [long] by [long] and returns
    -1. *)
Theorem circular_buffer_average_negative_sum :
  sum (add_all circular_buffer_init sample_negative) = -31
  /\ count (add_all circular_buffer_init sample_negative) = 31
  /\ circular_buffer_average (add_all circular_buffer_init sample_negative)
     = 595056260442243599
  /\ circular_buffer_average
       (add_all circular_buffer_init (replicate 30 (-1))) = -1.
Proof. vm_compute. split_and!; reflexivity. Qed.

(** On a full buffer whose sum is not negative the average is the sum of
    the 31 slots divided by 31, the quotient rounded down. *)
Lemma circular_buffer_average_full (b : circular_buffer) :
  31 <= count b <= LONG_MAX -> 0 <= sum b <= LONG_MAX ->
  circular_buffer_average b = sum b / 31.
Proof.
  intros Hc Hs. unfold circular_buffer_average, samples_size, LONG_MAX in *.
  destruct (Z.eqb_spec (count b) 0); [lia|].
  rewrite (to_ulong_small (count b)) by (unfold is_ulong; lia).
  destruct (Z.ltb_spec (count b) 31); [lia|].
  unfold long_div_size_t.
  rewrite (to_ulong_small (sum b)) by (unfold is_ulong; lia).
  apply to_long_small. unfold is_long.
  pose proof (Z.div_pos (sum b) 31 ltac:(lia) ltac:(lia)).
  pose proof (Z.div_le_upper_bound (sum b) 31 (sum b) ltac:(lia) ltac:(lia)).
  lia.
Qed.

(** After exactly 31 insertions with a sum that is not negative, the
    average is the sum of the 31 samples divided by 31, rounded down. *)
Lemma circular_buffer_average_31 (xs : list Z) :
  length xs = 31%nat -> 0 <= sumZ xs <= LONG_MAX ->
  circular_buffer_average (add_all circular_buffer_init xs) = sumZ xs / 31.
Proof.
  intros Hlen Hsum.
  assert (Hrecent : recent xs = xs)
    by (unfold recent; rewrite Hlen; reflexivity).
  assert (Hs : sum (add_all circular_buffer_init xs) = sumZ xs).
  { rewrite circular_buffer_sum_exact; rewrite Hrecent; [reflexivity|].
    unfold is_long, LONG_MAX in *. lia. }
  assert (Hc : count (add_all circular_buffer_init xs) = 31).
  { rewrite count_add_all; rewrite Hlen; [reflexivity|]. unfold LONG_MAX. lia. }
  rewrite circular_buffer_average_full; rewrite ?Hs, ?Hc; try reflexivity;
    unfold LONG_MAX in *; lia.
Qed.

(** Until the first insertion there is no average: the sentinel -1. *)
Lemma circular_buffer_average_empty (b : circular_buffer) :
  count b = 0 -> circular_buffer_average b = -1.
Proof. intros H. unfold circular_buffer_average. rewrite H. reflexivity. Qed.

End Average.

(** ** Floating-point comparison and the capped frame rate *)

Section FloatOrder.

Implicit Types (x y : spec_float).

Lemma SFcompare_antisym x y :
  SFcompare x y = option_map CompOpp (SFcompare y x).
Proof.
  destruct x as [sx|sx| |sx mx ex], y as [sy|sy| |sy my ey]; simpl;
    try reflexivity;
    try (destruct sx; destruct sy; reflexivity);
    try (destruct sx; reflexivity);
    try (destruct sy; reflexivity).
  change (Pos.compare_cont Eq mx my) with (mx ?= my)%positive.
  change (Pos.compare_cont Eq my mx) with (my ?= mx)%positive.
  rewrite (Z.compare_antisym ey ex), (Pos.compare_antisym my mx).
  destruct sx, sy; try reflexivity;
    destruct (ey ?= ex); simpl; try reflexivity;
    destruct (my ?= mx)%positive; reflexivity.
Qed.

Lemma SFcompare_refl x : F32.is_nan x = false -> SFcompare x x = Some Eq.
Proof.
  destruct x as [s|s| |s m e]; simpl; intros H; try discriminate;
    try (destruct s; reflexivity).
  change (Pos.compare_cont Eq m m) with (m ?= m)%positive.
  rewrite Z.compare_refl, Pos.compare_refl. destruct s; reflexivity.
Qed.

Lemma SFcompare_defined x y :
  F32.is_nan x = false -> F32.is_nan y = false ->
  exists c, SFcompare x y = Some c.
Proof.
  destruct x as [sx|sx| |sx mx ex], y as [sy|sy| |sy my ey]; simpl;
    intros Hx Hy; try discriminate; eexists; reflexivity.
Qed.

Lemma leb_refl x : F32.is_nan x = false -> F32.leb x x = true.
Proof.
  intros H. unfold F32.leb, SFleb. rewrite (SFcompare_refl x H). reflexivity.
Qed.

(** [a > b] gives [b <= a]. *)
Lemma gtb_leb x y : F32.gtb x y = true -> F32.leb y x = true.
Proof.
  unfold F32.gtb, F32.leb, SFltb, SFleb.
  destruct (SFcompare y x) as [[| |]|]; intros H; try discriminate; reflexivity.
Qed.

(** Without NaN the order is total: not [a > b] gives [a <= b]. *)
Lemma not_gtb_leb x y :
  F32.is_nan x = false -> F32.is_nan y = false ->
  F32.gtb x y = false -> F32.leb x y = true.
Proof.
  intros Hx Hy. unfold F32.gtb, F32.leb, SFltb, SFleb.
  rewrite (SFcompare_antisym x y).
  destruct (SFcompare_defined y x Hy Hx) as [c ->].
  destruct c; simpl; intros H; try discriminate; reflexivity.
Qed.

(** *** Rounding never produces NaN *)

Lemma iter_pos_invariant {A : Type} (P : A -> Prop) (f : A -> A) :
  (forall a, P a -> P (f a)) ->
  forall (n : positive) (a : A), P a -> P (SpecFloat.iter_pos f n a).
Proof.
  intros Hf. induction n as [n IH|n IH|]; intros a Ha; simpl; auto.
Qed.

Lemma shr_1_nonneg (mrs : shr_record) :
  0 <= shr_m mrs -> 0 <= shr_m (shr_1 mrs).
Proof.
  destruct mrs as [m r s]. simpl.
  destruct m as [|p|p]; [|destruct p|destruct p]; simpl; lia.
Qed.

Lemma shr_nonneg (mrs : shr_record) (e n : Z) :
  0 <= shr_m mrs -> 0 <= shr_m (fst (shr mrs e n)).
Proof.
  intros H. unfold shr. destruct n as [|p|p]; simpl; try exact H.
  apply (iter_pos_invariant (fun r => 0 <= shr_m r)); [apply shr_1_nonneg|exact H].
Qed.

Lemma shr_fexp_nonneg (prec emax m e : Z) (l : location) :
  0 <= m -> 0 <= shr_m (fst (shr_fexp prec emax m e l)).
Proof.
  intros H. unfold shr_fexp. apply shr_nonneg.
  destruct l as [|[| |]]; exact H.
Qed.

Lemma round_nearest_even_nonneg (m : Z) (l : location) :
  0 <= m -> 0 <= round_nearest_even m l.
Proof.
  intros H. destruct l as [|[| |]]; simpl; try lia.
  destruct (Z.even m); lia.
Qed.

Lemma binary_round_aux_not_nan (prec emax : Z) (sx : bool) (mx ex : Z)
    (lx : location) :
  0 <= mx -> F32.is_nan (binary_round_aux prec emax sx mx ex lx) = false.
Proof.
  intros H. unfold binary_round_aux.
  pose proof (shr_fexp_nonneg prec emax mx ex lx H) as H1.
  destruct (shr_fexp prec emax mx ex lx) as [mrs' e']. simpl in H1.
  pose proof (round_nearest_even_nonneg (shr_m mrs') (loc_of_shr_record mrs') H1)
    as H2.
  pose proof (shr_fexp_nonneg prec emax _ e' loc_Exact H2) as H3.
  destruct (shr_fexp prec emax _ e' loc_Exact) as [mrs'' e'']. simpl in H3.
  destruct (shr_m mrs'') as [|p|p]; [reflexivity| |lia].
  destruct (e'' <=? emax - prec); reflexivity.
Qed.

Lemma of_Z_not_nan (z : Z) : F32.is_nan (F32.of_Z z) = false.
Proof.
  unfold F32.of_Z, binary_normalize.
  destruct z as [|p|p]; [reflexivity| |]; unfold binary_round;
    destruct (shl_align _ _ _) as [mz ez];
    apply binary_round_aux_not_nan; lia.
Qed.

Lemma SFdiv_core_binary_nonneg (prec emax m1 e1 m2 e2 : Z) :
  0 <= m1 -> 0 < m2 ->
  0 <= fst (fst (SFdiv_core_binary prec emax m1 e1 m2 e2)).
Proof.
  intros H1 H2. unfold SFdiv_core_binary.
  set (s := _ - _ - Z.min _ _).
  set (m' := match s with Z0 => m1 | Zpos _ => Z.shiftl m1 s | Zneg _ => 0 end).
  assert (Hm' : 0 <= m').
  { unfold m'. destruct s; [exact H1| |lia]. apply Z.shiftl_nonneg, H1. }
  pose proof (Z.div_pos m' m2 Hm' H2) as Hq.
  unfold Z.div in Hq. destruct (Z.div_eucl m' m2) as [q r]. exact Hq.
Qed.

(** A finite number divided by a number that is not NaN is not NaN. *)
Lemma div_finite_not_nan (s : bool) (m : positive) (e : Z) y :
  F32.is_nan y = false -> F32.is_nan (F32.div (S754_finite s m e) y) = false.
Proof.
  unfold F32.div. destruct y as [sy|sy| |sy my ey]; simpl; intros Hy;
    try reflexivity; try discriminate.
  pose proof (SFdiv_core_binary_nonneg F32.prec F32.emax (Z.pos m) e (Z.pos my) ey
                ltac:(lia) ltac:(lia)) as Hq.
  destruct (SFdiv_core_binary _ _ _ _ _ _) as [[mz ez] lz]. simpl in Hq.
  apply binary_round_aux_not_nan, Hq.
Qed.

Lemma measured_frame_rate_not_nan (frame_time_avg : Z) :
  F32.is_nan (measured_frame_rate frame_time_avg) = false.
Proof.
  unfold measured_frame_rate, F32.f_1e6.
  apply div_finite_not_nan, of_Z_not_nan.
Qed.

Lemma cap_frame_rate_min (rate : F32.float) (frame_time_avg : Z) :
  F32.is_nan rate = false -> 0 < frame_time_avg ->
  is_min (cap_frame_rate rate frame_time_avg)
         rate (measured_frame_rate frame_time_avg).
Proof.
  intros Hrate Havg. unfold cap_frame_rate, is_min.
  pose proof (measured_frame_rate_not_nan frame_time_avg) as Hm.
  apply Z.ltb_lt in Havg. rewrite Havg. simpl.
  destruct (F32.gtb rate (measured_frame_rate frame_time_avg)) eqn:E.
  - split_and!; [right; reflexivity|apply gtb_leb, E|apply leb_refl, Hm].
  - split_and!; [left; reflexivity|apply leb_refl, Hrate|].
    apply not_gtb_leb; assumption.
Qed.

Lemma cap_frame_rate_no_average (rate : F32.float) (frame_time_avg : Z) :
  frame_time_avg <= 0 -> cap_frame_rate rate frame_time_avg = rate.
Proof.
  intros Havg. unfold cap_frame_rate.
  apply Z.ltb_ge in Havg. rewrite Havg. reflexivity.
Qed.

Lemma process_expose (ser cnt : Z) (st : state) :
  process_event (Expose ser cnt) st =
  submit_frame frame_urgent
    (cap_frame_rate (frame_rate (frame st))
       (circular_buffer_average (frame_time_buffer st)))
    (entered st).
Proof. reflexivity. Qed.



End FloatOrder.

(** ** More on the running-average buffer *)

Section RunningAverageMore.

Implicit Types (b : circular_buffer) (x : Z) (xs : list Z).

Lemma offset_add b x :
  cb_wf b ->
  offset (circular_buffer_add b x) = (offset b + 1) mod 31.
Proof.
  intros [Hlen Hoff]. unfold circular_buffer_add; simpl.
  unfold long_add, samples_size.
  rewrite (to_long_small (offset b + 1)) by (unfold is_long; lia).
  rewrite to_ulong_small by (unfold is_ulong; lia).
  destruct (Z.leb_spec 31 (offset b + 1)).
  - replace (offset b + 1) with 31 by lia. reflexivity.
  - rewrite Z.mod_small by lia. reflexivity.
Qed.

Lemma offset_add_all xs :
  offset (add_all circular_buffer_init xs) = Z.of_nat (length xs) mod 31.
Proof.
  induction xs as [|x xs IH] using rev_ind; [reflexivity|].
  rewrite add_all_snoc, offset_add by apply cb_wf_add_all, cb_wf_init.
  rewrite IH, length_app. simpl.
  rewrite Zplus_mod_idemp_l. f_equal. lia.
Qed.

(** X1.  After any sequence of insertions into a zero-initialised buffer
    [sum] is the sum of the most recent [min n 31] samples, provided that
    sum fits in a [long]; older samples no longer count. *)
Theorem running_sum_of_recent_samples xs :
  is_long (sumZ (recent xs)) ->
  sum (add_all circular_buffer_init xs) = sumZ (recent xs)
  /\ length (recent xs) = Nat.min (length xs) 31.
Proof.
  intros Hfit. split.
  - apply circular_buffer_sum_exact, Hfit.
  - apply length_recent.
Qed.

Lemma running_sum_of_recent_samples_witness :
  is_long (sumZ (recent sample_32))
  /\ sum (add_all circular_buffer_init sample_32) = sumZ (recent sample_32)
  /\ sumZ (recent sample_32) = 527.
Proof.
  assert (H : is_long (sumZ (recent sample_32)))
    by (vm_compute; split; discriminate).
  refine (conj H (conj (proj1 (running_sum_of_recent_samples sample_32 H)) _)).
  vm_compute. reflexivity.
Defined.

(** X2.  The write cursor cycles through the 31 slots and the sample
    count records every insertion: after [n] insertions [offset] is
    [n mod 31], [count] is [n], and the array still has 31 slots. *)
Theorem cursor_and_count_after_insertions xs :
  Z.of_nat (length xs) <= LONG_MAX ->
  offset (add_all circular_buffer_init xs) = Z.of_nat (length xs) mod 31
  /\ count (add_all circular_buffer_init xs) = Z.of_nat (length xs)
  /\ length (samples (add_all circular_buffer_init xs)) = 31%nat.
Proof.
  intros Hn. split_and!.
  - apply offset_add_all.
  - apply count_add_all, Hn.
  - apply (cb_wf_add_all circular_buffer_init xs cb_wf_init).
Qed.

Lemma cursor_and_count_after_insertions_witness :
  Z.of_nat (length sample_32) <= LONG_MAX
  /\ offset (add_all circular_buffer_init sample_32) = 1
  /\ count (add_all circular_buffer_init sample_32) = 32.
Proof.
  assert (H : Z.of_nat (length sample_32) <= LONG_MAX)
    by (vm_compute; discriminate).
  destruct (cursor_and_count_after_insertions sample_32 H) as (Ho & Hc & _).
  exact (conj H (conj Ho Hc)).
Defined.

(** X3.  While the buffer is not full ([0 < n < 31] insertions) the
    average is the sum of all samples divided by their number, as a
    [long] division: the quotient is rounded towards zero, for negative
    sums too. *)
Theorem average_of_partial_buffer xs :
  (0 < length xs < 31)%nat ->
  is_long (sumZ xs) ->
  circular_buffer_average (add_all circular_buffer_init xs)
  = Z.quot (sumZ xs) (Z.of_nat (length xs)).
Proof.
  intros Hlen Hfit.
  assert (Hrecent : recent xs = xs).
  { unfold recent. replace (length xs - 31)%nat with 0%nat by lia. apply drop_0. }
  assert (Hs : sum (add_all circular_buffer_init xs) = sumZ xs)
    by (rewrite circular_buffer_sum_exact; rewrite Hrecent; [reflexivity|exact Hfit]).
  assert (Hc : count (add_all circular_buffer_init xs) = Z.of_nat (length xs))
    by (apply count_add_all; unfold LONG_MAX; lia).
  unfold circular_buffer_average, samples_size. rewrite Hs, Hc.
  destruct (Z.eqb_spec (Z.of_nat (length xs)) 0); [lia|].
  rewrite to_ulong_small by (unfold is_ulong; lia).
  destruct (Z.ltb_spec (Z.of_nat (length xs)) 31); [|lia].
  unfold long_div. apply to_long_small.
  unfold is_long in *.
  set (k := Z.of_nat (length xs)) in *. set (total := sumZ xs) in *.
  assert (Hk : 1 <= k) by lia.
  destruct (Z_le_gt_dec 0 total) as [Hs0|Hs0].
  - pose proof (Z.quot_pos total k Hs0 ltac:(lia)).
    pose proof (Z.quot_le_upper_bound total k total ltac:(lia) ltac:(nia)). lia.
  - pose proof (Z.quot_opp_l total k ltac:(lia)) as Hopp.
    pose proof (Z.quot_pos (- total) k ltac:(lia) ltac:(lia)).
    pose proof (Z.quot_le_upper_bound (- total) k (- total) ltac:(lia) ltac:(nia)).
    lia.
Qed.

Lemma average_of_partial_buffer_witness :
  (0 < length sample_two_negative < 31)%nat
  /\ is_long (sumZ sample_two_negative)
  /\ circular_buffer_average (add_all circular_buffer_init sample_two_negative)
     = -3.
Proof.
  assert (H1 : (0 < length sample_two_negative < 31)%nat) by (simpl; lia).
  assert (H2 : is_long (sumZ sample_two_negative))
    by (vm_compute; split; discriminate).
  exact (conj H1 (conj H2 (average_of_partial_buffer sample_two_negative H1 H2))).
Defined.

End RunningAverageMore.

(** ** More on the sync serial state machine *)

Section SyncSerialMore.

Implicit Types (st : state) (d : frame_disposition).

Lemma sync_counter_appends (c : XSyncCounter) (v : Z) st :
  calls (sync_counter c v st) = calls st ++ counter_writes st c v.
Proof.
  rewrite sync_counter_calls. unfold counter_writes.
  destruct (_ =? 0); [rewrite app_nil_r|]; reflexivity.
Qed.

Lemma sync_counter_eq (c : XSyncCounter) (v : Z) st :
  sync_counter c v st =
  mk_state (sync st) (xserver st) (frame st) (frame_time_buffer st)
    (render_time_buffer st) (clock st) (ticks st)
    (calls st ++ counter_writes st c v).
Proof. rewrite sync_counter_state, sync_counter_appends. reflexivity. Qed.

(** [begin_frame], [end_frame] and [draw_frame] touch the serials, the
    frame statics and the call log only. *)
Lemma begin_frame_state d st :
  begin_frame d st =
  mk_state (begin_frame_serials d (sync st)) (xserver st) (frame st)
    (frame_time_buffer st) (render_time_buffer st) (clock st) (ticks st)
    (calls st ++ counter_writes st (extended_counter (xserver st))
                   (ulong_add (frame_base (sync st)) (disposition_step d))).
Proof.
  unfold begin_frame. rewrite sync_counter_eq.
  unfold counter_writes, begin_frame_serials, frame_base, configure_pending.
  destruct st as [s xs fr fb rb ck tk cs]. destruct s as [re ce cur rq cf inf dr tm].
  simpl.
  destruct (negb (cf =? 0) && negb (ce =? 0)); simpl.
  - destruct (Z.land cf 3 =? 0); reflexivity.
  - destruct (Z.land cur 3 =? 0); reflexivity.
Qed.

Lemma end_frame_state st :
  end_frame st =
  mk_state (end_frame_serials (sync st)) (xserver st) (frame st)
    (frame_time_buffer st) (render_time_buffer st) (clock st) (ticks st)
    (calls st
     ++ (if frame_open (current_sync_serial (sync st))
         then counter_writes st (extended_counter (xserver st))
                (end_serial (current_sync_serial (sync st)))
         else [])
     ++ (if configure_pending (sync st)
         then counter_writes st (update_counter (xserver st))
                (configure_sync_serial (sync st))
         else [])).
Proof.
  unfold end_frame, end_frame_serials, end_serial, frame_open, configure_pending,
    counter_writes.
  destruct st as [s xs fr fb rb ck tk cs]. destruct s as [re ce cur rq cf inf dr tm].
  simpl.
  destruct (Z.land cur 3 =? 1); [|destruct (Z.land cur 3 =? 3)]; simpl;
    rewrite ?sync_counter_eq; simpl;
    destruct (negb (cf =? 0) && negb (ce =? 0)); simpl;
    rewrite ?sync_counter_eq; unfold counter_writes; simpl;
    destruct (have_xsync_extension xs =? 0); simpl;
    rewrite ?app_nil_r, <- ?app_assoc; reflexivity.
Qed.

Lemma draw_frame_state st :
  draw_frame st =
  mk_state (sync st) (xserver st) (frame (draw_frame st))
    (frame_time_buffer st) (render_time_buffer st) (clock st) (ticks st)
    (calls st ++ draw_calls st).
Proof.
  unfold draw_calls, draw_frame.
  destruct st as [s xs fr fb rb ck tk cs]. simpl.
  destruct (negb _ || negb _); simpl; destruct (animation _);
    unfold emit, with_frame; simpl; rewrite <- ?app_assoc; reflexivity.
Qed.

Lemma frame_base_bounds (s : sync_state) :
  configure_pending s = false ->
  is_ulong (current_sync_serial s) ->
  current_sync_serial s + 3 < 2 ^ 64 ->
  frame_base s mod 4 = 0
  /\ current_sync_serial s <= frame_base s < current_sync_serial s + 4.
Proof.
  intros Hp Hu Hfit. split; [apply frame_base_mod_4|].
  unfold frame_base. rewrite Hp.
  destruct (Z.land (current_sync_serial s) 3 =? 0); [lia|].
  unfold is_ulong in Hu.
  rewrite ulong_add_no_wrap by lia.
  rewrite land_not_3 by (unfold is_ulong; lia).
  pose proof (Z.div_mod (current_sync_serial s + 3) 4 ltac:(lia)).
  pose proof (Z.mod_pos_bound (current_sync_serial s + 3) 4 ltac:(lia)).
  lia.
Qed.

(** X4.  [begin_frame] starts a frame from the least multiple of 4 that
    is not below the current serial: with no extended configure serial
    pending, whatever the low bits of current are (a frame that was begun
    and not ended leaves them at 01 or 11), the new current serial is
    that multiple plus 1 or 3 and the in-flight serial is that multiple
    plus 4. *)
Theorem begin_frame_rounds_up d st :
  is_ulong (current_sync_serial (sync st)) ->
  current_sync_serial (sync st) + 8 <= 2 ^ 64 ->
  configure_sync_serial (sync st) = 0
    \/ configure_extended_sync (sync st) = 0 ->
  exists b,
    b mod 4 = 0
    /\ current_sync_serial (sync st) <= b < current_sync_serial (sync st) + 4
    /\ current_sync_serial (sync (begin_frame d st)) = b + disposition_step d
    /\ inflight_sync_serial (sync (begin_frame d st)) = b + 4.
Proof.
  intros Hu Hfit Hconf.
  pose proof (configure_pending_false _ Hconf) as Hp.
  destruct (frame_base_bounds _ Hp Hu ltac:(lia)) as [Hmod Hb].
  exists (frame_base (sync st)). rewrite begin_frame_sync. simpl.
  unfold is_ulong in Hu.
  split_and!; try assumption; try lia.
  - apply ulong_add_no_wrap; destruct d; simpl; lia.
  - apply ulong_add_no_wrap; lia.
Qed.

Lemma begin_frame_rounds_up_witness :
  is_ulong (current_sync_serial (sync sample_open_state))
  /\ current_sync_serial (sync sample_open_state) + 8 <= 2 ^ 64
  /\ (configure_sync_serial (sync sample_open_state) = 0
      \/ configure_extended_sync (sync sample_open_state) = 0)
  /\ exists b,
       b mod 4 = 0
       /\ 5 <= b < 5 + 4
       /\ current_sync_serial (sync (begin_frame frame_normal sample_open_state))
          = b + 1
       /\ inflight_sync_serial (sync (begin_frame frame_normal sample_open_state))
          = b + 4.
Proof.
  assert (H1 : is_ulong (current_sync_serial (sync sample_open_state)))
    by (unfold is_ulong; simpl; lia).
  assert (H2 : current_sync_serial (sync sample_open_state) + 8 <= 2 ^ 64)
    by (simpl; lia).
  assert (H3 : configure_sync_serial (sync sample_open_state) = 0
               \/ configure_extended_sync (sync sample_open_state) = 0)
    by (left; reflexivity).
  exact (conj H1 (conj H2 (conj H3
           (begin_frame_rounds_up frame_normal sample_open_state H1 H2 H3)))).
Defined.

(** One frame cycle from an idle state, for either disposition. *)
Lemma frame_cycle_from_idle d st :
  is_ulong (current_sync_serial (sync st)) ->
  current_sync_serial (sync st) mod 4 = 0 ->
  configure_sync_serial (sync st) = 0
    \/ configure_extended_sync (sync st) = 0 ->
  have_xsync_extension (xserver st) <> 0 ->
  let c := current_sync_serial (sync st) in
  sync (begin_frame d st)
    = set_inflight_sync_serial (ulong_add c 4)
        (set_current_sync_serial (c + disposition_step d) (sync st))
  /\ sync (end_frame (begin_frame d st))
     = set_inflight_sync_serial (ulong_add c 4)
         (set_current_sync_serial (ulong_add c 4) (sync st))
  /\ calls (end_frame (begin_frame d st))
     = calls st
       ++ [XSyncSetCounter (extended_counter (xserver st))
             (counter_value (c + disposition_step d));
           XSyncSetCounter (extended_counter (xserver st))
             (counter_value (ulong_add c 4))].
Proof.
  intros Hu Hidle Hconf Hx c.
  pose proof (configure_pending_false _ Hconf) as Hp.
  assert (Hc4 : c + 4 <= 2 ^ 64).
  { unfold is_ulong in Hu. fold c in Hu, Hidle.
    change (2 ^ 64) with (4 * 2 ^ 62) in *.
    pose proof (Z.div_mod c 4 ltac:(lia)) as Hdm. lia. }
  assert (Hstep : ulong_add c (disposition_step d) = c + disposition_step d).
  { unfold is_ulong in Hu. fold c in Hu.
    apply ulong_add_no_wrap; destruct d; simpl; lia. }
  assert (Hlow : frame_open (c + disposition_step d) = true
                 /\ end_serial (c + disposition_step d) = ulong_add c 4).
  { unfold frame_open, end_serial. rewrite !land_3_mod.
    rewrite <- Zplus_mod_idemp_l. fold c in Hidle. rewrite Hidle.
    destruct d; simpl; split; try reflexivity; unfold ulong_add; f_equal; lia. }
  destruct Hlow as [Hopen Hend].
  assert (Hs1 : begin_frame_serials d (sync st)
                = set_inflight_sync_serial (ulong_add c 4)
                    (set_current_sync_serial (c + disposition_step d) (sync st))).
  { unfold begin_frame_serials. rewrite Hp, (frame_base_idle _ Hp Hidle).
    fold c. rewrite Hstep. destruct (sync st); reflexivity. }
  assert (Hp1 : configure_pending (begin_frame_serials d (sync st)) = false).
  { rewrite Hs1. unfold configure_pending in *. destruct (sync st); exact Hp. }
  rewrite end_frame_state, begin_frame_state. simpl.
  rewrite Hp1.
  assert (Hf : frame_base (sync st) = c) by apply (frame_base_idle _ Hp Hidle).
  rewrite Hf, Hstep, Hopen, Hend.
  split_and!.
  - exact Hs1.
  - unfold end_frame_serials. rewrite Hp1, Hs1. simpl.
    replace (current_sync_serial
               (set_inflight_sync_serial (ulong_add c 4)
                  (set_current_sync_serial (c + disposition_step d) (sync st))))
      with (c + disposition_step d) by (destruct (sync st); reflexivity).
    rewrite Hend. destruct (sync st); reflexivity.
  - unfold counter_writes. simpl.
    destruct (Z.eqb_spec (have_xsync_extension (xserver st)) 0); [contradiction|].
    rewrite app_nil_r, <- app_assoc. reflexivity.
Qed.

(** X5.  An urgent frame cycle from an idle state with the counters
    negotiated: [begin_frame(frame_urgent)] writes current + 3 to the
    extended counter (low bits 11) and [end_frame] writes current + 4, so
    the cycle ends on the same serial as a normal one. *)
Theorem begin_end_frame_urgent_publishes st :
  is_ulong (current_sync_serial (sync st)) ->
  current_sync_serial (sync st) mod 4 = 0 ->
  configure_sync_serial (sync st) = 0
    \/ configure_extended_sync (sync st) = 0 ->
  have_xsync_extension (xserver st) <> 0 ->
  let c := current_sync_serial (sync st) in
  current_sync_serial (sync (begin_frame frame_urgent st)) = c + 3
  /\ inflight_sync_serial (sync (begin_frame frame_urgent st)) = ulong_add c 4
  /\ sync (end_frame (begin_frame frame_urgent st))
     = sync (end_frame (begin_frame frame_normal st))
  /\ calls (end_frame (begin_frame frame_urgent st))
     = calls st
       ++ [XSyncSetCounter (extended_counter (xserver st)) (counter_value (c + 3));
           XSyncSetCounter (extended_counter (xserver st))
             (counter_value (ulong_add c 4))].
Proof.
  intros Hu Hidle Hconf Hx c.
  destruct (frame_cycle_from_idle frame_urgent st Hu Hidle Hconf Hx)
    as (Hb & He & Hc).
  destruct (frame_cycle_from_idle frame_normal st Hu Hidle Hconf Hx)
    as (_ & Hen & _).
  split_and!.
  - rewrite Hb. destruct (sync st); reflexivity.
  - rewrite Hb. destruct (sync st); reflexivity.
  - rewrite He, Hen. reflexivity.
  - exact Hc.
Qed.

Lemma begin_end_frame_urgent_publishes_witness :
  (is_ulong (current_sync_serial (sync sample_state))
   /\ current_sync_serial (sync sample_state) mod 4 = 0
   /\ (configure_sync_serial (sync sample_state) = 0
       \/ configure_extended_sync (sync sample_state) = 0)
   /\ have_xsync_extension (xserver sample_state) <> 0)
  /\ calls (end_frame (begin_frame frame_urgent sample_state))
     = calls sample_state
       ++ [XSyncSetCounter 42 (counter_value (0 + 3));
           XSyncSetCounter 42 (counter_value (ulong_add 0 4))].
Proof.
  assert (H1 : is_ulong (current_sync_serial (sync sample_state)))
    by (unfold is_ulong; simpl; lia).
  assert (H2 : current_sync_serial (sync sample_state) mod 4 = 0)
    by reflexivity.
  assert (H3 : configure_sync_serial (sync sample_state) = 0
               \/ configure_extended_sync (sync sample_state) = 0)
    by (left; reflexivity).
  assert (H4 : have_xsync_extension (xserver sample_state) <> 0)
    by (simpl; lia).
  split; [exact (conj H1 (conj H2 (conj H3 H4)))|].
  exact (proj2 (proj2 (proj2
           (begin_end_frame_urgent_publishes sample_state H1 H2 H3 H4)))).
Defined.

Lemma end_serial_not_open (c : Z) : frame_open (end_serial c) = false.
Proof.
  unfold frame_open, end_serial. rewrite !land_3_mod.
  pose proof (Z.mod_pos_bound c 4 ltac:(lia)) as Hb.
  destruct (Z.eqb_spec (c mod 4) 1) as [E1|N1].
  - rewrite ulong_add_mod_4, E1. reflexivity.
  - destruct (Z.eqb_spec (c mod 4) 3) as [E3|N3].
    + rewrite ulong_add_mod_4, E3. reflexivity.
    + destruct (Z.eqb_spec (c mod 4) 1); [contradiction|].
      destruct (Z.eqb_spec (c mod 4) 3); [contradiction|]. reflexivity.
Qed.

Lemma end_serial_closed (c : Z) : frame_open c = false -> end_serial c = c.
Proof.
  unfold frame_open, end_serial. intros H.
  apply orb_false_elim in H as [H1 H3]. rewrite H1, H3. reflexivity.
Qed.

Lemma end_frame_serials_not_pending (s : sync_state) :
  configure_pending (end_frame_serials s) = false.
Proof.
  unfold end_frame_serials.
  destruct (configure_pending s) eqn:E.
  - unfold configure_pending. destruct s; reflexivity.
  - unfold configure_pending in *. destruct s; exact E.
Qed.

Lemma end_frame_serials_current (s : sync_state) :
  current_sync_serial (end_frame_serials s) = end_serial (current_sync_serial s).
Proof.
  unfold end_frame_serials. destruct (configure_pending s); destruct s; reflexivity.
Qed.

(** X6.  [end_frame] is idempotent: a second [end_frame] with no
    [begin_frame] in between makes no call and changes nothing. *)
Theorem end_frame_idempotent st : end_frame (end_frame st) = end_frame st.
Proof.
  rewrite (end_frame_state (end_frame st)).
  assert (Hs : sync (end_frame st) = end_frame_serials (sync st))
    by (rewrite end_frame_state; reflexivity).
  assert (Hopen : frame_open (current_sync_serial (sync (end_frame st))) = false).
  { rewrite Hs, end_frame_serials_current. apply end_serial_not_open. }
  assert (Hp : configure_pending (sync (end_frame st)) = false)
    by (rewrite Hs; apply end_frame_serials_not_pending).
  rewrite Hopen, Hp, !app_nil_r.
  assert (Hfix : end_frame_serials (sync (end_frame st)) = sync (end_frame st)).
  { unfold end_frame_serials at 1. rewrite Hp, (end_serial_closed _ Hopen).
    destruct (sync (end_frame st)); reflexivity. }
  rewrite Hfix. destruct (end_frame st); reflexivity.
Qed.

End SyncSerialMore.

(** ** More on frame submission *)

Section FrameSubmissionMore.

Implicit Types (st : state) (d : frame_disposition) (rate : F32.float).

(** The rendering branch of [submit_frame], stage by stage. *)
Lemma submit_frame_rendered d rate st :
  awaiting_timings (sync st) = false ->
  submit_frame d rate st =
  frame_finished
    (end_frame
       (emit glXSwapBuffers
          (begin_frame frame_normal
             (draw_frame (emit XFlush (frame_started rate st)))))).
Proof.
  intros Hg.
  unfold submit_frame, frame_finished, frame_started, entered, time_now,
    get_time_microseconds, awaiting_timings in *.
  cbv zeta iota beta. autorewrite with state_proj. rewrite Hg.
  reflexivity.
Qed.

Ltac frame_stage :=
  unfold frame_started, frame_finished, entered; cbv zeta;
  autorewrite with state_proj; try destruct (negb _);
  autorewrite with state_proj; reflexivity.

Lemma sync_begin_frame d st :
  sync (begin_frame d st) = begin_frame_serials d (sync st).
Proof. rewrite begin_frame_state. reflexivity. Qed.
Lemma xserver_begin_frame d st :
  xserver (begin_frame d st) = xserver st.
Proof. rewrite begin_frame_state. reflexivity. Qed.
Lemma frame_begin_frame d st :
  frame (begin_frame d st) = frame st.
Proof. rewrite begin_frame_state. reflexivity. Qed.
Lemma frame_time_buffer_begin_frame d st :
  frame_time_buffer (begin_frame d st) = frame_time_buffer st.
Proof. rewrite begin_frame_state. reflexivity. Qed.
Lemma render_time_buffer_begin_frame d st :
  render_time_buffer (begin_frame d st) = render_time_buffer st.
Proof. rewrite begin_frame_state. reflexivity. Qed.
Lemma clock_begin_frame d st :
  clock (begin_frame d st) = clock st.
Proof. rewrite begin_frame_state. reflexivity. Qed.
Lemma ticks_begin_frame d st :
  ticks (begin_frame d st) = ticks st.
Proof. rewrite begin_frame_state. reflexivity. Qed.
Lemma calls_begin_frame d st :
  calls (begin_frame d st) = calls st ++ counter_writes st (extended_counter (xserver st))
               (ulong_add (frame_base (sync st)) (disposition_step d)).
Proof. rewrite begin_frame_state. reflexivity. Qed.

Lemma sync_end_frame st :
  sync (end_frame st) = end_frame_serials (sync st).
Proof. rewrite end_frame_state. reflexivity. Qed.
Lemma xserver_end_frame st :
  xserver (end_frame st) = xserver st.
Proof. rewrite end_frame_state. reflexivity. Qed.
Lemma frame_end_frame st :
  frame (end_frame st) = frame st.
Proof. rewrite end_frame_state. reflexivity. Qed.
Lemma frame_time_buffer_end_frame st :
  frame_time_buffer (end_frame st) = frame_time_buffer st.
Proof. rewrite end_frame_state. reflexivity. Qed.
Lemma render_time_buffer_end_frame st :
  render_time_buffer (end_frame st) = render_time_buffer st.
Proof. rewrite end_frame_state. reflexivity. Qed.
Lemma clock_end_frame st :
  clock (end_frame st) = clock st.
Proof. rewrite end_frame_state. reflexivity. Qed.
Lemma ticks_end_frame st :
  ticks (end_frame st) = ticks st.
Proof. rewrite end_frame_state. reflexivity. Qed.
Lemma calls_end_frame st :
  calls (end_frame st) = calls st
  ++ (if frame_open (current_sync_serial (sync st))
      then counter_writes st (extended_counter (xserver st))
             (end_serial (current_sync_serial (sync st)))
      else [])
  ++ (if configure_pending (sync st)
      then counter_writes st (update_counter (xserver st))
             (configure_sync_serial (sync st))
      else []).
Proof. rewrite end_frame_state. reflexivity. Qed.

Lemma sync_draw_frame st :
  sync (draw_frame st) = sync st.
Proof. rewrite draw_frame_state. reflexivity. Qed.
Lemma xserver_draw_frame st :
  xserver (draw_frame st) = xserver st.
Proof. rewrite draw_frame_state. reflexivity. Qed.
Lemma frame_time_buffer_draw_frame st :
  frame_time_buffer (draw_frame st) = frame_time_buffer st.
Proof. rewrite draw_frame_state. reflexivity. Qed.
Lemma render_time_buffer_draw_frame st :
  render_time_buffer (draw_frame st) = render_time_buffer st.
Proof. rewrite draw_frame_state. reflexivity. Qed.
Lemma clock_draw_frame st :
  clock (draw_frame st) = clock st.
Proof. rewrite draw_frame_state. reflexivity. Qed.
Lemma ticks_draw_frame st :
  ticks (draw_frame st) = ticks st.
Proof. rewrite draw_frame_state. reflexivity. Qed.
Lemma calls_draw_frame st :
  calls (draw_frame st) = calls st ++ draw_calls st.
Proof. rewrite draw_frame_state. reflexivity. Qed.

Lemma sync_frame_started rate st :
  sync (frame_started rate st) = sync st.
Proof. frame_stage. Qed.
Lemma xserver_frame_started rate st :
  xserver (frame_started rate st) = xserver st.
Proof. frame_stage. Qed.
Lemma render_time_buffer_frame_started rate st :
  render_time_buffer (frame_started rate st) = render_time_buffer st.
Proof. frame_stage. Qed.
Lemma clock_frame_started rate st :
  clock (frame_started rate st) = clock st.
Proof. frame_stage. Qed.
Lemma ticks_frame_started rate st :
  ticks (frame_started rate st) = S (ticks st).
Proof. frame_stage. Qed.
Lemma calls_frame_started rate st :
  calls (frame_started rate st) = calls st.
Proof. frame_stage. Qed.

Lemma sync_frame_finished st :
  sync (frame_finished st) = sync st.
Proof. frame_stage. Qed.
Lemma xserver_frame_finished st :
  xserver (frame_finished st) = xserver st.
Proof. frame_stage. Qed.
Lemma frame_time_buffer_frame_finished st :
  frame_time_buffer (frame_finished st) = frame_time_buffer st.
Proof. frame_stage. Qed.
Lemma clock_frame_finished st :
  clock (frame_finished st) = clock st.
Proof. frame_stage. Qed.
Lemma ticks_frame_finished st :
  ticks (frame_finished st) = S (ticks st).
Proof. frame_stage. Qed.
Lemma calls_frame_finished st :
  calls (frame_finished st) = calls st.
Proof. frame_stage. Qed.

End FrameSubmissionMore.

Create Rewrite HintDb frame_proj.

#[global] Hint Rewrite
  sync_begin_frame xserver_begin_frame frame_begin_frame
  frame_time_buffer_begin_frame render_time_buffer_begin_frame clock_begin_frame
  ticks_begin_frame calls_begin_frame sync_end_frame
  xserver_end_frame frame_end_frame frame_time_buffer_end_frame
  render_time_buffer_end_frame clock_end_frame ticks_end_frame
  calls_end_frame sync_draw_frame xserver_draw_frame
  frame_time_buffer_draw_frame render_time_buffer_draw_frame clock_draw_frame
  ticks_draw_frame calls_draw_frame sync_frame_started
  xserver_frame_started render_time_buffer_frame_started clock_frame_started
  ticks_frame_started calls_frame_started sync_frame_finished
  xserver_frame_finished frame_time_buffer_frame_finished clock_frame_finished
  ticks_frame_finished calls_frame_finished
  : frame_proj.

Section RenderedFrame.

Implicit Types (st : state) (d : frame_disposition) (rate : F32.float).

Lemma frame_started_fields rate st :
  frame_number (frame (frame_started rate st))
    = ulong_add (frame_number (frame st)) 1
  /\ last_draw_time (frame (frame_started rate st)) = time_now st
  /\ next_draw_time (frame (frame_started rate st))
     = long_add (time_now st) (F32.to_long_trunc (F32.div F32.f_1e6 rate))
  /\ delta_time (frame (frame_started rate st))
     = (if last_draw_time (frame st) =? 0 then delta_time (frame st)
        else long_sub (time_now st) (last_draw_time (frame st)))
  /\ frame_time_buffer (frame_started rate st)
     = (if last_draw_time (frame st) =? 0 then frame_time_buffer st
        else circular_buffer_add (frame_time_buffer st)
               (long_sub (time_now st) (last_draw_time (frame st)))).
Proof.
  unfold frame_started, entered, time_now.
  destruct st as [s xs fr fb rb ck tk cs].
  destruct fr as [t0 an r0 fn ldt ndt ct dt rt w h cw ch]. simpl.
  destruct (ldt =? 0); simpl; split_and!; reflexivity.
Qed.

Lemma draw_frame_fields st :
  frame_number (frame (draw_frame st)) = frame_number (frame st)
  /\ last_draw_time (frame (draw_frame st)) = last_draw_time (frame st)
  /\ next_draw_time (frame (draw_frame st)) = next_draw_time (frame st)
  /\ current_width (frame (draw_frame st)) = width (frame st)
  /\ current_height (frame (draw_frame st)) = height (frame st)
  /\ width (frame (draw_frame st)) = width (frame st)
  /\ height (frame (draw_frame st)) = height (frame st).
Proof.
  unfold draw_frame.
  destruct st as [s xs fr fb rb ck tk cs].
  destruct fr as [t0 an r0 fn ldt ndt ct dt rt w h cw ch]. simpl.
  destruct (Z.eqb_spec cw w) as [->|Hw];
    destruct (Z.eqb_spec ch h) as [->|Hh]; simpl;
    destruct an; simpl; split_and!; reflexivity.
Qed.

Lemma frame_finished_fields st :
  frame_number (frame (frame_finished st)) = frame_number (frame st)
  /\ last_draw_time (frame (frame_finished st)) = last_draw_time (frame st)
  /\ next_draw_time (frame (frame_finished st)) = next_draw_time (frame st)
  /\ current_time (frame (frame_finished st)) = time_now st
  /\ render_time (frame (frame_finished st))
     = long_sub (time_now st) (last_draw_time (frame st))
  /\ render_time_buffer (frame_finished st)
     = circular_buffer_add (render_time_buffer st)
         (long_sub (time_now st) (last_draw_time (frame st))).
Proof.
  unfold frame_finished, entered, time_now.
  destruct st as [s xs fr fb rb ck tk cs]. destruct fr. simpl.
  split_and!; reflexivity.
Qed.

Lemma frame_draw_frame_emit (c : call) st :
  frame (draw_frame (emit c st)) = frame (draw_frame st).
Proof.
  unfold draw_frame, emit. destruct st as [s xs fr fb rb ck tk cs]. simpl.
  destruct (negb _ || negb _); simpl; destruct (animation _); reflexivity.
Qed.

Lemma draw_calls_emit (c : call) st : draw_calls (emit c st) = draw_calls st.
Proof.
  unfold draw_calls. rewrite frame_draw_frame_emit.
  autorewrite with state_proj. reflexivity.
Qed.

Lemma closing_serial (b : Z) :
  end_serial (ulong_add b 1) = ulong_add b 4 \/ b mod 4 <> 0.
Proof.
  destruct (Z.eq_dec (b mod 4) 0) as [H0|]; [left|right; assumption].
  unfold end_serial. rewrite land_3_mod, ulong_add_mod_4, H0. simpl.
  unfold ulong_add, to_ulong.
  rewrite Zplus_mod_idemp_l. f_equal. lia.
Qed.

(** The serials after a whole frame cycle of a normal frame. *)
Lemma normal_cycle_serials (s : sync_state) :
  let s' := end_frame_serials (begin_frame_serials frame_normal s) in
  current_sync_serial s' = ulong_add (frame_base s) 4
  /\ inflight_sync_serial s' = ulong_add (frame_base s) 4
  /\ configure_sync_serial s'
     = (if configure_pending s then 0 else configure_sync_serial s)
  /\ drawn_sync_serial s' = drawn_sync_serial s
  /\ timing_sync_serial s' = timing_sync_serial s
  /\ request_sync_serial s' = request_sync_serial s.
Proof.
  intros s'. unfold s'.
  assert (Hp : configure_pending (begin_frame_serials frame_normal s) = false).
  { unfold begin_frame_serials, configure_pending. simpl.
    destruct (negb (configure_sync_serial s =? 0)
              && negb (configure_extended_sync s =? 0)) eqn:E; [reflexivity|exact E]. }
  unfold end_frame_serials. rewrite Hp. simpl.
  destruct (closing_serial (frame_base s)) as [->|Hne];
    [|pose proof (frame_base_mod_4 s); contradiction].
  split_and!; reflexivity.
Qed.

(** X7.  A frame that is not delayed.  [submit_frame] calls, in this
    order, [XFlush], the renderer (a reshape first if the window size
    changed), the counter write that opens the frame, [glXSwapBuffers]
    and the counter write that closes it; both writes go to the extended
    counter, with the frame's base serial plus 1 and plus 4, whatever
    disposition was passed.  Afterwards current and in-flight serial are
    equal and a multiple of 4. *)
Theorem rendered_frame_call_sequence d rate st :
  awaiting_timings (sync st) = false ->
  let st' := submit_frame d rate st in
  let b := frame_base (sync st) in
  calls st'
    = calls st ++ [XFlush] ++ draw_calls (frame_started rate st)
      ++ counter_writes st (extended_counter (xserver st)) (ulong_add b 1)
      ++ [glXSwapBuffers]
      ++ counter_writes st (extended_counter (xserver st)) (ulong_add b 4)
  /\ current_sync_serial (sync st') = ulong_add b 4
  /\ inflight_sync_serial (sync st') = current_sync_serial (sync st')
  /\ current_sync_serial (sync st') mod 4 = 0
  /\ xserver st' = xserver st.
Proof.
  intros Hg st' b. unfold st'.
  rewrite (submit_frame_rendered d rate st Hg).
  destruct (normal_cycle_serials (sync st)) as (Hc & Hi & _).
  assert (Hp : configure_pending (begin_frame_serials frame_normal (sync st)) = false).
  { unfold begin_frame_serials, configure_pending. simpl.
    destruct (negb (configure_sync_serial (sync st) =? 0)
              && negb (configure_extended_sync (sync st) =? 0)) eqn:E;
      [reflexivity|exact E]. }
  assert (Hopen : frame_open (ulong_add b 1) = true).
  { unfold frame_open. rewrite land_3_mod, ulong_add_mod_4.
    unfold b. rewrite frame_base_mod_4. reflexivity. }
  assert (Hend : end_serial (ulong_add b 1) = ulong_add b 4).
  { destruct (closing_serial b) as [H|H]; [exact H|].
    unfold b in H. pose proof (frame_base_mod_4 (sync st)). contradiction. }
  split_and!.
  - autorewrite with frame_proj state_proj.
    autorewrite with frame_proj state_proj.
    simpl disposition_step. fold b.
    change (current_sync_serial (begin_frame_serials frame_normal (sync st)))
      with (ulong_add b 1).
    rewrite Hopen, Hp, Hend, app_nil_r.
    unfold counter_writes. autorewrite with frame_proj state_proj.
    rewrite <- !app_assoc, draw_calls_emit. reflexivity.
  - autorewrite with frame_proj state_proj. autorewrite with frame_proj state_proj.
    exact Hc.
  - autorewrite with frame_proj state_proj. autorewrite with frame_proj state_proj.
    rewrite Hi, Hc. reflexivity.
  - autorewrite with frame_proj state_proj. autorewrite with frame_proj state_proj.
    rewrite Hc, ulong_add_mod_4. unfold b. rewrite frame_base_mod_4. reflexivity.
  - autorewrite with frame_proj state_proj. autorewrite with frame_proj state_proj.
    reflexivity.
Qed.

Lemma rendered_frame_call_sequence_witness :
  awaiting_timings (sync sample_state) = false
  /\ calls (submit_frame frame_urgent F32.f_29_97 sample_state)
     = calls sample_state ++ [XFlush]
       ++ draw_calls (frame_started F32.f_29_97 sample_state)
       ++ counter_writes sample_state
            (extended_counter (xserver sample_state))
            (ulong_add (frame_base (sync sample_state)) 1)
       ++ [glXSwapBuffers]
       ++ counter_writes sample_state
            (extended_counter (xserver sample_state))
            (ulong_add (frame_base (sync sample_state)) 4).
Proof.
  assert (H : awaiting_timings (sync sample_state) = false) by reflexivity.
  exact (conj H (proj1 (rendered_frame_call_sequence frame_urgent F32.f_29_97
                          sample_state H))).
Defined.

(** X8.  The bookkeeping of a frame that is not delayed: the frame
    counter goes up by one, [last_draw_time] is the clock reading taken
    on entry, [next_draw_time] is that reading plus [1e6f / rate]
    truncated to a [long], the render time is the second clock reading
    minus the first and is added to the render-time buffer, and the frame
    interval is added to the frame-time buffer except on the very first
    frame ([last_draw_time] still 0). *)
Theorem rendered_frame_bookkeeping d rate st :
  awaiting_timings (sync st) = false ->
  let st' := submit_frame d rate st in
  frame_number (frame st') = ulong_add (frame_number (frame st)) 1
  /\ last_draw_time (frame st') = time_now st
  /\ next_draw_time (frame st')
     = long_add (time_now st) (F32.to_long_trunc (F32.div F32.f_1e6 rate))
  /\ current_time (frame st') = time_after st
  /\ render_time (frame st') = long_sub (time_after st) (time_now st)
  /\ render_time_buffer st'
     = circular_buffer_add (render_time_buffer st)
         (long_sub (time_after st) (time_now st))
  /\ frame_time_buffer st'
     = (if last_draw_time (frame st) =? 0 then frame_time_buffer st
        else circular_buffer_add (frame_time_buffer st)
               (long_sub (time_now st) (last_draw_time (frame st))))
  /\ ticks st' = S (S (ticks st)).
Proof.
  intros Hg st'. unfold st'.
  rewrite (submit_frame_rendered d rate st Hg).
  set (drawn := draw_frame (emit XFlush (frame_started rate st))).
  set (ended := end_frame (emit glXSwapBuffers (begin_frame frame_normal drawn))).
  assert (Hframe : frame ended = frame drawn)
    by (unfold ended; autorewrite with frame_proj state_proj; reflexivity).
  assert (Hticks : ticks ended = S (ticks st))
    by (unfold ended, drawn; autorewrite with frame_proj state_proj; reflexivity).
  assert (Hclock : clock ended = clock st)
    by (unfold ended, drawn; autorewrite with frame_proj state_proj; reflexivity).
  assert (Hrb : render_time_buffer ended = render_time_buffer st)
    by (unfold ended, drawn; autorewrite with frame_proj state_proj; reflexivity).
  assert (Hfb : frame_time_buffer ended = frame_time_buffer (frame_started rate st))
    by (unfold ended, drawn; autorewrite with frame_proj state_proj; reflexivity).
  assert (Hnow : time_now ended = time_after st)
    by (unfold time_now, time_after; rewrite Hclock, Hticks; reflexivity).
  destruct (frame_finished_fields ended) as (F1 & F2 & F3 & F4 & F5 & F6).
  destruct (draw_frame_fields (emit XFlush (frame_started rate st)))
    as (D1 & D2 & D3 & _).
  fold drawn in D1, D2, D3.
  destruct (frame_started_fields rate st) as (S1 & S2 & S3 & _ & S5).
  rewrite Hframe in F1, F2, F3, F5, F6. rewrite Hnow in F4, F5, F6.
  rewrite frame_emit in D1, D2, D3.
  split_and!.
  - rewrite F1, D1, S1. reflexivity.
  - rewrite F2, D2, S2. reflexivity.
  - rewrite F3, D3, S3. reflexivity.
  - exact F4.
  - rewrite F5, D2, S2. reflexivity.
  - rewrite F6, D2, S2, Hrb. reflexivity.
  - autorewrite with frame_proj. rewrite Hfb, S5. reflexivity.
  - autorewrite with frame_proj. rewrite Hticks. reflexivity.
Qed.

Lemma rendered_frame_bookkeeping_witness :
  awaiting_timings (sync sample_state) = false
  /\ frame_number (frame (submit_frame frame_normal F32.f_29_97 sample_state))
     = ulong_add (frame_number (frame sample_state)) 1
  /\ next_draw_time (frame (submit_frame frame_normal F32.f_29_97 sample_state))
     = long_add (time_now sample_state)
         (F32.to_long_trunc (F32.div F32.f_1e6 F32.f_29_97))
  /\ F32.to_long_trunc (F32.div F32.f_1e6 F32.f_29_97) = 33366.
Proof.
  assert (H : awaiting_timings (sync sample_state) = false) by reflexivity.
  destruct (rendered_frame_bookkeeping frame_normal F32.f_29_97 sample_state H)
    as (Ha & _ & Hb & _).
  refine (conj H (conj Ha (conj Hb _))). vm_compute. reflexivity.
Defined.

End RenderedFrame.

(** ** Backpressure, reshape and what the log never holds *)

Section Pacing.

Implicit Types (st : state) (d : frame_disposition) (rate : F32.float).

Lemma delayed_frames d rate st (n : nat) :
  awaiting_timings (sync st) = true ->
  sync (Nat.iter n (submit_frame d rate) st) = sync st
  /\ xserver (Nat.iter n (submit_frame d rate) st) = xserver st
  /\ calls (Nat.iter n (submit_frame d rate) st)
     = calls st ++ replicate n (XSync false)
  /\ frame_number (frame (Nat.iter n (submit_frame d rate) st))
     = frame_number (frame st)
  /\ frame_time_buffer (Nat.iter n (submit_frame d rate) st)
     = frame_time_buffer st
  /\ render_time_buffer (Nat.iter n (submit_frame d rate) st)
     = render_time_buffer st.
Proof.
  intros Hg. induction n as [|n IH].
  - simpl. rewrite app_nil_r. split_and!; reflexivity.
  - destruct IH as (Hs & Hx & Hc & Hf & Hfb & Hrb).
    change (Nat.iter (S n) (submit_frame d rate) st)
      with (submit_frame d rate (Nat.iter n (submit_frame d rate) st)).
    rewrite submit_frame_delayed by (rewrite Hs; exact Hg).
    autorewrite with state_proj.
    split_and!; try assumption.
    rewrite Hc, <- app_assoc. f_equal.
    change (XSync false :: replicate n (XSync false))
      with (replicate (S n) (XSync false)).
    symmetry. apply (replicate_S_end n (XSync false)).
Qed.

(** X9.  Backpressure holds until the compositor reports timings.  Once
    [submit_frame] is delayed, every further [submit_frame] is delayed
    too: each only calls [XSync], the serials, the frame counter and the
    buffers stay as they were.  A [_NET_WM_FRAME_TIMINGS] message whose
    serial has reached the in-flight serial ends the delay. *)
Theorem backpressure_until_timings d rate st (n : nat)
    (ser : Z) (win : XID) (l : client_data) :
  awaiting_timings (sync st) = true ->
  atoms_distinct (xserver st) ->
  inflight_sync_serial (sync st) <= message_sync_serial l ->
  let st_n := Nat.iter n (submit_frame d rate) st in
  awaiting_timings (sync st_n) = true
  /\ calls st_n = calls st ++ replicate n (XSync false)
  /\ frame_number (frame st_n) = frame_number (frame st)
  /\ frame_time_buffer st_n = frame_time_buffer st
  /\ render_time_buffer st_n = render_time_buffer st
  /\ awaiting_timings
       (sync (process_event
                (ClientMessage ser win (_NET_WM_FRAME_TIMINGS (xserver st)) l)
                st_n)) = false.
Proof.
  intros Hg Hatoms Hs st_n.
  destruct (delayed_frames d rate st n Hg) as (Hsync & Hx & Hc & Hf & Hfb & Hrb).
  fold st_n in Hsync, Hx, Hc, Hf, Hfb, Hrb.
  split_and!; try assumption.
  - rewrite Hsync. exact Hg.
  - destruct (atoms_distinct_frame_messages _ Hatoms) as (_ & Ht & Htd).
    rewrite <- Hx in Ht, Htd |- *.
    rewrite (process_frame_timings st_n ser win l Ht Htd).
    unfold awaiting_timings in Hg. apply andb_prop in Hg as [H0 H1].
    apply Z.ltb_lt in H0, H1.
    rewrite Hsync.
    destruct (Z.ltb_spec (timing_sync_serial (sync st)) (message_sync_serial l));
      [|lia].
    autorewrite with state_proj. rewrite sync_entered, Hsync.
    unfold awaiting_timings.
    replace (timing_sync_serial (set_timing_sync_serial (message_sync_serial l) (sync st)))
      with (message_sync_serial l) by (destruct (sync st); reflexivity).
    replace (inflight_sync_serial (set_timing_sync_serial (message_sync_serial l) (sync st)))
      with (inflight_sync_serial (sync st)) by (destruct (sync st); reflexivity).
    apply andb_false_intro2. apply Z.ltb_ge. exact Hs.
Qed.

Lemma backpressure_until_timings_witness :
  awaiting_timings (sync sample_delayed_state) = true
  /\ atoms_distinct (xserver sample_delayed_state)
  /\ inflight_sync_serial (sync sample_delayed_state)
     <= message_sync_serial sample_serial_8
  /\ calls (Nat.iter 3 (submit_frame frame_normal F32.f_29_97) sample_delayed_state)
     = calls sample_delayed_state ++ replicate 3 (XSync false)
  /\ awaiting_timings
       (sync (process_event
                (ClientMessage 5 9
                   (_NET_WM_FRAME_TIMINGS (xserver sample_delayed_state))
                   sample_serial_8)
                (Nat.iter 3 (submit_frame frame_normal F32.f_29_97)
                   sample_delayed_state))) = false.
Proof.
  assert (H1 : awaiting_timings (sync sample_delayed_state) = true)
    by reflexivity.
  assert (H2 : atoms_distinct (xserver sample_delayed_state)).
  { unfold atoms_distinct. simpl.
    apply (bool_decide_unpack _). vm_compute. exact I. }
  assert (H3 : inflight_sync_serial (sync sample_delayed_state)
               <= message_sync_serial sample_serial_8)
    by (vm_compute; discriminate).
  destruct (backpressure_until_timings frame_normal F32.f_29_97
              sample_delayed_state 3 5 9 sample_serial_8 H1 H2 H3)
    as (_ & Ha & _ & _ & _ & Hb).
  exact (conj H1 (conj H2 (conj H3 (conj Ha Hb)))).
Defined.

(** X10.  The projection is reconfigured exactly when the window size
    differs from the size last drawn at: [draw_frame] then calls the
    reshape before drawing and remembers the size, so that a second
    [draw_frame] draws without a reshape. *)
Theorem draw_frame_reshapes_on_size_change st :
  let st1 := draw_frame st in
  let resized :=
    negb (current_width (frame st) =? width (frame st))
    || negb (current_height (frame st) =? height (frame st)) in
  calls st1
    = calls st
      ++ (if resized
          then [call_reshape (width (frame st)) (height (frame st))] else [])
      ++ [call_draw (t (frame st1))]
  /\ current_width (frame st1) = width (frame st)
  /\ current_height (frame st1) = height (frame st)
  /\ calls (draw_frame st1) = calls st1 ++ [call_draw (t (frame (draw_frame st1)))].
Proof.
  intros st1 resized.
  destruct (draw_frame_fields st) as (_ & _ & _ & Hcw & Hch & Hw & Hh).
  fold st1 in Hcw, Hch, Hw, Hh.
  split_and!; try assumption.
  - unfold st1. rewrite calls_draw_frame. reflexivity.
  - rewrite calls_draw_frame. unfold draw_calls.
    rewrite Hcw, Hch, Hw, Hh, !Z.eqb_refl. reflexivity.
Qed.

End Pacing.

(** ** What runs add to the log *)

Section Log.

Implicit Types (st : state) (d : frame_disposition) (rate : F32.float)
  (P : call -> Prop).

Lemma adds_only_refl P st : adds_only P st st.
Proof.
  split; [reflexivity|]. exists []. rewrite app_nil_r. split; constructor.
Qed.

Lemma adds_only_trans P st1 st2 st3 :
  adds_only P st1 st2 -> adds_only P st2 st3 -> adds_only P st1 st3.
Proof.
  intros (Hx1 & n1 & Hc1 & Hf1) (Hx2 & n2 & Hc2 & Hf2).
  split; [congruence|]. exists (n1 ++ n2).
  rewrite Hc2, Hc1, app_assoc. split; [reflexivity|].
  apply Forall_app; split; assumption.
Qed.

Lemma adds_only_same P st st' :
  xserver st' = xserver st -> calls st' = calls st -> adds_only P st st'.
Proof.
  intros Hx Hc. split; [exact Hx|]. exists []. rewrite app_nil_r.
  split; [exact Hc|constructor].
Qed.

Lemma adds_only_emit P (c : call) st : P c -> adds_only P st (emit c st).
Proof.
  intros Hc. split; [reflexivity|]. exists [c].
  split; [reflexivity|]. repeat constructor. exact Hc.
Qed.

Lemma adds_only_counter_writes P (c : XSyncCounter) (v : Z) st st' :
  (have_xsync_extension (xserver st) <> 0 ->
   P (XSyncSetCounter c (counter_value v))) ->
  xserver st' = xserver st ->
  calls st' = calls st ++ counter_writes st c v ->
  adds_only P st st'.
Proof.
  intros HP Hx Hc. split; [exact Hx|]. eexists. split; [exact Hc|].
  unfold counter_writes.
  destruct (Z.eqb_spec (have_xsync_extension (xserver st)) 0);
    repeat constructor. apply HP. assumption.
Qed.

Lemma adds_only_sync_counter P (c : XSyncCounter) (v : Z) st :
  (have_xsync_extension (xserver st) <> 0 ->
   P (XSyncSetCounter c (counter_value v))) ->
  adds_only P st (sync_counter c v st).
Proof.
  intros HP. apply (adds_only_counter_writes P c v); [exact HP| |].
  - apply sync_counter_xserver.
  - rewrite sync_counter_eq. reflexivity.
Qed.

Lemma adds_only_begin_frame P d st :
  (forall v, have_xsync_extension (xserver st) <> 0 ->
     P (XSyncSetCounter (extended_counter (xserver st)) v)) ->
  adds_only P st (begin_frame d st).
Proof.
  intros HP.
  apply (adds_only_counter_writes P (extended_counter (xserver st))
           (ulong_add (frame_base (sync st)) (disposition_step d))).
  - apply HP.
  - apply xserver_begin_frame.
  - apply calls_begin_frame.
Qed.

Lemma adds_only_draw_frame P st :
  (forall w h, P (call_reshape w h)) -> (forall t, P (call_draw t)) ->
  adds_only P st (draw_frame st).
Proof.
  intros Hr Hd. split; [apply xserver_draw_frame|].
  exists (draw_calls st). split; [apply calls_draw_frame|].
  unfold draw_calls. destruct (negb _ || negb _); repeat constructor; auto.
Qed.

(** The calls of the rendering branch of [submit_frame]. *)
Lemma submit_frame_rendered_calls d rate st :
  awaiting_timings (sync st) = false ->
  calls (submit_frame d rate st)
    = calls st ++ [XFlush] ++ draw_calls (frame_started rate st)
      ++ counter_writes st (extended_counter (xserver st))
           (ulong_add (frame_base (sync st)) 1)
      ++ [glXSwapBuffers]
      ++ counter_writes st (extended_counter (xserver st))
           (ulong_add (frame_base (sync st)) 4)
  /\ xserver (submit_frame d rate st) = xserver st.
Proof.
  intros Hg. set (b := frame_base (sync st)).
  rewrite (submit_frame_rendered d rate st Hg).
  assert (Hp : configure_pending (begin_frame_serials frame_normal (sync st)) = false).
  { unfold begin_frame_serials, configure_pending. simpl.
    destruct (negb (configure_sync_serial (sync st) =? 0)
              && negb (configure_extended_sync (sync st) =? 0)) eqn:E;
      [reflexivity|exact E]. }
  assert (Hopen : frame_open (ulong_add b 1) = true).
  { unfold frame_open. rewrite land_3_mod, ulong_add_mod_4.
    unfold b. rewrite frame_base_mod_4. reflexivity. }
  assert (Hend : end_serial (ulong_add b 1) = ulong_add b 4).
  { destruct (closing_serial b) as [H|H]; [exact H|].
    unfold b in H. pose proof (frame_base_mod_4 (sync st)). contradiction. }
  split.
  - autorewrite with frame_proj state_proj.
    autorewrite with frame_proj state_proj.
    simpl disposition_step. fold b.
    change (current_sync_serial (begin_frame_serials frame_normal (sync st)))
      with (ulong_add b 1).
    rewrite Hopen, Hp, Hend, app_nil_r.
    unfold counter_writes. autorewrite with frame_proj state_proj.
    rewrite <- !app_assoc, draw_calls_emit. reflexivity.
  - autorewrite with frame_proj state_proj. autorewrite with frame_proj state_proj.
    reflexivity.
Qed.

Lemma Forall_counter_writes P (c : XSyncCounter) (v : Z) st :
  (have_xsync_extension (xserver st) <> 0 ->
   P (XSyncSetCounter c (counter_value v))) ->
  Forall P (counter_writes st c v).
Proof.
  intros HP. unfold counter_writes.
  destruct (Z.eqb_spec (have_xsync_extension (xserver st)) 0);
    repeat constructor. apply HP. assumption.
Qed.

Lemma adds_only_submit_frame P d rate st :
  P XFlush -> P (XSync false) -> P glXSwapBuffers ->
  (forall w h, P (call_reshape w h)) -> (forall t, P (call_draw t)) ->
  (forall v, have_xsync_extension (xserver st) <> 0 ->
     P (XSyncSetCounter (extended_counter (xserver st)) v)) ->
  adds_only P st (submit_frame d rate st).
Proof.
  intros Hf Hs Hw Hr Hd Hc.
  destruct (awaiting_timings (sync st)) eqn:Hg.
  - rewrite (submit_frame_delayed d rate st Hg).
    split; [autorewrite with state_proj; reflexivity|].
    exists [XSync false]. autorewrite with state_proj.
    split; [reflexivity|]. repeat constructor. exact Hs.
  - destruct (submit_frame_rendered_calls d rate st Hg) as [Hcalls Hx].
    split; [exact Hx|]. eexists. split; [exact Hcalls|].
    rewrite !Forall_app. split_and!.
    + repeat constructor. exact Hf.
    + unfold draw_calls. destruct (negb _ || negb _); repeat constructor; auto.
    + apply Forall_counter_writes. apply Hc.
    + repeat constructor. exact Hw.
    + apply Forall_counter_writes. apply Hc.
Qed.

Lemma adds_only_entered P st st' :
  adds_only P (entered st) st' -> adds_only P st st'.
Proof. intros H. exact H. Qed.

Lemma adds_only_process_event P (e : XEvent) st :
  P XFlush -> P (XSync false) -> P glXSwapBuffers ->
  (forall w h, P (call_reshape w h)) -> (forall t, P (call_draw t)) ->
  (forall w ev, P (XSendEvent w ev)) ->
  (forall v, have_xsync_extension (xserver st) <> 0 ->
     P (XSyncSetCounter (extended_counter (xserver st)) v)) ->
  adds_only P st (process_event e st).
Proof.
  intros Hf Hs Hw Hr Hd He Hc.
  destruct e as [ser cnt|ser w h|ser win mt l|a|ty].
  - rewrite process_expose. apply adds_only_entered.
    apply adds_only_submit_frame; assumption.
  - rewrite process_configure_notify.
    apply adds_only_entered.
    eapply adds_only_trans; [|apply adds_only_sync_counter; apply Hc].
    apply adds_only_same; reflexivity.
  - unfold process_event, get_time_microseconds.
    cbv zeta iota beta. autorewrite with state_proj.
    destruct (_ && _).
    { eapply adds_only_trans; [|apply adds_only_emit; apply He].
      apply adds_only_same; reflexivity. }
    destruct (_ && _); [apply adds_only_same; reflexivity|].
    destruct (mt =? _NET_WM_FRAME_DRAWN (xserver st)).
    { destruct (drawn_sync_serial _ <? _); apply adds_only_same; reflexivity. }
    destruct (mt =? _NET_WM_FRAME_TIMINGS (xserver st)).
    { destruct (timing_sync_serial _ <? _); apply adds_only_same; reflexivity. }
    apply adds_only_same; reflexivity.
  - apply adds_only_same; reflexivity.
  - apply adds_only_same; reflexivity.
Qed.

Lemma adds_only_end_frame P st :
  (forall c v, have_xsync_extension (xserver st) <> 0 ->
     P (XSyncSetCounter c v)) ->
  adds_only P st (end_frame st).
Proof.
  intros HP. split; [apply xserver_end_frame|].
  eexists. split; [apply calls_end_frame|].
  rewrite !Forall_app. split.
  - destruct (frame_open _); [|constructor].
    apply Forall_counter_writes. apply HP.
  - destruct (configure_pending _); [|constructor].
    apply Forall_counter_writes. apply HP.
Qed.

Lemma adds_only_run P (ok : action -> bool) (acts : list action) st :
  (forall a st', xserver st' = xserver st -> ok a = true ->
     adds_only P st' (step a st')) ->
  forallb ok acts = true ->
  adds_only P st (run acts st).
Proof.
  intros Hstep. induction acts as [|a acts IH] using rev_ind; intros Hok.
  - apply adds_only_refl.
  - rewrite forallb_app in Hok. apply andb_prop in Hok as [Hok Ha].
    simpl in Ha. rewrite andb_true_r in Ha.
    rewrite run_snoc. specialize (IH Hok).
    eapply adds_only_trans; [exact IH|].
    apply Hstep; [apply IH|exact Ha].
Qed.

(** X11.  Without the XSync extension no counter is ever written:
    whatever sequence of [begin_frame], [end_frame], [submit_frame] and
    [process_event] calls is run, none of the calls it adds to the log is
    an [XSyncSetCounter]. *)
Theorem no_counter_write_without_xsync st (acts : list action) :
  have_xsync_extension (xserver st) = 0 ->
  exists new,
    calls (run acts st) = calls st ++ new
    /\ Forall (fun c => is_counter_write c = false) new.
Proof.
  intros H0.
  set (P := fun c => is_counter_write c = false).
  assert (HP : forall st' c v, xserver st' = xserver st ->
            have_xsync_extension (xserver st') <> 0 -> P (XSyncSetCounter c v)).
  { intros st' c v Hx Hne. rewrite Hx in Hne. contradiction. }
  apply (adds_only_run P (fun _ => true) acts st).
  - intros a st' Hx _. destruct a as [d| |d rate|e]; simpl.
    + apply adds_only_begin_frame. intros v. apply HP, Hx.
    + apply adds_only_end_frame. intros c v. apply HP, Hx.
    + apply adds_only_submit_frame; try reflexivity; try (intros; reflexivity).
      intros v. apply HP, Hx.
    + apply adds_only_process_event; try reflexivity; try (intros; reflexivity).
      intros v. apply HP, Hx.
  - induction acts; [reflexivity|assumption].
Qed.

Lemma no_counter_write_without_xsync_witness :
  have_xsync_extension (xserver sample_plain_state) = 0
  /\ exists new,
       calls (run sample_run sample_plain_state)
         = calls sample_plain_state ++ new
       /\ Forall (fun c => is_counter_write c = false) new.
Proof.
  exact (conj eq_refl
           (no_counter_write_without_xsync sample_plain_state sample_run
              eq_refl)).
Defined.

(** X12.  The application never writes the basic counter.  In a run of
    [submit_frame] and [process_event] calls (the only way the
    application reaches [begin_frame] and [end_frame]), every
    [XSyncSetCounter] call added to the log writes the extended counter:
    [begin_frame] has consumed any pending configure serial before
    [end_frame] could publish it to the basic counter. *)
Theorem application_writes_extended_counter_only st (acts : list action) :
  forallb app_action acts = true ->
  exists new,
    calls (run acts st) = calls st ++ new
    /\ Forall (writes_only (extended_counter (xserver st))) new.
Proof.
  intros Hacts.
  apply (adds_only_run (writes_only (extended_counter (xserver st)))
           app_action acts st); [|exact Hacts].
  intros a st' Hx Ha. destruct a as [d| |d rate|e]; try discriminate; simpl.
  - apply adds_only_submit_frame; try exact I; try (intros; exact I).
    intros v _. simpl. rewrite Hx. reflexivity.
  - apply adds_only_process_event; try exact I; try (intros; exact I).
    intros v _. simpl. rewrite Hx. reflexivity.
Qed.

Lemma application_writes_extended_counter_only_witness :
  forallb app_action sample_app_run = true
  /\ exists new,
       calls (run sample_app_run sample_state) = calls sample_state ++ new
       /\ Forall (writes_only (extended_counter (xserver sample_state))) new.
Proof.
  exact (conj eq_refl
           (application_writes_extended_counter_only sample_state
              sample_app_run eq_refl)).
Defined.

End Log.

(** ** Confirmations and the sync request handshake *)

Section Handshake.

Implicit Types (st : state) (d : frame_disposition) (rate : F32.float).

Lemma end_frame_serials_confirmations (s : sync_state) :
  drawn_sync_serial (end_frame_serials s) = drawn_sync_serial s
  /\ timing_sync_serial (end_frame_serials s) = timing_sync_serial s.
Proof.
  unfold end_frame_serials. destruct (configure_pending s); destruct s;
    split; reflexivity.
Qed.

Lemma submit_frame_confirmations d rate st :
  drawn_sync_serial (sync (submit_frame d rate st)) = drawn_sync_serial (sync st)
  /\ timing_sync_serial (sync (submit_frame d rate st))
     = timing_sync_serial (sync st).
Proof.
  rewrite submit_frame_sync.
  destruct (awaiting_timings (sync st)); [split; reflexivity|].
  destruct (normal_cycle_serials (sync st)) as (_ & _ & _ & Hd & Ht & _).
  split; assumption.
Qed.

Lemma step_confirmations (a : action) st :
  drawn_sync_serial (sync st) <= drawn_sync_serial (sync (step a st))
  /\ timing_sync_serial (sync st) <= timing_sync_serial (sync (step a st)).
Proof.
  destruct a as [d| |d rate|e]; simpl.
  - rewrite sync_begin_frame. simpl. lia.
  - rewrite sync_end_frame.
    destruct (end_frame_serials_confirmations (sync st)) as [-> ->]. lia.
  - destruct (submit_frame_confirmations d rate st) as [-> ->]. lia.
  - destruct e as [ser cnt|ser w h|ser win mt l|a|ty].
    + rewrite process_expose.
      destruct (submit_frame_confirmations frame_urgent
                  (cap_frame_rate (frame_rate (frame st))
                     (circular_buffer_average (frame_time_buffer st)))
                  (entered st)) as [-> ->].
      rewrite sync_entered. lia.
    + rewrite process_configure_notify, sync_counter_sync.
      autorewrite with state_proj. rewrite sync_entered. simpl. lia.
    + unfold process_event, get_time_microseconds.
      cbv zeta iota beta. autorewrite with state_proj.
      destruct (_ && _); [autorewrite with state_proj; lia|].
      destruct (_ && _).
      { autorewrite with state_proj. destruct (sync st); simpl; lia. }
      destruct (mt =? _NET_WM_FRAME_DRAWN (xserver st)).
      { destruct (Z.ltb_spec (drawn_sync_serial (sync st))
                    (to_ulong (Z.lor (to_long (Z.shiftl (l1 l) 32)) (l0 l))));
          autorewrite with state_proj; [|lia].
        destruct (sync st); simpl in *; lia. }
      destruct (mt =? _NET_WM_FRAME_TIMINGS (xserver st)).
      { destruct (Z.ltb_spec (timing_sync_serial (sync st))
                    (to_ulong (Z.lor (to_long (Z.shiftl (l1 l) 32)) (l0 l))));
          autorewrite with state_proj; [|lia].
        destruct (sync st); simpl in *; lia. }
      autorewrite with state_proj. lia.
    + unfold process_event, get_time_microseconds.
      cbv zeta iota beta. autorewrite with state_proj. lia.
    + unfold process_event, get_time_microseconds.
      cbv zeta iota beta. autorewrite with state_proj. lia.
Qed.

(** X13.  What the compositor has confirmed is never taken back: over
    any sequence of [begin_frame], [end_frame], [submit_frame] and
    [process_event] calls the drawn serial and the timing serial never
    decrease. *)
Theorem confirmations_never_decrease st (acts : list action) :
  drawn_sync_serial (sync st) <= drawn_sync_serial (sync (run acts st))
  /\ timing_sync_serial (sync st) <= timing_sync_serial (sync (run acts st)).
Proof.
  induction acts as [|a acts IH] using rev_ind; [simpl; lia|].
  rewrite run_snoc.
  pose proof (step_confirmations a (run acts st)). lia.
Qed.

(** *** Serials carried in two halves *)

Lemma to_ulong_land (z : Z) : to_ulong z = Z.land z (Z.ones 64).
Proof. unfold to_ulong. rewrite Z.land_ones by lia. reflexivity. Qed.

Lemma to_ulong_to_long (z : Z) : to_ulong (to_long z) = to_ulong z.
Proof. apply to_long_mod. Qed.

Lemma message_sync_serial_lor (l : client_data) :
  message_sync_serial l
  = Z.lor (to_ulong (Z.shiftl (l1 l) 32)) (to_ulong (l0 l)).
Proof.
  unfold message_sync_serial.
  rewrite (to_ulong_land (Z.lor _ _)), Z.land_lor_distr_l.
  rewrite <- !to_ulong_land, to_ulong_to_long. reflexivity.
Qed.

Lemma land_shifted_low (hi lo : Z) :
  0 <= lo < 2 ^ 32 -> Z.land (hi * 2 ^ 32) lo = 0.
Proof.
  intros Hlo. apply Z.bits_inj'. intros n Hn.
  rewrite Z.land_spec, Z.bits_0.
  destruct (Z.lt_ge_cases n 32) as [Hlt|Hge].
  - rewrite Z.mul_pow2_bits_low by lia. reflexivity.
  - rewrite (Z.bits_above_log2 lo n); [apply andb_false_r|lia|].
    destruct (Z.eq_dec lo 0) as [->|]; [simpl; lia|].
    apply Z.lt_le_trans with 32; [|exact Hge].
    apply Z.log2_lt_pow2; lia.
Qed.

Lemma message_sync_serial_halves (l : client_data) :
  0 <= l0 l < 2 ^ 32 -> 0 <= l1 l < 2 ^ 32 ->
  message_sync_serial l = l1 l * 2 ^ 32 + l0 l.
Proof.
  intros H0 H1. rewrite message_sync_serial_lor.
  rewrite Z.shiftl_mul_pow2 by lia.
  assert (Hhi : is_ulong (l1 l * 2 ^ 32)).
  { unfold is_ulong. change (2 ^ 64) with (2 ^ 32 * 2 ^ 32).
    split; [lia|]. apply Z.mul_lt_mono_pos_r; lia. }
  assert (Hlo : is_ulong (l0 l)) by (unfold is_ulong; lia).
  rewrite (to_ulong_small _ Hhi), (to_ulong_small _ Hlo).
  pose proof (land_shifted_low (l1 l) (l0 l) H0) as Hland.
  rewrite <- (Z.lxor_lor _ _ Hland). symmetry.
  apply Z.add_nocarry_lxor. exact Hland.
Qed.

Lemma message_sync_serial_negative_low (l : client_data) :
  - 2 ^ 31 <= l0 l < 0 -> 0 <= l1 l < 2 ^ 32 ->
  message_sync_serial l = 2 ^ 64 + l0 l.
Proof.
  intros H0 H1. rewrite message_sync_serial_lor.
  assert (Hl0 : to_ulong (l0 l) = 2 ^ 64 + l0 l).
  { unfold to_ulong. symmetry. apply (Z.mod_unique_pos _ _ (-1)); lia. }
  rewrite <- Hl0.
  apply Z.bits_inj'. intros n Hn.
  rewrite Z.lor_spec, !to_ulong_land, !Z.land_spec.
  destruct (Z.lt_ge_cases n 32) as [Hlt|Hge].
  - rewrite Z.shiftl_spec_low by lia. reflexivity.
  - destruct (Z.lt_ge_cases n 64) as [Hlt64|Hge64].
    + assert (Hb : Z.testbit (l0 l) n = true).
      { apply Z.bits_iff_neg; [|lia].
        apply Z.lt_le_trans with 32; [|exact Hge].
        apply Z.log2_lt_pow2; lia. }
      rewrite Hb, Z.ones_spec_low by lia. simpl. apply orb_true_r.
    + rewrite Z.ones_spec_high by lia. rewrite !andb_false_r. reflexivity.
Qed.

(** X14.  The serial of a frame-drawn message is put together from two
    32-bit halves: with both halves in the range of 32 unsigned bits the
    stored serial is [l[1] * 2^32 + l[0]]. *)
Theorem frame_drawn_serial_from_halves st (ser : Z) (win : XID)
    (l : client_data) :
  _NET_WM_FRAME_DRAWN (xserver st) <> WM_PROTOCOLS (xserver st) ->
  0 <= l0 l < 2 ^ 32 -> 0 <= l1 l < 2 ^ 32 ->
  drawn_sync_serial (sync st) < l1 l * 2 ^ 32 + l0 l ->
  drawn_sync_serial
    (sync (process_event
             (ClientMessage ser win (_NET_WM_FRAME_DRAWN (xserver st)) l) st))
  = l1 l * 2 ^ 32 + l0 l.
Proof.
  intros Hne H0 H1 Hlt.
  rewrite (process_frame_drawn st ser win l Hne).
  rewrite (message_sync_serial_halves l H0 H1).
  apply Z.ltb_lt in Hlt. rewrite Hlt.
  autorewrite with state_proj. rewrite sync_entered.
  destruct (sync st); reflexivity.
Qed.

Lemma frame_drawn_serial_from_halves_witness :
  _NET_WM_FRAME_DRAWN (xserver sample_state) <> WM_PROTOCOLS (xserver sample_state)
  /\ drawn_sync_serial
       (sync (process_event
                (ClientMessage 5 9 (_NET_WM_FRAME_DRAWN (xserver sample_state))
                   sample_two_halves) sample_state))
     = 3 * 2 ^ 32 + 7.
Proof.
  assert (Hne : _NET_WM_FRAME_DRAWN (xserver sample_state)
                <> WM_PROTOCOLS (xserver sample_state)) by discriminate.
  split; [exact Hne|].
  apply (frame_drawn_serial_from_halves sample_state 5 9 sample_two_halves Hne);
    simpl; lia.
Defined.



End Handshake.

(** ** The extended sync request handshake *)

Section SyncRequest.

Implicit Types (st : state) (d : frame_disposition) (rate : F32.float).

Lemma atoms_distinct_sync_request (xs : xserver_state) :
  atoms_distinct xs -> _NET_WM_SYNC_REQUEST xs <> _NET_WM_PING xs.
Proof.
  unfold atoms_distinct. rewrite !NoDup_cons, !not_elem_of_cons.
  intros H E. rewrite E in *. tauto.
Qed.

Lemma process_sync_request st (ser : Z) (win : XID) (l : client_data) :
  _NET_WM_SYNC_REQUEST (xserver st) <> _NET_WM_PING (xserver st) ->
  to_ulong (l0 l) = _NET_WM_SYNC_REQUEST (xserver st) ->
  process_event (ClientMessage ser win (WM_PROTOCOLS (xserver st)) l) st
  = with_sync (set_request_extended_sync (if l4 l =? 0 then 0 else 1))
      (with_sync
         (set_request_sync_serial
            (to_ulong (long_add (l2 l) (to_long (Z.shiftl (l3 l) 32)))))
         (entered st)).
Proof.
  intros Hne Hl0.
  unfold process_event, get_time_microseconds, entered, time_now.
  cbv zeta iota beta. autorewrite with state_proj.
  rewrite Hl0. apply Z.eqb_neq in Hne. rewrite Hne, !Z.eqb_refl.
  reflexivity.
Qed.

Lemma request_serial_halves (lo hi : Z) :
  0 <= lo < 2 ^ 32 -> 0 <= hi < 2 ^ 32 ->
  to_ulong (long_add lo (to_long (Z.shiftl hi 32))) = hi * 2 ^ 32 + lo.
Proof.
  intros Hlo Hhi. unfold long_add.
  rewrite to_long_add_r, to_ulong_to_long, Z.shiftl_mul_pow2 by lia.
  rewrite Z.add_comm. apply to_ulong_small. unfold is_ulong.
  change (2 ^ 64) with (2 ^ 32 * 2 ^ 32).
  assert (hi * 2 ^ 32 <= (2 ^ 32 - 1) * 2 ^ 32)
    by (apply Z.mul_le_mono_nonneg_r; lia).
  lia.
Qed.

Lemma round_up_bounds (c : Z) :
  is_ulong c -> c + 3 < 2 ^ 64 ->
  c <= (if Z.land c 3 =? 0 then c
        else Z.land (ulong_add c 3) (to_ulong (Z.lnot 3))) < c + 4.
Proof.
  intros Hu Hfit. destruct (Z.land c 3 =? 0); [lia|].
  unfold is_ulong in Hu.
  rewrite ulong_add_no_wrap by lia.
  rewrite land_not_3 by (unfold is_ulong; lia).
  pose proof (Z.div_mod (c + 3) 4 ltac:(lia)).
  pose proof (Z.mod_pos_bound (c + 3) 4 ltac:(lia)).
  lia.
Qed.

(** X16.  The extended sync request handshake.  A [_NET_WM_SYNC_REQUEST]
    with [l[4]] nonzero stores the serial [v = l[3] * 2^32 + l[2]] as the
    request; the [ConfigureNotify] that follows promotes it to the
    configure serial with the extended flag; the next frame that is
    submitted starts from the least multiple of 4 not below [v], not
    from the window's own current serial, so that afterwards current and
    in-flight serial are equal, a multiple of 4 and in [v + 4 .. v + 7],
    and the configure serial is consumed. *)
Theorem extended_sync_request_handshake st (ser ser' w h : Z) (win : XID)
    (l : client_data) d rate :
  atoms_distinct (xserver st) ->
  to_ulong (l0 l) = _NET_WM_SYNC_REQUEST (xserver st) ->
  0 <= l2 l < 2 ^ 32 -> 0 <= l3 l < 2 ^ 32 -> l4 l <> 0 ->
  l3 l * 2 ^ 32 + l2 l <> 0 ->
  l3 l * 2 ^ 32 + l2 l + 8 <= 2 ^ 64 ->
  awaiting_timings (sync st) = false ->
  let v := l3 l * 2 ^ 32 + l2 l in
  let st1 :=
    process_event (ClientMessage ser win (WM_PROTOCOLS (xserver st)) l) st in
  let st2 := process_event (ConfigureNotify ser' w h) st1 in
  let st3 := submit_frame d rate st2 in
  request_sync_serial (sync st1) = v
  /\ request_extended_sync (sync st1) = 1
  /\ configure_sync_serial (sync st2) = v
  /\ configure_extended_sync (sync st2) = 1
  /\ request_sync_serial (sync st2) = 0
  /\ current_sync_serial (sync st2) = current_sync_serial (sync st)
  /\ current_sync_serial (sync st3) mod 4 = 0
  /\ v + 4 <= current_sync_serial (sync st3) <= v + 7
  /\ inflight_sync_serial (sync st3) = current_sync_serial (sync st3)
  /\ configure_sync_serial (sync st3) = 0.
Proof.
  intros Hatoms Hl0 H2 H3 H4 Hv0 Hfit Hg v st1 st2 st3.
  pose proof (atoms_distinct_sync_request _ Hatoms) as Hne.
  assert (Hs1 : sync st1
                = set_request_extended_sync 1
                    (set_request_sync_serial v (sync st))).
  { unfold st1. rewrite (process_sync_request st ser win l Hne Hl0).
    autorewrite with state_proj. rewrite sync_entered.
    rewrite (request_serial_halves _ _ H2 H3).
    apply Z.eqb_neq in H4. rewrite H4. reflexivity. }
  assert (Hs2 : sync st2
                = mk_sync_state 0 1 (current_sync_serial (sync st)) 0 v
                    (inflight_sync_serial (sync st))
                    (drawn_sync_serial (sync st))
                    (timing_sync_serial (sync st))).
  { unfold st2. rewrite process_configure_notify, sync_counter_sync.
    autorewrite with state_proj. rewrite sync_entered, Hs1.
    destruct (sync st) as [re ce cur rq cf inf dr tm]; reflexivity. }
  assert (Hp : configure_pending (sync st2) = true).
  { rewrite Hs2. unfold configure_pending. simpl.
    apply Z.eqb_neq in Hv0. fold v in Hv0. rewrite Hv0. reflexivity. }
  assert (Hg2 : awaiting_timings (sync st2) = false).
  { rewrite Hs2. exact Hg. }
  assert (Hv : is_ulong v) by (unfold is_ulong, v; lia).
  assert (Hb : frame_base (sync st2) mod 4 = 0
               /\ v <= frame_base (sync st2) < v + 4).
  { split; [apply frame_base_mod_4|].
    unfold frame_base. rewrite Hp, Hs2. simpl configure_sync_serial.
    apply round_up_bounds; [exact Hv|unfold v; lia]. }
  destruct Hb as [Hb4 Hb].
  destruct (normal_cycle_serials (sync st2)) as (Hc & Hi & Hcf & _).
  assert (H3' : sync st3
                = end_frame_serials (begin_frame_serials frame_normal (sync st2))).
  { unfold st3. rewrite submit_frame_sync, Hg2. reflexivity. }
  rewrite Hp in Hcf.
  rewrite ulong_add_no_wrap in Hc, Hi by (unfold v in *; lia).
  rewrite H3', Hc, Hi, Hcf, Hs1, Hs2.
  assert (Hm : (frame_base (sync st2) + 4) mod 4 = 0).
  { rewrite <- Zplus_mod_idemp_l, Hb4. reflexivity. }
  rewrite Hs2 in Hm, Hb.
  destruct (sync st) as [re ce cur rq cf inf dr tm].
  split_and!; try reflexivity; try exact Hm; lia.
Qed.

Lemma extended_sync_request_handshake_witness :
  let st1 :=
    process_event (ClientMessage 1 9 300 sample_extended_request) sample_state in
  let st2 := process_event (ConfigureNotify 2 640 480) st1 in
  let st3 := submit_frame frame_normal F32.f_29_97 st2 in
  atoms_distinct (xserver sample_state)
  /\ request_sync_serial (sync st1) = 1 * 2 ^ 32 + 11
  /\ configure_sync_serial (sync st2) = 1 * 2 ^ 32 + 11
  /\ current_sync_serial (sync st3) mod 4 = 0
  /\ 1 * 2 ^ 32 + 11 + 4 <= current_sync_serial (sync st3) <= 1 * 2 ^ 32 + 11 + 7
  /\ configure_sync_serial (sync st3) = 0.
Proof.
  intros st1 st2 st3.
  assert (Hatoms : atoms_distinct (xserver sample_state)).
  { unfold atoms_distinct. simpl.
    apply (bool_decide_unpack _). vm_compute. exact I. }
  assert (Hl0 : to_ulong (l0 sample_extended_request)
                = _NET_WM_SYNC_REQUEST (xserver sample_state))
    by (vm_compute; reflexivity).
  assert (H2 : 0 <= l2 sample_extended_request < 2 ^ 32)
    by (split; vm_compute; congruence).
  assert (H3 : 0 <= l3 sample_extended_request < 2 ^ 32)
    by (split; vm_compute; congruence).
  assert (H4 : l4 sample_extended_request <> 0) by (vm_compute; congruence).
  assert (Hv0 : l3 sample_extended_request * 2 ^ 32
                + l2 sample_extended_request <> 0)
    by (vm_compute; congruence).
  assert (Hfit : l3 sample_extended_request * 2 ^ 32
                 + l2 sample_extended_request + 8 <= 2 ^ 64)
    by (vm_compute; congruence).
  assert (Hg : awaiting_timings (sync sample_state) = false)
    by (vm_compute; reflexivity).
  destruct (extended_sync_request_handshake sample_state 1 2 640 480 9
              sample_extended_request frame_normal F32.f_29_97
              Hatoms Hl0 H2 H3 H4 Hv0 Hfit Hg)
    as (Ha & _ & Hb & _ & _ & _ & Hc & Hd & _ & He).
  exact (conj Hatoms (conj Ha (conj Hb (conj Hc (conj Hd He))))).
Defined.

End SyncRequest.


(** ** The clock, the poll timeout and the wait for the next frame *)

Section Waiting.

Implicit Types (st : state) (polls : nat -> poll_result) (ts : timespec).

Lemma timespec_microseconds_exact ts :
  timespec_valid ts ->
  tv_sec ts * 1000000 + tv_nsec ts / 1000 < 2 ^ 63 ->
  timespec_microseconds ts = tv_sec ts * 1000000 + tv_nsec ts / 1000.
Proof.
  intros [Hs Hn] Hfit. unfold timespec_microseconds.
  rewrite Z.quot_div_nonneg by lia.
  pose proof (Z.div_pos (tv_nsec ts) 1000 ltac:(lia) ltac:(lia)) as Hq.
  rewrite (to_long_small (tv_sec ts * 1000000)) by (unfold is_long; lia).
  rewrite (to_long_small (tv_nsec ts / 1000)) by (unfold is_long; lia).
  rewrite long_add_no_wrap by (unfold is_long; lia).
  apply to_ulong_small. unfold is_ulong. lia.
Qed.

(** X17.  The microsecond clock.  For a valid [struct timespec] whose
    microsecond count fits in a [long], the reading is
    [tv_sec * 1000000 + tv_nsec / 1000], and a reading taken at a time
    that is not earlier is not smaller. *)
Theorem get_time_microseconds_monotone st st' :
  timespec_valid (clock st (ticks st)) ->
  timespec_valid (clock st' (ticks st')) ->
  tv_sec (clock st' (ticks st')) * 1000000 + 1000000 <= 2 ^ 63 ->
  timespec_le (clock st (ticks st)) (clock st' (ticks st')) ->
  fst (get_time_microseconds st')
    = tv_sec (clock st' (ticks st')) * 1000000
      + tv_nsec (clock st' (ticks st')) / 1000
  /\ fst (get_time_microseconds st) <= fst (get_time_microseconds st').
Proof.
  intros H1 H2 Hfit Hle. unfold get_time_microseconds. simpl fst.
  set (ts1 := clock st (ticks st)) in *.
  set (ts2 := clock st' (ticks st')) in *.
  pose proof H1 as [Hs1 Hn1]. pose proof H2 as [Hs2 Hn2].
  assert (Hq1 : 0 <= tv_nsec ts1 / 1000 < 1000000).
  { split; [apply Z.div_pos; lia|apply Z.div_lt_upper_bound; lia]. }
  assert (Hq2 : 0 <= tv_nsec ts2 / 1000 < 1000000).
  { split; [apply Z.div_pos; lia|apply Z.div_lt_upper_bound; lia]. }
  assert (Hsec : tv_sec ts1 <= tv_sec ts2) by (destruct Hle; lia).
  rewrite (timespec_microseconds_exact ts2 H2) by lia.
  rewrite (timespec_microseconds_exact ts1 H1) by lia.
  split; [reflexivity|].
  destruct Hle as [Hlt|[Heq Hnle]].
  - lia.
  - rewrite Heq. apply Z.add_le_mono_l. apply Z.div_le_mono; lia.
Qed.

Lemma get_time_microseconds_monotone_witness :
  timespec_le (clock sample_state 0) (clock sample_state 3)
  /\ fst (get_time_microseconds (set_ticks 3 sample_state)) = 1060000
  /\ fst (get_time_microseconds sample_state)
     <= fst (get_time_microseconds (set_ticks 3 sample_state)).
Proof.
  assert (H1 : timespec_valid (clock sample_state (ticks sample_state)))
    by (unfold timespec_valid; simpl; lia).
  assert (H2 : timespec_valid
                 (clock (set_ticks 3 sample_state)
                    (ticks (set_ticks 3 sample_state))))
    by (unfold timespec_valid; simpl; lia).
  assert (H3 : tv_sec (clock (set_ticks 3 sample_state)
                         (ticks (set_ticks 3 sample_state))) * 1000000
               + 1000000 <= 2 ^ 63) by (simpl; lia).
  assert (H4 : timespec_le (clock sample_state (ticks sample_state))
                 (clock (set_ticks 3 sample_state)
                    (ticks (set_ticks 3 sample_state))))
    by (right; simpl; lia).
  exact (conj H4 (get_time_microseconds_monotone sample_state
                    (set_ticks 3 sample_state) H1 H2 H3 H4)).
Defined.

Lemma poll_timespec_nonneg (timeout : Z) :
  0 <= timeout -> is_long timeout ->
  tv_sec (poll_timespec timeout) = timeout / 1000000
  /\ tv_nsec (poll_timespec timeout) = timeout mod 1000000 * 1000.
Proof.
  intros H0 Hl. unfold poll_timespec, long_div. simpl.
  rewrite Z.quot_div_nonneg, Z.rem_mod_nonneg by lia.
  pose proof (Z.mod_pos_bound timeout 1000000 ltac:(lia)).
  pose proof (Z.div_pos timeout 1000000 H0 ltac:(lia)).
  pose proof (Z.div_le_upper_bound timeout 1000000 timeout ltac:(lia) ltac:(lia)).
  unfold is_long in Hl.
  split; apply to_long_small; unfold is_long; lia.
Qed.

Lemma poll_timespec_valid (timeout : Z) :
  0 <= timeout -> is_long timeout -> timespec_valid (poll_timespec timeout).
Proof.
  intros H0 Hl. destruct (poll_timespec_nonneg timeout H0 Hl) as [Hs Hn].
  unfold timespec_valid. rewrite Hs, Hn.
  pose proof (Z.mod_pos_bound timeout 1000000 ltac:(lia)).
  pose proof (Z.div_pos timeout 1000000 H0 ltac:(lia)).
  lia.
Qed.

(** X18.  The timeout that [poll_event_queue] hands to [ppoll].  A
    timeout that is not negative becomes a valid [struct timespec]
    (nanoseconds below one second), and reading that [timespec] back
    with the conversion of [get_time_microseconds] gives the timeout
    again: no microsecond is lost. *)
Theorem poll_timeout_round_trip polls (n : nat) (timeout : Z) :
  0 <= timeout -> is_long timeout ->
  let pts := snd (poll_event_queue polls n timeout) in
  timespec_valid pts /\ timespec_microseconds pts = timeout.
Proof.
  intros H0 Hl pts. unfold pts, poll_event_queue. simpl snd.
  pose proof (poll_timespec_valid timeout H0 Hl) as Hv.
  split; [exact Hv|].
  destruct (poll_timespec_nonneg timeout H0 Hl) as [Hs Hn].
  assert (Hsum : tv_sec (poll_timespec timeout) * 1000000
                 + tv_nsec (poll_timespec timeout) / 1000 = timeout).
  { rewrite Hs, Hn, Z.div_mul by lia.
    pose proof (Z.div_mod timeout 1000000 ltac:(lia)). lia. }
  rewrite timespec_microseconds_exact; [exact Hsum|exact Hv|].
  rewrite Hsum. unfold is_long in Hl. lia.
Qed.

Lemma poll_timeout_round_trip_witness :
  timespec_valid (snd (poll_event_queue sample_polls 0 33366))
  /\ snd (poll_event_queue sample_polls 0 33366) = mk_timespec 0 33366000
  /\ timespec_microseconds (snd (poll_event_queue sample_polls 0 33366)) = 33366.
Proof.
  assert (H0 : 0 <= 33366) by lia.
  assert (Hl : is_long 33366) by (unfold is_long; lia).
  destruct (poll_timeout_round_trip sample_polls 0 33366 H0 Hl) as [Ha Hb].
  exact (conj Ha (conj eq_refl Hb)).
Defined.

(** *** The loop *)

Lemma wait_loop_unfold (fuel : nat) polls (n : nat) st :
  wait_loop fuel polls n st =
  if current_time (frame st) <? next_draw_time (frame st) then
    match fuel with
    | O => (wait_out_of_fuel, st, [])
    | S fuel =>
        let timeout :=
          long_sub (next_draw_time (frame st)) (current_time (frame st)) in
        let '(r, pts) := poll_event_queue polls n timeout in
        if (poll_ret r <? 0) && errno_is_EINTR r then
          (wait_returns wait_retry, st, [pts])
        else if poll_ret r <? 0 then
          (wait_panics, st, [pts])
        else if poll_ret r =? 0 then
          (wait_returns frame_ready, st, [pts])
        else if (poll_ret r =? 1) && (0 <? events_queued r) then
          (wait_returns event_ready, st, [pts])
        else
          let '(o, st, rest) := wait_loop fuel polls (S n) (entered st) in
          (o, st, pts :: rest)
    end
  else
    if (poll_ret (polls n) =? 1) && (0 <? events_queued (polls n))
    then (wait_returns event_ready, st, [poll_timespec 0])
    else (wait_returns frame_ready, st, [poll_timespec 0]).
Proof. destruct fuel; reflexivity. Qed.

Lemma wait_frame_or_event_unfold (fuel : nat) polls (n : nat) st :
  wait_frame_or_event fuel polls n st = wait_loop fuel polls n (entered st).
Proof. reflexivity. Qed.


Ltac wait_loop_cases fuel polls n st :=
  rewrite (wait_loop_unfold (S fuel) polls n st);
  cbv beta iota zeta delta [poll_event_queue];
  destruct (current_time (frame st) <? next_draw_time (frame st)) eqn:Hlate;
  [ destruct ((poll_ret (polls n) <? 0) && errno_is_EINTR (polls n)) eqn:Hintr;
    [ | destruct (poll_ret (polls n) <? 0) eqn:Hneg;
        [ | destruct (poll_ret (polls n) =? 0) eqn:Hzero;
            [ | destruct ((poll_ret (polls n) =? 1)
                          && (0 <? events_queued (polls n))) eqn:Hev ] ] ]
  | destruct ((poll_ret (polls n) =? 1)
              && (0 <? events_queued (polls n))) eqn:Hev ].

Lemma clock_read_twice st (c1 c2 : Z) (t1 t2 : nat) :
  with_frame (set_current_time c2)
    (set_ticks t2 (with_frame (set_current_time c1) (set_ticks t1 st)))
  = with_frame (set_current_time c2) (set_ticks t2 st).
Proof. destruct st as [s xs fr fb rb ck tk cs]. destruct fr. reflexivity. Qed.

Lemma clock_read_none st :
  st = with_frame (set_current_time (current_time (frame st)))
         (set_ticks (ticks st) st).
Proof. destruct st as [s xs fr fb rb ck tk cs]. destruct fr. reflexivity. Qed.

(** The loop reads the clock and nothing else. *)
Lemma wait_loop_state (fuel : nat) polls (n : nat) st :
  let st' := (wait_loop fuel polls n st).1.2 in
  st' = with_frame (set_current_time (current_time (frame st')))
          (set_ticks (ticks st') st)
  /\ (ticks st <= ticks st')%nat.
Proof.
  revert n st. induction fuel as [|fuel IH]; intros n st.
  - rewrite wait_loop_unfold.
    destruct (_ <? _); [|destruct (_ && _)]; simpl;
      (split; [apply clock_read_none|lia]).
  - wait_loop_cases fuel polls n st; simpl;
      try (split; [apply clock_read_none|lia]).
    specialize (IH (S n) (entered st)).
    destruct (wait_loop fuel polls (S n) (entered st)) as [[o st''] rest].
    simpl in *. destruct IH as [IH1 IH2].
    unfold entered in IH1. rewrite clock_read_twice in IH1.
    split; [exact IH1|].
    unfold entered in IH2. autorewrite with state_proj in IH2. lia.
Qed.

Lemma reading_entered st (k : nat) : reading (entered st) k = reading st k.
Proof. unfold reading, entered. autorewrite with state_proj. reflexivity. Qed.

Lemma poll_timespec_0 : poll_timespec 0 = mk_timespec 0 0.
Proof. vm_compute. reflexivity. Qed.

Lemma poll_timespec_0_valid : timespec_valid (poll_timespec 0).
Proof. rewrite poll_timespec_0. unfold timespec_valid. simpl. lia. Qed.

Lemma current_time_entered st :
  current_time (frame (entered st)) = reading st (ticks st).
Proof.
  unfold entered, reading, time_now. autorewrite with state_proj.
  destruct (frame st); reflexivity.
Qed.

Lemma next_draw_time_entered st :
  next_draw_time (frame (entered st)) = next_draw_time (frame st).
Proof. unfold entered. autorewrite with state_proj. destruct (frame st); reflexivity. Qed.

Lemma ticks_entered st : ticks (entered st) = S (ticks st).
Proof. unfold entered. autorewrite with state_proj. reflexivity. Qed.

(** Every timeout of the loop is a valid [timespec]. *)
Lemma wait_loop_timeouts (fuel : nat) polls (n : nat) st :
  is_long (next_draw_time (frame st)) ->
  (forall k, 0 <= reading st k) ->
  0 <= current_time (frame st) ->
  Forall timespec_valid (wait_loop fuel polls n st).2.
Proof.
  revert n st. induction fuel as [|fuel IH]; intros n st Hnext Hclock Hcur.
  - rewrite wait_loop_unfold.
    destruct (_ <? _); [constructor|].
    pose proof poll_timespec_0_valid as Hz.
    destruct (_ && _); simpl; (apply Forall_cons_2; [exact Hz|apply Forall_nil_2]).
  - pose proof poll_timespec_0_valid as Hz.
    assert (Hpos : (current_time (frame st) <? next_draw_time (frame st)) = true ->
              timespec_valid
                (poll_timespec
                   (long_sub (next_draw_time (frame st))
                      (current_time (frame st))))).
    { intros Hlt. apply Z.ltb_lt in Hlt. unfold is_long in Hnext.
      assert (Hl : is_long (next_draw_time (frame st) - current_time (frame st)))
        by (unfold is_long; lia).
      unfold long_sub. rewrite (to_long_small _ Hl).
      apply poll_timespec_valid; [lia|exact Hl]. }
    wait_loop_cases fuel polls n st; simpl;
      try (apply Forall_cons_2;
           [first [exact (Hpos eq_refl)|exact Hz]|apply Forall_nil_2]).
    specialize (IH (S n) (entered st)).
    rewrite next_draw_time_entered, current_time_entered in IH.
    specialize (IH Hnext Hclock (Hclock _)).
    destruct (wait_loop fuel polls (S n) (entered st)) as [[o st''] rest].
    simpl in *. apply Forall_cons_2; [exact (Hpos eq_refl)|exact IH].
Qed.


Lemma sample_steady_clock_reading (k : nat) :
  reading sample_waiting_state k
  = 1000000 + 20000 * Z.of_nat (Nat.min k 40).
Proof.
  unfold reading, sample_waiting_state. simpl clock.
  assert (Hm : 0 <= Z.of_nat (Nat.min k 40) <= 40) by lia.
  assert (Hv : timespec_valid (sample_steady_clock k)).
  { unfold timespec_valid, sample_steady_clock. simpl. lia. }
  assert (Hq : tv_nsec (sample_steady_clock k) / 1000
               = 20000 * Z.of_nat (Nat.min k 40)).
  { unfold sample_steady_clock. simpl.
    replace (20000000 * Z.of_nat (Nat.min k 40))
      with (20000 * Z.of_nat (Nat.min k 40) * 1000) by lia.
    apply Z.div_mul. lia. }
  rewrite (timespec_microseconds_exact _ Hv); rewrite Hq;
    unfold sample_steady_clock; simpl tv_sec; [|lia].
  apply to_long_small. unfold is_long. lia.
Qed.



Lemma wait_loop_terminates (fuel : nat) polls (n : nat) st (j k : nat) :
  ticks st = S j ->
  current_time (frame st) = reading st j ->
  (j <= k)%nat ->
  next_draw_time (frame st) <= reading st k ->
  (k - j <= fuel)%nat ->
  (wait_loop fuel polls n st).1.1 <> wait_out_of_fuel
  /\ (length (wait_loop fuel polls n st).2 <= S (k - j))%nat
  /\ (ticks (wait_loop fuel polls n st).1.2 <= S k)%nat.
Proof.
  revert n st j. induction fuel as [|fuel IH]; intros n st j Ht Hc Hjk Hk Hf.
  - assert (j = k) by lia. subst j.
    rewrite wait_loop_unfold.
    destruct (Z.ltb_spec (current_time (frame st)) (next_draw_time (frame st)));
      [lia|].
    destruct (_ && _); simpl; (split_and!; [discriminate|lia|lia]).
  - wait_loop_cases fuel polls n st; simpl;
      try (split_and!; [discriminate|lia|lia]).
    apply Z.ltb_lt in Hlate.
    assert (j <> k) by (intros ->; lia).
    specialize (IH (S n) (entered st) (S j)).
    rewrite ticks_entered, current_time_entered, next_draw_time_entered,
      !reading_entered, Ht in IH.
    specialize (IH eq_refl eq_refl ltac:(lia) Hk ltac:(lia)).
    destruct (wait_loop fuel polls (S n) (entered st)) as [[o st''] rest].
    simpl in *. destruct IH as (IH1 & IH2 & IH3).
    split_and!; [exact IH1|lia|lia].
Qed.

(** X20.  The wait ends by the deadline.  If the clock reading taken at
    tick [k] has reached [next_draw_time], the call returns or panics
    after at most [k - ticks + 1] polls and as many clock readings: it
    does not loop any longer, whatever [ppoll] answers. *)
Theorem wait_frame_or_event_ends_by_deadline (fuel : nat) polls (n : nat) st
    (k : nat) :
  (ticks st <= k)%nat ->
  next_draw_time (frame st) <= reading st k ->
  (k - ticks st <= fuel)%nat ->
  let r := wait_frame_or_event fuel polls n st in
  r.1.1 <> wait_out_of_fuel
  /\ (length r.2 <= S (k - ticks st))%nat
  /\ (ticks r.1.2 <= S k)%nat.
Proof.
  intros Hk Hd Hf r. unfold r. rewrite wait_frame_or_event_unfold.
  apply wait_loop_terminates.
  - apply ticks_entered.
  - rewrite current_time_entered, reading_entered. reflexivity.
  - exact Hk.
  - rewrite next_draw_time_entered, reading_entered. exact Hd.
  - exact Hf.
Qed.

Lemma wait_frame_or_event_ends_by_deadline_witness :
  next_draw_time (frame sample_waiting_state) <= reading sample_waiting_state 3
  /\ (wait_frame_or_event 3 sample_polls 0 sample_waiting_state).1.1
     = wait_returns frame_ready
  /\ (wait_frame_or_event 3 sample_polls 0 sample_waiting_state).1.1
     <> wait_out_of_fuel
  /\ (length (wait_frame_or_event 3 sample_polls 0 sample_waiting_state).2
      <= 4)%nat.
Proof.
  assert (Hk : (ticks sample_waiting_state <= 3)%nat) by (simpl; lia).
  assert (Hd : next_draw_time (frame sample_waiting_state)
               <= reading sample_waiting_state 3)
    by (rewrite sample_steady_clock_reading; simpl; lia).
  assert (Hf : (3 - ticks sample_waiting_state <= 3)%nat) by (simpl; lia).
  destruct (wait_frame_or_event_ends_by_deadline 3 sample_polls 0
              sample_waiting_state 3 Hk Hd Hf) as (Ha & Hb & _).
  split; [exact Hd|]. split; [vm_compute; reflexivity|].
  split; [exact Ha|exact Hb].
Defined.

Lemma wait_loop_outcome (fuel : nat) polls (n : nat) st :
  let r := wait_loop fuel polls n st in
  let last := polls (n + length r.2 - 1)%nat in
  match r.1.1 with
  | wait_returns wait_retry =>
      poll_ret last < 0 /\ errno_is_EINTR last = true
  | wait_panics =>
      poll_ret last < 0 /\ errno_is_EINTR last = false
  | wait_returns event_ready =>
      poll_ret last = 1 /\ 0 < events_queued last
  | wait_returns frame_ready =>
      poll_ret last = 0
      \/ next_draw_time (frame r.1.2) <= current_time (frame r.1.2)
  | wait_out_of_fuel =>
      current_time (frame r.1.2) < next_draw_time (frame r.1.2)
  end.
Proof.
  revert n st. induction fuel as [|fuel IH]; intros n st.
  - rewrite wait_loop_unfold.
    destruct (Z.ltb_spec (current_time (frame st)) (next_draw_time (frame st)));
      [simpl; assumption|].
    destruct (_ && _) eqn:Hev; simpl;
      replace (n + 1 - 1)%nat with n by lia.
    + apply andb_prop in Hev as [H1 H2].
      apply Z.eqb_eq in H1. apply Z.ltb_lt in H2. split; assumption.
    + right. assumption.
  - wait_loop_cases fuel polls n st; simpl;
      try replace (n + 1 - 1)%nat with n by lia.
    + apply andb_prop in Hintr as [H1 H2]. apply Z.ltb_lt in H1.
      split; assumption.
    + simpl in Hintr. apply Z.ltb_lt in Hneg. split; assumption.
    + left. apply Z.eqb_eq. assumption.
    + apply andb_prop in Hev as [H1 H2].
      apply Z.eqb_eq in H1. apply Z.ltb_lt in H2. split; assumption.
    + specialize (IH (S n) (entered st)).
      destruct (wait_loop fuel polls (S n) (entered st)) as [[o st''] rest].
      simpl in *.
      replace (n + S (length rest) - 1)%nat
        with (S (n + length rest) - 1)%nat by lia.
      exact IH.
    + apply andb_prop in Hev as [H1 H2].
      apply Z.eqb_eq in H1. apply Z.ltb_lt in H2. split; assumption.
    + right. apply Z.ltb_ge. assumption.
Qed.

(** X21.  What [wait_frame_or_event] returns is borne out by the last
    answer of [ppoll].  [event_ready] means the last poll returned 1 and
    [XEventsQueued] found an event, so that the [XNextEvent] that
    follows cannot block; [wait_retry] means it failed with [EINTR]; the
    program panics only when it failed otherwise, inside the loop;
    [frame_ready] means that the last poll timed out or that the
    deadline [next_draw_time] had been reached at the last reading of
    the clock. *)
Theorem wait_frame_or_event_outcome (fuel : nat) polls (n : nat) st :
  let r := wait_frame_or_event fuel polls n st in
  let last := polls (n + length r.2 - 1)%nat in
  match r.1.1 with
  | wait_returns wait_retry =>
      poll_ret last < 0 /\ errno_is_EINTR last = true
  | wait_panics =>
      poll_ret last < 0 /\ errno_is_EINTR last = false
  | wait_returns event_ready =>
      poll_ret last = 1 /\ 0 < events_queued last
  | wait_returns frame_ready =>
      poll_ret last = 0
      \/ next_draw_time (frame r.1.2) <= current_time (frame r.1.2)
  | wait_out_of_fuel =>
      current_time (frame r.1.2) < next_draw_time (frame r.1.2)
  end.
Proof.
  rewrite wait_frame_or_event_unfold. apply wait_loop_outcome.
Qed.

End Waiting.


(** ** Attribute lists *)

Section AttributeLists.

Import AttrList.

Implicit Types (l : attr_list) (vs : list attr_val) (nm : string).

Lemma index_of_name_lt vs nm (k : nat) :
  index_of_name vs nm = Some k -> (k < length vs)%nat.
Proof.
  revert k. induction vs as [|a vs IH]; intros k; simpl; [discriminate|].
  destruct (String.eqb (name a) nm).
  - intros [= <-]. lia.
  - destruct (index_of_name vs nm) as [k'|]; simpl; [|discriminate].
    intros [= <-]. specialize (IH k' eq_refl). lia.
Qed.

Lemma index_of_name_lookup vs nm (k : nat) :
  index_of_name vs nm = Some k ->
  exists a, vs !! k = Some a /\ name a = nm /\ lookup_name vs nm = Some (val a).
Proof.
  revert k. induction vs as [|a vs IH]; intros k; simpl; [discriminate|].
  destruct (String.eqb_spec (name a) nm) as [Heq|Hne].
  - intros [= <-]. exists a. split_and!; [reflexivity|exact Heq|reflexivity].
  - destruct (index_of_name vs nm) as [k'|]; simpl; [|discriminate].
    intros [= <-]. destruct (IH k' eq_refl) as (b & Hb & Hn & Hl).
    exists b. split_and!; assumption.
Qed.

Lemma index_of_name_none vs nm :
  index_of_name vs nm = None -> lookup_name vs nm = None.
Proof.
  induction vs as [|a vs IH]; simpl; [reflexivity|].
  destruct (String.eqb (name a) nm); [discriminate|].
  destruct (index_of_name vs nm); simpl; [discriminate|]. intros _. exact (IH eq_refl).
Qed.

(** The loop of [attr_list_index] over the written slots. *)
Lemma attr_list_index_from_spec (pre vs : list attr_val)
    (pad : list (option attr_val)) (cnt sz : Z) nm :
  attr_list_index_from
    (mk_attr_list ((Some <$> (pre ++ vs)) ++ pad) cnt sz) nm
    (Z.of_nat (length pre)) (length vs)
  = Some (match index_of_name vs nm with
          | Some k => Z.of_nat (length pre + k)
          | None => ATTR_NOT_FOUND
          end).
Proof.
  revert pre. induction vs as [|a vs IH]; intros pre; simpl; [reflexivity|].
  rewrite Nat2Z.id.
  assert (Hlook : ((Some <$> (pre ++ a :: vs)) ++ pad) !! length pre
                  = Some (Some a)).
  { rewrite lookup_app_l by (rewrite length_fmap, length_app; simpl; lia).
    rewrite list_lookup_fmap, list_lookup_middle by reflexivity.
    reflexivity. }
  rewrite Hlook.
  destruct (String.eqb (name a) nm).
  - f_equal. lia.
  - specialize (IH (pre ++ [a])).
    rewrite <- app_assoc in IH. simpl in IH.
    rewrite length_app in IH. simpl in IH.
    replace (Z.of_nat (length pre) + 1) with (Z.of_nat (length pre + 1)) by lia.
    rewrite IH. destruct (index_of_name vs nm) as [k|]; simpl; [|reflexivity].
    f_equal. lia.
Qed.

Lemma attr_list_index_wf vs (pad : list (option attr_val)) (sz : Z) nm :
  attr_list_index
    (mk_attr_list ((Some <$> vs) ++ pad) (Z.of_nat (length vs)) sz) nm
  = Some (match index_of_name vs nm with
          | Some k => Z.of_nat k
          | None => ATTR_NOT_FOUND
          end).
Proof.
  unfold attr_list_index. simpl count. rewrite Nat2Z.id.
  exact (attr_list_index_from_spec [] vs pad (Z.of_nat (length vs)) sz nm).
Qed.

Lemma attr_list_value_wf vs (pad : list (option attr_val)) (sz : Z) nm :
  Z.of_nat (length vs) <= 16 ->
  attr_list_value
    (mk_attr_list ((Some <$> vs) ++ pad) (Z.of_nat (length vs)) sz) nm
  = Some (default ATTR_NOT_FOUND (lookup_name vs nm)).
Proof.
  intros Hlen. unfold attr_list_value. rewrite attr_list_index_wf.
  destruct (index_of_name vs nm) as [k|] eqn:Hk.
  - pose proof (index_of_name_lt _ _ _ Hk) as Hlt.
    destruct (index_of_name_lookup _ _ _ Hk) as (a & Ha & _ & Hl).
    destruct (Z.eqb_spec (Z.of_nat k) ATTR_NOT_FOUND) as [He|_];
      [unfold ATTR_NOT_FOUND in He; lia|].
    simpl arr. rewrite Nat2Z.id.
    rewrite lookup_app_l by (rewrite length_fmap; lia).
    rewrite list_lookup_fmap, Ha, Hl. reflexivity.
  - rewrite (index_of_name_none _ _ Hk). reflexivity.
Qed.

Lemma lookup_name_insert_same vs nm (k : nat) (a : attr_val) (v : Z) :
  index_of_name vs nm = Some k -> vs !! k = Some a ->
  lookup_name (<[k := mk_attr_val (name a) v]> vs) nm = Some v.
Proof.
  revert k. induction vs as [|b vs IH]; intros k; simpl; [discriminate|].
  destruct (String.eqb (name b) nm) eqn:Hb.
  - intros [= <-] [= <-]. simpl. rewrite Hb. reflexivity.
  - destruct (index_of_name vs nm) as [k'|]; simpl; [|discriminate].
    intros [= <-] Hl. simpl in *. rewrite Hb. apply IH; [reflexivity|exact Hl].
Qed.

Lemma lookup_name_insert_other vs nm nm' (k : nat) (a : attr_val) (v : Z) :
  nm' <> nm -> vs !! k = Some a -> name a = nm ->
  lookup_name (<[k := mk_attr_val (name a) v]> vs) nm' = lookup_name vs nm'.
Proof.
  intros Hne. revert k. induction vs as [|b vs IH]; intros k; [discriminate|].
  destruct k as [|k]; simpl.
  - intros [= <-] Hn. rewrite Hn.
    destruct (String.eqb_spec nm nm'); [congruence|reflexivity].
  - intros Hl Hn. rewrite (IH k Hl Hn). reflexivity.
Qed.

Lemma lookup_name_snoc vs nm nm' (v : Z) :
  lookup_name (vs ++ [mk_attr_val nm v]) nm'
  = match lookup_name vs nm' with
    | Some x => Some x
    | None => if String.eqb nm nm' then Some v else None
    end.
Proof.
  induction vs as [|a vs IH]; simpl; [reflexivity|].
  destruct (String.eqb (name a) nm'); [reflexivity|exact IH].
Qed.

(** X22.  Set then get.  On a list as [attr_list_set] leaves it, with
    the name already present or fewer than 16 names stored,
    [attr_list_set] returns the value, [attr_list_value] of that name
    then gives the value back, and every other name keeps the value it
    had, [ATTR_NOT_FOUND] included. *)
Theorem attr_list_set_then_value l nm (v : Z) :
  attr_list_wf l ->
  count l < 16 \/ attr_list_index l nm <> Some ATTR_NOT_FOUND ->
  exists l',
    attr_list_set l nm v = Some (v, l')
    /\ attr_list_wf l'
    /\ attr_list_value l' nm = Some v
    /\ forall nm', nm' <> nm -> attr_list_value l' nm' = attr_list_value l nm'.
Proof.
  intros (vs & Hcount & Harr & Hlen & Hsize) Hroom.
  destruct l as [ar cnt sz]. simpl in *. subst cnt ar.
  assert (Hlen16 : Z.of_nat (length vs) <= 16) by lia.
  unfold attr_list_set. rewrite attr_list_index_wf in *.
  destruct (index_of_name vs nm) as [k|] eqn:Hk.
  - (* found *)
    pose proof (index_of_name_lt _ _ _ Hk) as Hlt.
    destruct (index_of_name_lookup _ _ _ Hk) as (a & Ha & Hn & _).
    destruct (Z.eqb_spec (Z.of_nat k) ATTR_NOT_FOUND) as [He|_];
      [unfold ATTR_NOT_FOUND in He; lia|].
    simpl negb. cbv iota. simpl arr. rewrite Nat2Z.id.
    rewrite lookup_app_l by (rewrite length_fmap; lia).
    rewrite list_lookup_fmap, Ha. simpl.
    eexists. split; [reflexivity|].
    assert (Harr' : <[k := Some (mk_attr_val (name a) v)]>
                      ((Some <$> vs)
                       ++ replicate (Z.to_nat sz - length vs) None)
                    = (Some <$> <[k := mk_attr_val (name a) v]> vs)
                      ++ replicate (Z.to_nat sz - length vs) None).
    { rewrite insert_app_l by (rewrite length_fmap; lia).
      rewrite list_fmap_insert. reflexivity. }
    rewrite Harr'.
    assert (Hl' : length (<[k := mk_attr_val (name a) v]> vs) = length vs)
      by apply length_insert.
    split_and!.
    + exists (<[k := mk_attr_val (name a) v]> vs). simpl.
      rewrite Hl'. split_and!; try reflexivity; assumption.
    + rewrite <- Hl' at 2. rewrite attr_list_value_wf by (rewrite Hl'; lia).
      rewrite (lookup_name_insert_same _ _ _ _ _ Hk Ha). reflexivity.
    + intros nm' Hne.
      rewrite <- Hl' at 2. rewrite !attr_list_value_wf by (rewrite ?Hl'; lia).
      rewrite (lookup_name_insert_other _ _ _ _ _ _ Hne Ha Hn). reflexivity.
  - (* a new name *)
    destruct Hroom as [Hroom|Hroom]; [|congruence].
    rewrite Z.eqb_refl. simpl negb. cbv iota zeta.
    set (pad := replicate (15 - length vs) (@None attr_val)).
    assert (Hl1 : (if size (mk_attr_list
                              ((Some <$> vs)
                               ++ replicate (Z.to_nat sz - length vs) None)
                              (Z.of_nat (length vs)) sz) =? 0
                   then mk_attr_list
                          (replicate (Z.to_nat ATTR_LIST_INITIAL_SIZE) None)
                          (count (mk_attr_list
                                    ((Some <$> vs)
                                     ++ replicate (Z.to_nat sz - length vs) None)
                                    (Z.of_nat (length vs)) sz))
                          ATTR_LIST_INITIAL_SIZE
                   else mk_attr_list
                          ((Some <$> vs)
                           ++ replicate (Z.to_nat sz - length vs) None)
                          (Z.of_nat (length vs)) sz)
                  = mk_attr_list ((Some <$> vs) ++ None :: pad)
                      (Z.of_nat (length vs)) 16).
    { unfold pad. simpl size. simpl count.
      destruct Hsize as [-> | ->]; simpl.
      - destruct vs; simpl in *; [reflexivity|lia].
      - change (Z.to_nat 16) with 16%nat.
        replace (16 - length vs)%nat with (S (15 - length vs)) by lia.
        reflexivity. }
    rewrite Hl1. simpl count. simpl size. simpl arr.
    destruct (Z.eqb_spec (Z.of_nat (length vs)) 16) as [He|_]; [lia|].
    simpl count. simpl arr. simpl size.
    assert (Hal : length ((Some <$> vs) ++ None :: pad) = 16%nat).
    { rewrite length_app, length_fmap. simpl. unfold pad.
      rewrite length_replicate. lia. }
    rewrite Hal.
    destruct (Z.ltb_spec (Z.of_nat (length vs)) (Z.of_nat 16)) as [_|Hge];
      [|lia].
    eexists. split; [reflexivity|].
    assert (Harr' : <[Z.to_nat (Z.of_nat (length vs)) :=
                        Some (mk_attr_val nm v)]>
                      ((Some <$> vs) ++ None :: pad)
                    = (Some <$> (vs ++ [mk_attr_val nm v])) ++ pad).
    { rewrite Nat2Z.id.
      rewrite insert_app_r_alt by (rewrite length_fmap; lia).
      rewrite length_fmap, Nat.sub_diag. simpl.
      rewrite fmap_app, <- app_assoc. reflexivity. }
    rewrite Harr'.
    assert (Hcnt : to_uint (Z.of_nat (length vs) + 1)
                   = Z.of_nat (length (vs ++ [mk_attr_val nm v]))).
    { rewrite length_app. simpl. unfold to_uint.
      rewrite Z.mod_small by lia. lia. }
    rewrite Hcnt.
    assert (Hl' : Z.of_nat (length (vs ++ [mk_attr_val nm v])) <= 16)
      by (rewrite length_app; simpl; lia).
    assert (Hold : forall nm',
              attr_list_value
                (mk_attr_list
                   ((Some <$> vs) ++ replicate (Z.to_nat sz - length vs) None)
                   (Z.of_nat (length vs)) sz) nm'
              = Some (default ATTR_NOT_FOUND (lookup_name vs nm')))
      by (intros nm'; apply attr_list_value_wf; lia).
    split_and!.
    + exists (vs ++ [mk_attr_val nm v]). simpl.
      split_and!; [reflexivity| |exact Hl'|right; reflexivity].
      f_equal. unfold pad. f_equal. rewrite length_app. simpl. lia.
    + rewrite attr_list_value_wf by exact Hl'.
      rewrite lookup_name_snoc, (index_of_name_none _ _ Hk).
      rewrite String.eqb_refl. reflexivity.
    + intros nm' Hne. rewrite Hold, attr_list_value_wf by exact Hl'.
      rewrite lookup_name_snoc.
      destruct (lookup_name vs nm'); [reflexivity|].
      destruct (String.eqb_spec nm nm'); [congruence|reflexivity].
Qed.

Lemma attr_list_set_then_value_witness :
  attr_list_wf sample_two_names
  /\ exists l',
       attr_list_set sample_two_names "u_projection" 7 = Some (7, l')
       /\ attr_list_value l' "u_projection" = Some 7
       /\ attr_list_value l' "u_view" = Some 4.
Proof.
  assert (Hwf : attr_list_wf sample_two_names).
  { exists [mk_attr_val "u_model" 3; mk_attr_val "u_view" 4].
    split_and!; [reflexivity|reflexivity|simpl; lia|right; reflexivity]. }
  assert (Hroom : count sample_two_names < 16
                  \/ attr_list_index sample_two_names "u_projection"
                     <> Some ATTR_NOT_FOUND) by (left; simpl; lia).
  destruct (attr_list_set_then_value sample_two_names "u_projection" 7
              Hwf Hroom) as (l' & Hset & _ & Hval & Hother).
  split; [exact Hwf|]. exists l'. split_and!; [exact Hset|exact Hval|].
  rewrite (Hother "u_view"); [vm_compute; reflexivity|discriminate].
Defined.

(** X23.  The seventeenth name.  When 16 names are stored and a name
    that is not among them is set, [attr_list_set] doubles [count]
    instead of [size], leaves the block at 16 slots and writes slot 32:
    a write outside the block. *)
Theorem attr_list_set_seventeenth_name l nm (v : Z) :
  attr_list_wf l ->
  count l = 16 ->
  attr_list_index l nm = Some ATTR_NOT_FOUND ->
  attr_list_set l nm v = None.
Proof.
  intros (vs & Hcount & Harr & Hlen & Hsize) H16 Hidx.
  unfold attr_list_set. rewrite Hidx.
  rewrite Z.eqb_refl. simpl negb. cbv iota zeta.
  assert (Hsz : size l = 16) by lia.
  destruct l as [ar cnt sz]. simpl in *. subst cnt sz.
  rewrite H16. simpl. unfold realloc. rewrite length_resize. reflexivity.
Qed.

Lemma attr_list_set_seventeenth_name_witness :
  attr_list_wf sample_full_list
  /\ count sample_full_list = 16
  /\ attr_list_index sample_full_list "q" = Some ATTR_NOT_FOUND
  /\ attr_list_set sample_full_list "q" 16 = None.
Proof.
  assert (Hwf : attr_list_wf sample_full_list).
  { exists (imap (fun i nm => mk_attr_val nm (Z.of_nat i)) sample_names).
    split_and!; [reflexivity|reflexivity|simpl; lia|right; reflexivity]. }
  assert (H16 : count sample_full_list = 16) by reflexivity.
  assert (Hidx : attr_list_index sample_full_list "q" = Some ATTR_NOT_FOUND)
    by (vm_compute; reflexivity).
  exact (conj Hwf (conj H16 (conj Hidx
           (attr_list_set_seventeenth_name sample_full_list "q" 16
              Hwf H16 Hidx)))).
Defined.

End AttributeLists.

Lemma to_ulong_exact (z : Z) : 0 <= z < 2 ^ 64 -> to_ulong z = z.
Proof. unfold to_ulong. intros Hz. apply Z.mod_small. exact Hz. Qed.

(** ** Array buffers *)

Section ArrayBuffers.

Import ArrayBuffer.

Lemma to_uint_small (z : Z) : 0 <= z < 2 ^ 32 -> to_uint z = z.
Proof. unfold to_uint. intros Hz. apply Z.mod_small. exact Hz. Qed.

Lemma take_insert_snoc {A : Type} (l : list A) (n : nat) (x : A) :
  (n < length l)%nat -> take (S n) (<[n := x]> l) = take n l ++ [x].
Proof.
  intros Hn.
  rewrite (take_S_r (<[n := x]> l) n x) by (apply list_lookup_insert_eq; exact Hn).
  rewrite take_insert_ge by lia. reflexivity.
Qed.

(** X24.  [array_buffer_add] appends.  On a buffer whose block has
    [capacity] elements of which [count] are in use, with fewer than
    2^32 elements, the call returns the index [count] and leaves a
    buffer that holds the old elements followed by the new one; the
    capacity doubles exactly when the buffer was full. *)
Theorem array_buffer_add_appends {A : Type} (sb : array_buffer A) (x : A) :
  array_buffer_wf sb ->
  count sb < 2 ^ 32 ->
  exists sb',
    array_buffer_add sb x = Done (count sb, sb')
    /\ array_buffer_wf sb'
    /\ contents sb' = contents sb ++ [Some x]
    /\ count sb' = count sb + 1
    /\ stride sb' = stride sb
    /\ capacity sb'
       = (if count sb =? capacity sb then 2 * capacity sb else capacity sb).
Proof.
  intros (Hcap & Hlen & Hcnt & _) Hlt.
  destruct sb as [st cap cnt dat]. simpl in *.
  unfold array_buffer_add. simpl.
  assert (Hidx : to_uint cnt = cnt) by (apply to_uint_small; lia).
  assert (Hcnt1 : to_ulong (cnt + 1) = cnt + 1) by (apply to_ulong_exact; lia).
  destruct (Z.leb_spec cap cnt) as [Hfull|Hroom].
  - assert (cnt = cap) by lia. subst cnt.
    rewrite Z.eqb_refl. simpl.
    rewrite Z.shiftl_mul_pow2 by lia. change (2 ^ 1) with 2.
    rewrite (to_ulong_exact (cap * 2)) by lia.
    rewrite Hidx, Hcnt1. unfold realloc. rewrite length_resize.
    destruct (Z.ltb_spec cap (Z.of_nat (Z.to_nat (cap * 2)))) as [_|Hge]; [|lia].
    eexists. split; [reflexivity|].
    unfold array_buffer_wf, contents. simpl.
    rewrite length_insert, length_resize.
    split_and!; try lia.
    replace (Z.to_nat (cap + 1)) with (S (Z.to_nat cap)) by lia.
    rewrite take_insert_snoc by (rewrite length_resize; lia).
    f_equal. rewrite take_resize_le by lia.
    rewrite resize_le by lia. reflexivity.
  - destruct (Z.eqb_spec cnt cap) as [He|_]; [lia|]. simpl.
    rewrite Hidx, Hcnt1.
    destruct (Z.ltb_spec cnt (Z.of_nat (length dat))) as [_|Hge]; [|lia].
    eexists. split; [reflexivity|].
    unfold array_buffer_wf, contents. simpl.
    rewrite length_insert.
    split_and!; try lia.
    replace (Z.to_nat (cnt + 1)) with (S (Z.to_nat cnt)) by lia.
    apply take_insert_snoc. lia.
Qed.

Lemma array_buffer_add_appends_witness :
  array_buffer_wf sample_full_buffer
  /\ count sample_full_buffer < 2 ^ 32
  /\ exists sb',
       array_buffer_add sample_full_buffer 12 = Done (2, sb')
       /\ contents sb' = [Some 10; Some 11; Some 12]
       /\ capacity sb' = 4.
Proof.
  assert (Hwf : array_buffer_wf sample_full_buffer)
    by (unfold array_buffer_wf; simpl; lia).
  assert (Hlt : count sample_full_buffer < 2 ^ 32) by (simpl; lia).
  destruct (array_buffer_add_appends sample_full_buffer 12 Hwf Hlt)
    as (sb' & Hadd & _ & Hc & _ & _ & Hcap).
  exact (conj Hwf (conj Hlt
           (ex_intro _ sb' (conj Hadd (conj Hc Hcap))))).
Defined.

(** X25.  A buffer of capacity 0 cannot grow: doubling 0 gives 0, the
    block stays empty, and [array_buffer_add] writes outside it. *)
Theorem array_buffer_add_zero_capacity {A : Type} (sb : array_buffer A)
    (x : A) :
  capacity sb = 0 -> data sb = [] ->
  array_buffer_add sb x = Undefined.
Proof.
  intros Hcap Hdat. destruct sb as [st cap cnt dat]. simpl in *. subst.
  unfold array_buffer_add. simpl.
  assert (Hz : to_ulong (Z.shiftl 0 1) = 0) by reflexivity.
  pose proof (Z.mod_pos_bound cnt (2 ^ 32) ltac:(lia)) as Hpos.
  fold (to_uint cnt) in Hpos.
  destruct (0 <=? cnt); simpl; rewrite ?Hz; unfold realloc; simpl;
    change (Z.of_nat 0) with 0;
    (destruct (Z.ltb_spec (to_uint cnt) 0) as [Hlt|_]; [lia|reflexivity]).
Qed.

Lemma array_buffer_add_zero_capacity_witness :
  capacity (array_buffer_init (A := Z) 4 0) = 0
  /\ array_buffer_add (array_buffer_init 4 0) 7 = Undefined.
Proof.
  exact (conj eq_refl
           (array_buffer_add_zero_capacity (array_buffer_init 4 0) 7
              eq_refl eq_refl)).
Defined.


(** *** Index buffers *)

Lemma grow_capacity_enough (fuel : nat) (cap need : Z) :
  0 < cap <= 2 ^ 32 -> need <= 2 ^ 32 ->
  (0 < fuel)%nat -> need <= cap * 2 ^ Z.of_nat fuel ->
  exists c,
    grow_capacity fuel cap need = Done c
    /\ need <= c <= 2 ^ 33 /\ cap < c.
Proof.
  revert cap. induction fuel as [|fuel IH]; intros cap Hcap Hneed Hf Hpow;
    [lia|].
  simpl. rewrite Z.shiftl_mul_pow2 by lia. change (2 ^ 1) with 2.
  rewrite (to_ulong_exact (cap * 2)) by lia.
  destruct (Z.ltb_spec (cap * 2) need) as [Hlt|Hge].
  - rewrite Nat2Z.inj_succ, Z.pow_succ_r in Hpow by lia.
    destruct fuel as [|fuel']; [simpl in Hpow; lia|].
    destruct (IH (cap * 2) ltac:(lia) Hneed ltac:(lia) ltac:(lia))
      as (c & Hc & Hb & Hlt').
    exists c. split_and!; [exact Hc|lia|lia|lia].
  - exists (cap * 2). split_and!; [reflexivity|lia|lia|lia].
Qed.

Lemma index_buffer_store_spec (n : nat) :
  forall (ib : index_buffer) (src : list Z) (i : nat) (addend : Z),
    0 <= count ib ->
    count ib + Z.of_nat n <= Z.of_nat (length (data ib)) ->
    count ib + Z.of_nat n < 2 ^ 64 ->
    (i + n <= length src)%nat ->
    exists ib',
      index_buffer_store ib src i n addend = Done ib'
      /\ count ib' = count ib + Z.of_nat n
      /\ stride ib' = stride ib
      /\ capacity ib' = capacity ib
      /\ length (data ib') = length (data ib)
      /\ contents ib'
         = contents ib
           ++ ((fun x => Some (to_uint (x + addend))) <$> take n (drop i src)).
Proof.
  induction n as [|n IH]; intros ib src i addend Hc Hroom Hfit Hsrc.
  - exists ib. simpl. rewrite app_nil_r.
    split_and!; try reflexivity. lia.
  - simpl index_buffer_store.
    destruct (lookup_lt_is_Some_2 src i ltac:(lia)) as [x Hx].
    rewrite Hx.
    destruct (Z.ltb_spec (count ib) (Z.of_nat (length (data ib)))) as [Hlt|Hge];
      [|lia].
    rewrite (to_ulong_exact (count ib + 1)) by lia.
    set (ib1 := mk_array_buffer (stride ib) (capacity ib) (count ib + 1)
                  (<[Z.to_nat (count ib) := Some (to_uint (x + addend))]>
                     (data ib))).
    destruct (IH ib1 src (S i) addend) as (ib' & Hst & Hcnt & Hs & Hcap & Hlen & Hcont).
    + simpl. lia.
    + simpl. rewrite length_insert. lia.
    + simpl. lia.
    + lia.
    + exists ib'. simpl in *. rewrite length_insert in Hlen.
      split_and!; try assumption; try lia.
      rewrite Hcont. unfold contents at 1. simpl.
      replace (Z.to_nat (count ib + 1)) with (S (Z.to_nat (count ib))) by lia.
      rewrite take_insert_snoc by lia.
      rewrite (drop_S src x i Hx). simpl.
      rewrite <- app_assoc. reflexivity.
Qed.

(** X26.  [index_buffer_add] appends.  The [count_] indices read from
    [data_], each with [addend] added in [unsigned int], follow the
    indices the buffer held; the capacity is doubled until they fit (the
    doubling loop ends), and nothing is written outside the block. *)
Theorem index_buffer_add_appends (fuel : nat) (ib : index_buffer)
    (data_ : list Z) (count_ addend : Z) :
  array_buffer_wf ib ->
  0 <= count_ -> count ib + count_ <= 2 ^ 32 ->
  count_ <= Z.of_nat (length data_) ->
  (32 <= fuel)%nat ->
  exists ib',
    index_buffer_add fuel ib data_ count_ addend = Done ib'
    /\ array_buffer_wf ib'
    /\ contents ib'
       = contents ib
         ++ ((fun x => Some (to_uint (x + addend)))
               <$> take (Z.to_nat count_) data_)
    /\ count ib' = count ib + count_
    /\ stride ib' = stride ib
    /\ capacity ib <= capacity ib'.
Proof.
  intros (Hcap & Hlen & Hcnt & Hc32) Hn Hfit Hsrc Hfuel.
  unfold index_buffer_add.
  rewrite (to_ulong_exact (count ib + count_)) by lia.
  assert (Hgrown : exists ib1,
            (if capacity ib <=? count ib + count_
             then outcome_bind
                    (grow_capacity fuel (capacity ib) (count ib + count_))
                    (fun capacity' =>
                       Done (mk_array_buffer (stride ib) capacity' (count ib)
                               (realloc (data ib) capacity')))
             else Done ib) = Done ib1
            /\ count ib1 = count ib /\ stride ib1 = stride ib
            /\ capacity ib <= capacity ib1 <= 2 ^ 33
            /\ count ib + count_ <= capacity ib1
            /\ Z.of_nat (length (data ib1)) = capacity ib1
            /\ contents ib1 = contents ib).
  { destruct (Z.leb_spec (capacity ib) (count ib + count_)) as [Hfull|Hroom].
    - destruct (grow_capacity_enough fuel (capacity ib) (count ib + count_))
        as (c & Hg & Hb & Hlt); try lia.
      { apply Z.le_trans with (1 * 2 ^ 32); [lia|].
        apply Z.mul_le_mono_nonneg; try lia.
        apply Z.pow_le_mono_r; lia. }
      rewrite Hg. simpl. eexists. split; [reflexivity|]. simpl.
      unfold realloc. rewrite length_resize.
      split_and!; try reflexivity; try lia.
      unfold contents. simpl.
      rewrite take_resize_le by lia. rewrite resize_le by lia. reflexivity.
    - exists ib. split_and!; try reflexivity; lia. }
  destruct Hgrown as (ib1 & -> & Hc1 & Hs1 & Hcap1 & Hfit1 & Hlen1 & Hcont1).
  simpl outcome_bind.
  destruct (index_buffer_store_spec (Z.to_nat count_) ib1 data_ O addend)
    as (ib' & Hst & Hcnt' & Hs' & Hcap' & Hlen' & Hcont'); try lia.
  exists ib'. rewrite Hst.
  split_and!; try reflexivity.
  - unfold array_buffer_wf. rewrite Hcap', Hlen', Hcnt'. lia.
  - rewrite Hcont', Hcont1. rewrite drop_0. reflexivity.
  - lia.
  - congruence.
  - lia.
Qed.

Lemma index_buffer_add_appends_witness :
  array_buffer_wf sample_index_buffer
  /\ exists ib',
       index_buffer_add 32 sample_index_buffer quads 6 4 = Done ib'
       /\ contents ib'
          = [Some 4; Some 5; Some 6; Some 4; Some 6; Some 7]
       /\ count ib' = 6.
Proof.
  assert (Hwf : array_buffer_wf sample_index_buffer)
    by (unfold array_buffer_wf; split_and!; vm_compute; congruence).
  assert (H0 : 0 <= 6) by lia.
  assert (H1 : count sample_index_buffer + 6 <= 2 ^ 32)
    by (vm_compute; congruence).
  assert (H2 : 6 <= Z.of_nat (length quads)) by (vm_compute; congruence).
  assert (H3 : (32 <= 32)%nat) by lia.
  destruct (index_buffer_add_appends 32 sample_index_buffer quads 6 4
              Hwf H0 H1 H2 H3) as (ib' & Hadd & _ & Hc & Hn & _).
  split; [exact Hwf|]. exists ib'.
  exact (conj Hadd (conj Hc Hn)).
Defined.


(** *** Primitives *)

Lemma bind_fmap_list {X Y W : Type} (g : X -> Y) (f : Y -> list W)
    (l : list X) :
  (g <$> l) ≫= f = l ≫= (fun x => f (g x)).
Proof.
  induction l as [|x l IH]; [reflexivity|].
  rewrite fmap_cons, !bind_cons, IH. reflexivity.
Qed.

Lemma bind_ext_list {X W : Type} (f g : X -> list W) (l : list X) :
  (forall x, f x = g x) -> l ≫= f = l ≫= g.
Proof.
  intros Hfg. induction l as [|x l IH]; [reflexivity|].
  rewrite !bind_cons, IH, Hfg. reflexivity.
Qed.

Lemma pattern_indices_S (pattern : list Z) (step : Z) (n : nat) (addend : Z) :
  pattern_indices pattern step (S n) addend
  = ((fun x => addend + x) <$> pattern)
    ++ pattern_indices pattern step n (addend + step).
Proof.
  unfold pattern_indices.
  change (seq 0 (S n)) with (0%nat :: seq 1 n).
  rewrite <- fmap_S_seq, bind_cons. f_equal.
  - apply list_fmap_ext. intros _ x _. lia.
  - rewrite bind_fmap_list. apply bind_ext_list. intros k.
    apply list_fmap_ext. intros _ x _. lia.
Qed.

Lemma add_pattern_spec (fuel : nat) (pattern : list Z) (step m : Z) (n : nat) :
  forall (ib : index_buffer) (addend : Z),
    array_buffer_wf ib ->
    0 <= step -> 0 <= addend -> 0 <= m ->
    Forall (fun x => 0 <= x <= m) pattern ->
    count ib + Z.of_nat (length pattern) * Z.of_nat n <= 2 ^ 32 ->
    addend + step * Z.of_nat n + m < 2 ^ 32 ->
    (32 <= fuel)%nat ->
    exists ib',
      add_pattern fuel ib pattern step n addend = Done ib'
      /\ array_buffer_wf ib'
      /\ contents ib'
         = contents ib ++ (Some <$> pattern_indices pattern step n addend)
      /\ count ib' = count ib + Z.of_nat (length pattern) * Z.of_nat n
      /\ stride ib' = stride ib.
Proof.
  induction n as [|n IH]; intros ib addend Hwf Hstep Hadd Hm Hpat Hfit Hmax Hfuel.
  - exists ib. simpl. rewrite app_nil_r.
    split_and!; try reflexivity; [exact Hwf|lia].
  - simpl add_pattern.
    destruct (index_buffer_add_appends fuel ib pattern
                (Z.of_nat (length pattern)) addend Hwf)
      as (ib1 & Hadd1 & Hwf1 & Hc1 & Hn1 & Hs1 & _); try lia.
    rewrite Hadd1. simpl outcome_bind.
    assert (Hnext : 0 <= addend + step < 2 ^ 32) by nia.
    rewrite (to_uint_small (addend + step)) by exact Hnext.
    assert (Hfit' : count ib1 + Z.of_nat (length pattern) * Z.of_nat n
                    <= 2 ^ 32) by (rewrite Hn1; nia).
    assert (Hmax' : addend + step + step * Z.of_nat n + m < 2 ^ 32) by nia.
    destruct (IH ib1 (addend + step) Hwf1 Hstep ltac:(lia) Hm Hpat Hfit' Hmax'
                Hfuel)
      as (ib' & Hadd' & Hwf' & Hc' & Hn' & Hs').
    exists ib'. split_and!; [exact Hadd'|exact Hwf'| |lia|congruence].
    rewrite Hc', Hc1, pattern_indices_S, fmap_app, <- app_assoc.
    f_equal. f_equal.
    rewrite Nat2Z.id, firstn_all, <- list_fmap_compose.
    apply Forall_fmap_ext_1.
    assert (Hsn : 0 <= step * Z.of_nat (S n))
      by (apply Z.mul_nonneg_nonneg; lia).
    eapply Forall_impl; [exact Hpat|]. intros x Hx. simpl in *.
    rewrite to_uint_small by lia. f_equal. lia.
Qed.

Lemma pattern_indices_bounds (pattern : list Z) (step m : Z) (n : nat)
    (addend : Z) :
  0 <= step -> Forall (fun x => 0 <= x <= m) pattern ->
  Forall (fun i => addend <= i <= addend + step * (Z.of_nat n - 1) + m)
    (pattern_indices pattern step n addend).
Proof.
  intros Hstep Hpat. unfold pattern_indices.
  apply Forall_bind, Forall_forall. intros k Hk.
  apply elem_of_seq in Hk.
  apply Forall_fmap. eapply Forall_impl; [exact Hpat|].
  intros x Hx. simpl in *.
  assert (0 <= step * Z.of_nat k) by (apply Z.mul_nonneg_nonneg; lia).
  assert (step * Z.of_nat k <= step * (Z.of_nat n - 1))
    by (apply Z.mul_le_mono_nonneg_l; lia).
  lia.
Qed.

(** X27.  Quads.  [index_buffer_add_primitves] with
    [primitive_topology_quads] appends six indices for each of the
    [count_] quads: the two triangles (0, 1, 2) and (0, 2, 3) of the
    quad's own four vertices.  All the indices lie in
    [addend .. addend + 4 * count_ - 1]. *)
Theorem index_buffer_add_quads (fuel : nat) (ib : index_buffer)
    (count_ addend : Z) :
  array_buffer_wf ib ->
  0 <= count_ -> 0 <= addend ->
  count ib + 6 * count_ <= 2 ^ 32 ->
  addend + 4 * count_ + 3 < 2 ^ 32 ->
  (32 <= fuel)%nat ->
  exists ib',
    index_buffer_add_primitves fuel ib primitive_topology_quads count_ addend
    = Done ib'
    /\ array_buffer_wf ib'
    /\ contents ib'
       = contents ib
         ++ (Some <$> pattern_indices [0; 1; 2; 0; 2; 3] 4 (Z.to_nat count_)
                        addend)
    /\ count ib' = count ib + 6 * count_
    /\ Forall (fun i => addend <= i < addend + 4 * count_)
         (pattern_indices [0; 1; 2; 0; 2; 3] 4 (Z.to_nat count_) addend).
Proof.
  intros Hwf Hn Hadd Hfit Hmax Hfuel.
  assert (Hpat : Forall (fun x => 0 <= x <= 3) quads)
    by (unfold quads; repeat constructor; lia).
  unfold index_buffer_add_primitves.
  destruct (add_pattern_spec fuel quads 4 3 (Z.to_nat count_) ib addend Hwf)
    as (ib' & Hadd' & Hwf' & Hc' & Hn' & _); try lia; try exact Hpat.
  { simpl length. lia. }
  exists ib'. split_and!; [exact Hadd'|exact Hwf'|exact Hc'| |].
  - rewrite Hn'. simpl length. lia.
  - pose proof (pattern_indices_bounds quads 4 3 (Z.to_nat count_) addend
                  ltac:(lia) Hpat) as Hb.
    eapply Forall_impl; [exact Hb|]. intros i Hi. simpl in Hi. lia.
Qed.

Lemma index_buffer_add_quads_witness :
  array_buffer_wf sample_index_buffer
  /\ exists ib',
       index_buffer_add_primitves 32 sample_index_buffer
         primitive_topology_quads 2 0 = Done ib'
       /\ contents ib'
          = Some <$> [0; 1; 2; 0; 2; 3; 4; 5; 6; 4; 6; 7]
       /\ count ib' = 12.
Proof.
  assert (Hwf : array_buffer_wf sample_index_buffer)
    by (unfold array_buffer_wf; split_and!; vm_compute; congruence).
  assert (H0 : 0 <= 2) by lia.
  assert (H1 : 0 <= 0) by lia.
  assert (H2 : count sample_index_buffer + 6 * 2 <= 2 ^ 32)
    by (vm_compute; congruence).
  assert (H3 : 0 + 4 * 2 + 3 < 2 ^ 32) by lia.
  assert (H4 : (32 <= 32)%nat) by lia.
  destruct (index_buffer_add_quads 32 sample_index_buffer 2 0
              Hwf H0 H1 H2 H3 H4) as (ib' & Hadd & _ & Hc & Hn & _).
  split; [exact Hwf|]. exists ib'.
  exact (conj Hadd (conj Hc Hn)).
Defined.

Lemma pattern_indices_tri (n : nat) (addend : Z) :
  pattern_indices tri 3 n addend
  = (fun k => addend + Z.of_nat k) <$> seq 0 (3 * n).
Proof.
  revert addend. induction n as [|n IH]; intros addend; [reflexivity|].
  rewrite pattern_indices_S, IH.
  replace (3 * S n)%nat with (3 + 3 * n)%nat by lia.
  rewrite seq_app, fmap_app. f_equal.
  simpl seq at 2. rewrite <- (fmap_add_seq 3 0), <- list_fmap_compose.
  apply list_fmap_ext. intros _ k _. simpl. lia.
Qed.

(** X28.  Triangles.  With [primitive_topology_triangles] the indices
    appended for [count_] triangles are the [3 * count_] consecutive
    numbers from [addend] on. *)
Theorem index_buffer_add_triangles (fuel : nat) (ib : index_buffer)
    (count_ addend : Z) :
  array_buffer_wf ib ->
  0 <= count_ -> 0 <= addend ->
  count ib + 3 * count_ <= 2 ^ 32 ->
  addend + 3 * count_ + 2 < 2 ^ 32 ->
  (32 <= fuel)%nat ->
  exists ib',
    index_buffer_add_primitves fuel ib primitive_topology_triangles count_
      addend = Done ib'
    /\ array_buffer_wf ib'
    /\ contents ib'
       = contents ib
         ++ ((fun k => Some (addend + Z.of_nat k))
               <$> seq 0 (3 * Z.to_nat count_))
    /\ count ib' = count ib + 3 * count_.
Proof.
  intros Hwf Hn Hadd Hfit Hmax Hfuel.
  assert (Hpat : Forall (fun x => 0 <= x <= 2) tri)
    by (unfold tri; repeat constructor; lia).
  unfold index_buffer_add_primitves.
  destruct (add_pattern_spec fuel tri 3 2 (Z.to_nat count_) ib addend Hwf)
    as (ib' & Hadd' & Hwf' & Hc' & Hn' & _); try lia; try exact Hpat.
  { simpl length. lia. }
  exists ib'. split_and!; [exact Hadd'|exact Hwf'| |].
  - rewrite Hc', pattern_indices_tri, <- list_fmap_compose. reflexivity.
  - rewrite Hn'. simpl length. lia.
Qed.

Lemma index_buffer_add_triangles_witness :
  array_buffer_wf sample_index_buffer
  /\ exists ib',
       index_buffer_add_primitves 32 sample_index_buffer
         primitive_topology_triangles 2 10 = Done ib'
       /\ contents ib' = Some <$> [10; 11; 12; 13; 14; 15].
Proof.
  assert (Hwf : array_buffer_wf sample_index_buffer)
    by (unfold array_buffer_wf; split_and!; vm_compute; congruence).
  assert (H0 : 0 <= 2) by lia.
  assert (H1 : 0 <= 10) by lia.
  assert (H2 : count sample_index_buffer + 3 * 2 <= 2 ^ 32)
    by (vm_compute; congruence).
  assert (H3 : 10 + 3 * 2 + 2 < 2 ^ 32) by lia.
  assert (H4 : (32 <= 32)%nat) by lia.
  destruct (index_buffer_add_triangles 32 sample_index_buffer 2 10
              Hwf H0 H1 H2 H3 H4) as (ib' & Hadd & _ & Hc & _).
  split; [exact Hwf|]. exists ib'.
  exact (conj Hadd Hc).
Defined.

End ArrayBuffers.


(** ** The cube *)

Section Cube.

Import ArrayBuffer Model.

Lemma outcome_bind_Done {X Y : Type} (a : X) (k : X -> outcome Y) :
  outcome_bind (Done a) k = k a.
Proof. reflexivity. Qed.

Lemma vertex_buffer_add_all_spec (vs : list vertex) :
  forall vb_ : vertex_buffer,
    array_buffer_wf vb_ ->
    count vb_ + Z.of_nat (length vs) <= 2 ^ 32 ->
    exists vb',
      vertex_buffer_add_all vb_ vs = Done vb'
      /\ array_buffer_wf vb'
      /\ contents vb' = contents vb_ ++ (Some <$> vs)
      /\ count vb' = count vb_ + Z.of_nat (length vs)
      /\ capacity vb' = capacity_after (capacity vb_) (count vb_) (length vs).
Proof.
  induction vs as [|v vs IH]; intros vb_ Hwf Hfit.
  - exists vb_. simpl. rewrite app_nil_r.
    split_and!; try reflexivity; [exact Hwf|lia].
  - simpl length in Hfit.
    destruct (array_buffer_add_appends vb_ v Hwf ltac:(lia))
      as (vb1 & Hadd & Hwf1 & Hc1 & Hn1 & _ & Hcap1).
    simpl vertex_buffer_add_all. rewrite Hadd, outcome_bind_Done.
    change ((count vb_, vb1).2) with vb1.
    destruct (IH vb1 Hwf1 ltac:(lia)) as (vb' & Hall & Hwf' & Hc' & Hn' & Hcap').
    exists vb'. split_and!; [exact Hall|exact Hwf'| | |].
    + rewrite Hc', Hc1, <- app_assoc. reflexivity.
    + simpl length. lia.
    + simpl. rewrite Hcap', Hcap1, Hn1. reflexivity.
Qed.

Lemma length_cube_vertices (s : F32.float) (col_ : vec4f) :
  length (cube_vertices s col_) = 24%nat.
Proof. reflexivity. Qed.

(** X29.  The cube is a consistent mesh.  On the buffers that
    [model_object_init] makes, [model_object_cube] stores 24 vertices
    (the vertex buffer grows once, from 16 to 32 elements) and 36
    indices: for each of the six faces the triangles (0, 1, 2) and
    (0, 2, 3) of the face's own four vertices.  Every index addresses a
    vertex that was stored.  The colour passed in is not used: the
    vertices carry the colours of the faces. *)
Theorem model_object_cube_mesh (fuel : nat) (s : F32.float) (col_ : vec4f) :
  (32 <= fuel)%nat ->
  exists mo,
    model_object_cube fuel model_object_init s col_ = Done mo
    /\ count (vb mo) = 24
    /\ capacity (vb mo) = 32
    /\ contents (vb mo) = Some <$> cube_vertices s col_
    /\ count (ib mo) = 36
    /\ contents (ib mo)
       = Some <$> pattern_indices [0; 1; 2; 0; 2; 3] 4 6 0
    /\ Forall (fun i => 0 <= i < count (vb mo))
         (pattern_indices [0; 1; 2; 0; 2; 3] 4 6 0)
    /\ forall col', cube_vertices s col' = cube_vertices s col_.
Proof.
  intros Hfuel.
  assert (Hwfv : array_buffer_wf vertex_buffer_init)
    by (unfold array_buffer_wf; split_and!; vm_compute; congruence).
  assert (Hwfi : array_buffer_wf index_buffer_init)
    by (unfold array_buffer_wf; split_and!; vm_compute; congruence).
  destruct (vertex_buffer_add_all_spec (cube_vertices s col_)
              vertex_buffer_init Hwfv)
    as (vb' & Hall & _ & Hc & Hn & Hcap).
  { rewrite length_cube_vertices. vm_compute. congruence. }
  destruct (index_buffer_add_quads fuel index_buffer_init 6 0 Hwfi)
    as (ib' & Hq & _ & Hci & Hni & Hbound); try lia.
  { vm_compute. congruence. }
  exists (mk_model_object vb' ib').
  unfold model_object_cube. cbv zeta.
  change (vb model_object_init) with vertex_buffer_init.
  change (ib model_object_init) with index_buffer_init.
  change (array_buffer_count vertex_buffer_init) with 0.
  rewrite Hall, outcome_bind_Done, Hq, outcome_bind_Done.
  rewrite length_cube_vertices in Hn, Hcap.
  change (count vertex_buffer_init) with 0 in Hn.
  change (count index_buffer_init) with 0 in Hni.
  change (contents vertex_buffer_init) with (@nil (option vertex)) in Hc.
  change (contents index_buffer_init) with (@nil (option Z)) in Hci.
  change (capacity_after (capacity vertex_buffer_init)
            (count vertex_buffer_init) 24) with 32 in Hcap.
  change (vb (mk_model_object vb' ib')) with vb'.
  change (ib (mk_model_object vb' ib')) with ib'.
  split_and!.
  - reflexivity.
  - rewrite Hn. reflexivity.
  - exact Hcap.
  - rewrite Hc. reflexivity.
  - rewrite Hni. reflexivity.
  - rewrite Hci. reflexivity.
  - rewrite Hn.
    eapply Forall_impl; [exact Hbound|]. intros i Hi. simpl in Hi. lia.
  - intros col'. unfold cube_vertices, t. reflexivity.
Qed.

Lemma model_object_cube_mesh_witness :
  exists mo,
    model_object_cube 32 model_object_init (F32.of_Z 3)
      (F32.f_0, F32.f_0, F32.f_0, F32.f_0) = Done mo
    /\ count (vb mo) = 24
    /\ count (ib mo) = 36.
Proof.
  destruct (model_object_cube_mesh 32 (F32.of_Z 3)
              (F32.f_0, F32.f_0, F32.f_0, F32.f_0) ltac:(lia))
    as (mo & Hm & Hv & _ & _ & Hi & _).
  exists mo. exact (conj Hm (conj Hv Hi)).
Defined.

End Cube.

(** ** The command line *)

Section Options.

Import CommandLine.

Variable atoi : string -> Z.

Implicit Types (o : options) (args : list string).

Ltac in_list := rewrite !elem_of_cons; auto 10.

Lemma match_option_true (arg opt longopt : string) :
  match_option arg opt longopt = true -> arg = opt \/ arg = longopt.
Proof.
  unfold match_option. intros H. apply orb_prop in H as [H|H];
    apply String.eqb_eq in H; [left|right]; exact H.
Qed.

(** Once [help] is set, no later option clears it. *)
Lemma parse_options_help_grows (n : nat) : forall args o,
  (length args <= n)%nat ->
  help o <> 0 -> help (parse_options atoi args o) <> 0.
Proof.
  induction n as [|n IH]; intros args o Hlen Ho.
  - destruct args; [exact Ho|simpl in Hlen; lia].
  - destruct args as [|arg rest]; [exact Ho|]. simpl in Hlen.
    simpl parse_options.
    destruct (match_option arg "-h" "--help");
      [apply IH; [lia|simpl; discriminate]|].
    destruct (match_option arg "-t" "--trace"); [apply IH; [lia|exact Ho]|].
    destruct (match_option arg "-d" "--debug"); [apply IH; [lia|exact Ho]|].
    destruct (match_option arg "-n" "--no-sync"); [apply IH; [lia|exact Ho]|].
    destruct (match_option arg "-f" "--frame-rate");
      [destruct rest as [|v rest]|].
    + apply IH; [simpl; lia|simpl; discriminate].
    + apply IH; [simpl in *; lia|exact Ho].
    + apply IH; [lia|simpl; discriminate].
Qed.

Lemma parse_options_accepted (n : nat) : forall args o,
  (length args <= n)%nat ->
  help (parse_options atoi args o) = 0 ->
  help o = 0 /\ command_line args.
Proof.
  induction n as [|n IH]; intros args o Hlen Hp.
  - destruct args; [split; [exact Hp|constructor]|simpl in Hlen; lia].
  - destruct args as [|arg rest]; [split; [exact Hp|constructor]|].
    simpl in Hlen. simpl parse_options in Hp.
    destruct (match_option arg "-h" "--help") eqn:Hh.
    { exfalso. revert Hp. apply (parse_options_help_grows (length rest));
        [lia|simpl; discriminate]. }
    destruct (match_option arg "-t" "--trace") eqn:Ht.
    { apply IH in Hp as [Ho Hc]; [|lia]. split; [exact Ho|].
      apply command_line_flag; [|exact Hc].
      apply match_option_true in Ht as [-> | ->]; in_list. }
    destruct (match_option arg "-d" "--debug") eqn:Hd.
    { apply IH in Hp as [Ho Hc]; [|lia]. split; [exact Ho|].
      apply command_line_flag; [|exact Hc].
      apply match_option_true in Hd as [-> | ->]; in_list. }
    destruct (match_option arg "-n" "--no-sync") eqn:Hn.
    { apply IH in Hp as [Ho Hc]; [|lia]. split; [exact Ho|].
      apply command_line_flag; [|exact Hc].
      apply match_option_true in Hn as [-> | ->]; in_list. }
    destruct (match_option arg "-f" "--frame-rate") eqn:Hf;
      [destruct rest as [|v rest]|].
    + exfalso. revert Hp. apply (parse_options_help_grows 0);
        [simpl; lia|simpl; discriminate].
    + apply IH in Hp as [Ho Hc]; [|simpl in *; lia]. split; [exact Ho|].
      apply command_line_rate; [|exact Hc].
      apply match_option_true in Hf as [-> | ->]; in_list.
    + exfalso. revert Hp. apply (parse_options_help_grows (length rest));
        [lia|simpl; discriminate].
Qed.

Lemma parse_options_accepts args :
  command_line args ->
  forall o, help o = 0 -> help (parse_options atoi args o) = 0.
Proof.
  induction 1 as [|arg rest Harg _ IH|arg value rest Harg _ IH]; intros o Ho.
  - exact Ho.
  - repeat (apply elem_of_cons in Harg as [->|Harg]);
      [..|apply elem_of_nil in Harg; contradiction];
      simpl parse_options; apply IH; exact Ho.
  - repeat (apply elem_of_cons in Harg as [->|Harg]);
      [..|apply elem_of_nil in Harg; contradiction];
      simpl parse_options; apply IH; exact Ho.
Qed.

Lemma parse_options_trace_debug (n : nat) : forall args o,
  (length args <= n)%nat ->
  (trace o <> 0 -> debug o <> 0) ->
  trace (parse_options atoi args o) <> 0 ->
  debug (parse_options atoi args o) <> 0.
Proof.
  induction n as [|n IH]; intros args o Hlen Ho.
  - destruct args; [exact Ho|simpl in Hlen; lia].
  - destruct args as [|arg rest]; [exact Ho|]. simpl in Hlen.
    simpl parse_options.
    destruct (match_option arg "-h" "--help"); [apply IH; [lia|exact Ho]|].
    destruct (match_option arg "-t" "--trace");
      [apply IH; [lia|simpl; discriminate]|].
    destruct (match_option arg "-d" "--debug");
      [apply IH; [lia|simpl; discriminate]|].
    destruct (match_option arg "-n" "--no-sync"); [apply IH; [lia|exact Ho]|].
    destruct (match_option arg "-f" "--frame-rate");
      [destruct rest as [|v rest]|].
    + apply IH; [simpl; lia|exact Ho].
    + apply IH; [simpl in *; lia|exact Ho].
    + apply IH; [lia|exact Ho].
Qed.

(** X30.  The command line.  [main] goes on to [app_run] (the [help]
    flag stays 0) exactly for the command lines of the usage text: any
    number of [-t], [-d], [-n] flags, in short or long form, and of
    [-f] options each followed by a value.  Anything else, [-h], an
    option it does not know or a [-f] that is the last argument, ends
    in the usage message.  Whenever trace messages are on, debug
    messages are on too. *)
Theorem main_accepts_command_lines args :
  (help (parse_options atoi args options_init) = 0 <-> command_line args)
  /\ (trace (parse_options atoi args options_init) <> 0 ->
      debug (parse_options atoi args options_init) <> 0).
Proof.
  split; [split|].
  - intros Hp. apply (parse_options_accepted (length args)) in Hp; [|lia].
    apply Hp.
  - intros Hc. apply parse_options_accepts; [exact Hc|reflexivity].
  - apply (parse_options_trace_debug (length args)); [lia|].
    simpl. intros H. contradiction.
Qed.

End Options.

(** ** High-water marks of the confirmation serials *)

Section HighWaterMarks.

Implicit Types (st : state) (l : client_data).

Lemma carried_serial_halves l :
  0 <= l0 l < 2 ^ 32 -> 0 <= l1 l < 2 ^ 32 ->
  carried_serial l = l1 l * 2 ^ 32 + l0 l
  /\ message_sync_serial l = carried_serial l.
Proof.
  intros H0 H1. unfold carried_serial, to_uint.
  rewrite !Z.mod_small by lia.
  split; [reflexivity|apply message_sync_serial_halves; assumption].
Qed.

(** With both halves arriving in 0..2^32-1, the marks are high-water
    marks of the serial carried: a frame-drawn (frame-timings) message
    whose serial is above the drawn (timing) serial replaces it and
    leaves every other serial and flag alone; one whose serial is not
    above it changes no serial or flag.  No call is made and the
    averaging buffers are untouched. *)
Lemma frame_serials_high_water_mark st (ser : Z) (win : XID) l :
  atoms_distinct (xserver st) ->
  0 <= l0 l < 2 ^ 32 -> 0 <= l1 l < 2 ^ 32 ->
  let s := carried_serial l in
  let st_d :=
    process_event (ClientMessage ser win (_NET_WM_FRAME_DRAWN (xserver st)) l) st in
  let st_t :=
    process_event (ClientMessage ser win (_NET_WM_FRAME_TIMINGS (xserver st)) l) st in
  (drawn_sync_serial (sync st) < s ->
     drawn_sync_serial (sync st_d) = s
     /\ timing_sync_serial (sync st_d) = timing_sync_serial (sync st)
     /\ current_sync_serial (sync st_d) = current_sync_serial (sync st)
     /\ inflight_sync_serial (sync st_d) = inflight_sync_serial (sync st)
     /\ request_sync_serial (sync st_d) = request_sync_serial (sync st)
     /\ configure_sync_serial (sync st_d) = configure_sync_serial (sync st)
     /\ request_extended_sync (sync st_d) = request_extended_sync (sync st)
     /\ configure_extended_sync (sync st_d)
        = configure_extended_sync (sync st))
  /\ (s <= drawn_sync_serial (sync st) -> sync st_d = sync st)
  /\ (timing_sync_serial (sync st) < s ->
      timing_sync_serial (sync st_t) = s
      /\ drawn_sync_serial (sync st_t) = drawn_sync_serial (sync st)
      /\ current_sync_serial (sync st_t) = current_sync_serial (sync st)
      /\ inflight_sync_serial (sync st_t) = inflight_sync_serial (sync st)
      /\ request_sync_serial (sync st_t) = request_sync_serial (sync st)
      /\ configure_sync_serial (sync st_t) = configure_sync_serial (sync st)
      /\ request_extended_sync (sync st_t) = request_extended_sync (sync st)
      /\ configure_extended_sync (sync st_t)
         = configure_extended_sync (sync st))
  /\ (s <= timing_sync_serial (sync st) -> sync st_t = sync st)
  /\ calls st_d = calls st /\ calls st_t = calls st
  /\ frame_time_buffer st_d = frame_time_buffer st
  /\ frame_time_buffer st_t = frame_time_buffer st
  /\ render_time_buffer st_d = render_time_buffer st
  /\ render_time_buffer st_t = render_time_buffer st.
Proof.
  intros Hatoms H0 H1 s st_d st_t.
  destruct (carried_serial_halves l H0 H1) as [_ Hs].
  destruct (atoms_distinct_frame_messages _ Hatoms) as (Hd & Ht & Htd).
  assert (Ed := process_frame_drawn st ser win l Hd).
  assert (Et := process_frame_timings st ser win l Ht Htd).
  rewrite Hs in Ed, Et. fold st_d s in Ed. fold st_t s in Et.
  split_and!.
  - intros Hlt. apply Z.ltb_lt in Hlt. rewrite Ed, Hlt.
    autorewrite with state_proj. rewrite sync_entered.
    destruct (sync st) as [re ce cur rq cf inf dr tm].
    split_and!; reflexivity.
  - intros Hle. apply Z.ltb_ge in Hle. rewrite Ed, Hle. reflexivity.
  - intros Hlt. apply Z.ltb_lt in Hlt. rewrite Et, Hlt.
    autorewrite with state_proj. rewrite sync_entered.
    destruct (sync st) as [re ce cur rq cf inf dr tm].
    split_and!; reflexivity.
  - intros Hle. apply Z.ltb_ge in Hle. rewrite Et, Hle. reflexivity.
  - rewrite Ed. destruct (drawn_sync_serial _ <? _); reflexivity.
  - rewrite Et. destruct (timing_sync_serial _ <? _); reflexivity.
  - rewrite Ed. destruct (drawn_sync_serial _ <? _); reflexivity.
  - rewrite Et. destruct (timing_sync_serial _ <? _); reflexivity.
  - rewrite Ed. destruct (drawn_sync_serial _ <? _); reflexivity.
  - rewrite Et. destruct (timing_sync_serial _ <? _); reflexivity.
Qed.

(** C6.  The marks are not high-water marks of the serial carried when
    the low half has its top bit set.  With serial 2^32 confirmed as
    drawn and timed, a message that carries the smaller serial 2^31
    (low half 0x80000000, which arrives in the [long] [l[0]] as -2^31;
    high half 0) is decoded by [((long)l[1] << 32) | l[0]] as
    2^64 - 2^31, which is above the mark: the drawn mark, and with a
    frame-timings message the timing mark, moves to 2^64 - 2^31 where
    the state should not change. *)
Theorem frame_serial_below_mark_moves_mark :
  carried_serial sample_serial_2_31 = 2 ^ 31
  /\ drawn_sync_serial (sync sample_marked_state) = 2 ^ 32
  /\ timing_sync_serial (sync sample_marked_state) = 2 ^ 32
  /\ drawn_sync_serial
       (sync (process_event (ClientMessage 5 9 305 sample_serial_2_31)
                sample_marked_state))
     = 2 ^ 64 - 2 ^ 31
  /\ timing_sync_serial
       (sync (process_event (ClientMessage 6 9 306 sample_serial_2_31)
                sample_marked_state))
     = 2 ^ 64 - 2 ^ 31.
Proof. vm_compute. split_and!; reflexivity. Qed.

End HighWaterMarks.
